(** * Call orchestration of the AI virtual assistant: a shallow embedding

    The Python sources embedded here are
    - [src/models/call.py], [src/models/voice_profile.py] (rows),
    - [src/services/phone/twilio_service.py] (TwiML rendering),
    - [src/services/ai/openai_service.py] (completion client),
    - [src/services/voice/elevenlabs_service.py] (speech synthesis),
    - [src/agents/phone_agent.py] (reply generation),
    - [src/services/phone/call_handler.py] (the orchestrator),
    - [src/api/webhooks/twilio.py] (the webhook routes),
    - [src/core/security.py] (masking), [src/core/logging.py] (censoring).

    Effects are explicit: every method is a function from a [World] to a
    result and a new [World].  An exception is a result [Raise e]; the
    world reached when it is raised is kept, as Python keeps side effects
    done before a [raise].  External parties (database driver, completion
    provider, synthesis provider) are scripted inside the world: each
    interaction consumes the next scripted outcome, so that theorems
    quantify over every possible behaviour of these parties. *)

From Stdlib Require Import String Ascii List Bool Arith PeanoNat Lia QArith.
Import ListNotations.
Local Open Scope string_scope.
Local Open Scope list_scope.
Local Open Scope nat_scope.

Set Implicit Arguments.
Set Warnings "-register-all".

(** String concatenation and equality, kept apart from the list and
    number notations. *)
Infix "+++" := String.append (right associativity, at level 60).
Infix "==" := String.eqb (no associativity, at level 70).

(* ================================================================== *)
(** ** Python values and truthiness *)

(** Values that [json.loads] can produce (numbers keep their literal). *)
Inductive PyValue : Type :=
| PyNone
| PyBool (b : bool)
| PyNum (literal : string)
| PyStr (s : string)
| PyList (items : list PyValue)
| PyDict (entries : list (string * PyValue)).

(** [x or y] on optional strings: [None] and the empty string are falsy. *)
Definition str_truthy (s : string) : bool := negb (s == "").

Definition opt_truthy (o : option string) : bool :=
  match o with
  | Some s => str_truthy s
  | None => false
  end.

Definition py_or (a b : option string) : option string :=
  if opt_truthy a then a else b.

(** [a or b] where [b] is a plain string. *)
Definition py_or_str (a : option string) (b : string) : string :=
  match a with
  | Some s => if str_truthy s then s else b
  | None => b
  end.

(** [n or m] on optional integers: [None] and [0] are falsy. *)
Definition py_or_nat (a : option nat) (b : nat) : nat :=
  match a with
  | Some 0 => b
  | Some n => n
  | None => b
  end.

(** [s[:n]] (counted in bytes of the UTF-8 encoding). *)
Definition py_prefix (n : nat) (s : string) : string := substring 0 n s.

(** [d.get(key)]: [None] when the key is absent. *)
Fixpoint dict_get (d : list (string * PyValue)) (key : string) : PyValue :=
  match d with
  | [] => PyNone
  | (k, v) :: rest => if k == key then v else dict_get rest key
  end.

(** [sep.join(parts)]. *)
Fixpoint join (sep : string) (parts : list string) : string :=
  match parts with
  | [] => ""
  | [p] => p
  | p :: rest => p +++ sep +++ join sep rest
  end.

(* ================================================================== *)
(** ** Exceptions *)

Inductive Exn : Type :=
| OpenAISDKError (msg : string)      (* openai.OpenAIError and subclasses *)
| OpenAIError (msg : string)         (* src.core.exceptions.OpenAIError *)
| ElevenLabsError (msg : string)     (* src.core.exceptions.ElevenLabsError *)
| JSONDecodeError (msg : string)
| AttributeError (msg : string)
| TypeError (msg : string)
| IndexError (msg : string)
| MultipleResultsFound               (* sqlalchemy.exc *)
| IntegrityError (msg : string)      (* sqlalchemy.exc, unique violation *)
| OperationalError (msg : string)    (* sqlalchemy.exc, driver failure *)
| ProviderError (msg : string).      (* any other exception of an SDK *)

(** [str(e)]. *)
Definition exn_str (e : Exn) : string :=
  match e with
  | OpenAISDKError m | OpenAIError m | ElevenLabsError m
  | JSONDecodeError m | AttributeError m | TypeError m | IndexError m
  | IntegrityError m | OperationalError m | ProviderError m => m
  | MultipleResultsFound =>
      "Multiple rows were found when one or none was required"
  end.

Inductive Result (A : Type) : Type :=
| Ok (a : A)
| Raise (e : Exn).

Arguments Ok {A} a.
Arguments Raise {A} e.

Definition is_ok {A} (r : Result A) : bool :=
  match r with Ok _ => true | Raise _ => false end.

(* ================================================================== *)
(** ** Rows: [src/models/call.py], [src/models/voice_profile.py] *)

Inductive CallDirection := INBOUND | OUTBOUND.

Inductive CallStatus :=
| INITIATED | RINGING | IN_PROGRESS | COMPLETED
| BUSY | FAILED | NO_ANSWER | CANCELED.

(** The primary key [id] comes from [BaseModel] ([src/models/base.py],
    missing from the sources); section 3 of the specification gives every
    row an identifier.  Keys are numbers here, and a new key is one that
    occurs nowhere in the store ([fresh_id]). *)
Record Call : Type := mkCall {
  call_id : nat;
  twilio_call_sid : string;
  direction : CallDirection;
  from_number : string;
  to_number : string;
  status : CallStatus;
  duration : option nat;
  recording_url : option string
}.

(** One entry of [Conversation.messages]. *)
Record Message : Type := mkMessage {
  role : string;
  content : string;
  timestamp : nat
}.

(** Modelled from the spec: the [Conversation] model
    ([src/models/conversation.py]) is missing from the sources.  Per
    section 3 of the specification a conversation belongs to a Call by
    foreign key and holds an ordered message sequence and the derived
    fields summary, intent and sentiment; the handlers assign to exactly
    these columns.  [intent] and [sentiment] hold whatever [dict.get]
    returned. *)
Record Conversation : Type := mkConversation {
  conv_id : nat;
  conv_call_id : nat;
  messages : list Message;
  summary : option string;
  intent : PyValue;
  sentiment : PyValue
}.

Record VoiceProfile : Type := mkVoiceProfile {
  vp_id : nat;
  vp_name : string;
  elevenlabs_voice_id : string;
  is_active : bool
}.

Record DB : Type := mkDB {
  calls : list Call;
  conversations : list Conversation;
  voice_profiles : list VoiceProfile
}.

Definition list_max (l : list nat) : nat := fold_right Nat.max 0 l.

(** Modelled from the spec: the column default of the identifier
    ([BaseModel], missing from the sources) yields a key unused by any
    row or foreign key of the store. *)
Definition fresh_id (d : DB) : nat :=
  S (list_max (map call_id (calls d)
               ++ map conv_id (conversations d)
               ++ map conv_call_id (conversations d)
               ++ map vp_id (voice_profiles d))).

(* ================================================================== *)
(** ** The world *)

Inductive Level := INFO | WARNING | ERROR.

Record LogEntry : Type := mkLog {
  log_level : Level;
  log_event : string;
  log_error : string     (* the [error=str(e)] field, empty when absent *)
}.

(** One chat message sent to the completion provider. *)
Record ChatMsg : Type := mkChat {
  chat_role : string;
  chat_content : string
}.

(** What [client.chat.completions.create] returns, as far as it is read:
    [choices[i].message.content] and [usage.total_tokens]. *)
Record ChatResponse : Type := mkChatResponse {
  choices : list (option string);
  usage_total_tokens : option nat
}.

(** [str | AsyncIterator[str]], the return type of [chat_completion]. *)
Inductive ChatOut : Type :=
| Text (s : string)
| Streaming.

(** Requests sent to the providers. *)
Inductive Request : Type :=
| CompletionRequest (model : string) (msgs : list ChatMsg)
                    (temperature : Q) (max_tokens : nat)
| SynthesisRequest (text : string) (voice : string) (model : string)
                   (stability : Q) (similarity_boost : Q).

Record World : Type := mkWorld {
  db : DB;                     (* rows that are durable (committed) *)
  session : DB;                (* rows as the request's AsyncSession holds them *)
  commits : list DB;           (* every state made durable, oldest first *)
  db_faults : list bool;       (* outcome of the next database round trips:
                                  [true] is a driver failure *)
  openai_replies : list (Result ChatResponse);
  elevenlabs_replies : list (Result string);
  requests : list Request;     (* provider requests issued, oldest first *)
  logs : list LogEntry;        (* oldest first *)
  clock : nat
}.

Definition set_session (s : DB) (w : World) : World :=
  mkWorld (db w) s (commits w) (db_faults w) (openai_replies w)
          (elevenlabs_replies w) (requests w) (logs w) (clock w).

Definition set_durable (d : DB) (w : World) : World :=
  mkWorld d d (commits w ++ [d]) (db_faults w) (openai_replies w)
          (elevenlabs_replies w) (requests w) (logs w) (clock w).

Definition set_db_faults (f : list bool) (w : World) : World :=
  mkWorld (db w) (session w) (commits w) f (openai_replies w)
          (elevenlabs_replies w) (requests w) (logs w) (clock w).

Definition set_openai_replies (r : list (Result ChatResponse)) (w : World)
  : World :=
  mkWorld (db w) (session w) (commits w) (db_faults w) r
          (elevenlabs_replies w) (requests w) (logs w) (clock w).

Definition set_elevenlabs_replies (r : list (Result string)) (w : World)
  : World :=
  mkWorld (db w) (session w) (commits w) (db_faults w) (openai_replies w)
          r (requests w) (logs w) (clock w).

Definition add_request (r : Request) (w : World) : World :=
  mkWorld (db w) (session w) (commits w) (db_faults w) (openai_replies w)
          (elevenlabs_replies w) (requests w ++ [r]) (logs w) (clock w).

Definition add_log (e : LogEntry) (w : World) : World :=
  mkWorld (db w) (session w) (commits w) (db_faults w) (openai_replies w)
          (elevenlabs_replies w) (requests w) (logs w ++ [e]) (clock w).

Definition tick (w : World) : World :=
  mkWorld (db w) (session w) (commits w) (db_faults w) (openai_replies w)
          (elevenlabs_replies w) (requests w) (logs w) (S (clock w)).

(** What the completion provider answers next: its next scripted outcome,
    a connection error once the script is used up. *)
Definition next_reply (script : list (Result ChatResponse))
  : Result ChatResponse :=
  match script with
  | r :: _ => r
  | [] => Raise (OpenAISDKError "Connection error.")
  end.

Definition next_completion (w : World) : Result ChatResponse :=
  next_reply (openai_replies w).

(** What the synthesis provider answers next. *)
Definition next_synthesis (w : World) : Result string :=
  match elevenlabs_replies w with
  | r :: _ => r
  | [] => Raise (ProviderError "Connection error.")
  end.

(** [get_db]: each webhook request works on a new session, which holds
    nothing but what is durable. *)
Definition open_session (w : World) : World := set_session (db w) w.

(* ================================================================== *)
(** ** State and exception monad *)

Definition M (A : Type) : Type := World -> Result A * World.

Definition ret {A} (a : A) : M A := fun w => (Ok a, w).

Definition raise {A} (e : Exn) : M A := fun w => (Raise e, w).

Definition bind {A B} (m : M A) (k : A -> M B) : M B :=
  fun w =>
    match m w with
    | (Ok a, w') => k a w'
    | (Raise e, w') => (Raise e, w')
    end.

(** [try: m  except Exception as e: h e]. *)
Definition try_except {A} (m : M A) (h : Exn -> M A) : M A :=
  fun w =>
    match m w with
    | (Ok a, w') => (Ok a, w')
    | (Raise e, w') => h e w'
    end.

Declare Scope py_scope.
Delimit Scope py_scope with py.
Notation "x <- m ;; k" := (bind m (fun x => k))
  (at level 61, m at next level, right associativity) : py_scope.
Notation "m ;; k" := (bind m (fun _ => k))
  (at level 61, right associativity) : py_scope.
Local Open Scope py_scope.

Definition logger (lvl : Level) (event : string) (err : string) : M unit :=
  fun w => (Ok tt, add_log (mkLog lvl event err) w).

(** [datetime.utcnow()]. *)
Definition now : M nat := fun w => (Ok (clock w), tick w).

(* ================================================================== *)
(** ** Database session: [sqlalchemy.ext.asyncio.AsyncSession] *)

(** One round trip to the database server. *)
Definition round_trip : M unit :=
  fun w =>
    (match db_faults w with
     | true :: _ => Raise (OperationalError "connection failure")
     | _ => Ok tt
     end,
     set_db_faults (tl (db_faults w)) w).

(** [Result.scalar_one_or_none()]. *)
Definition scalar_one_or_none {A} (rows : list A) : M (option A) :=
  match rows with
  | [] => ret None
  | [x] => ret (Some x)
  | _ :: _ :: _ => raise MultipleResultsFound
  end.

(** [db.execute(select(Call).where(Call.twilio_call_sid == call_sid))]. *)
Definition select_calls_by_sid (call_sid : string) : M (list Call) :=
  round_trip ;;
  fun w =>
    (Ok (filter (fun c => twilio_call_sid c == call_sid) (calls (session w))),
     w).

(** [db.execute(select(Conversation).where(Conversation.call_id == id))]. *)
Definition select_conversations_by_call (id : nat) : M (list Conversation) :=
  round_trip ;;
  fun w =>
    (Ok (filter (fun v => conv_call_id v =? id) (conversations (session w))),
     w).

(** [db.execute(select(VoiceProfile).where(is_active == True).limit(1))]. *)
Definition select_active_voice_profiles : M (list VoiceProfile) :=
  round_trip ;;
  fun w => (Ok (firstn 1 (filter is_active (voice_profiles (session w)))), w).

(** [db.add(Call(...))]: the key comes from the column default. *)
Definition db_add_call (sid : string) (dir : CallDirection)
           (from to : string) (st : CallStatus) : M Call :=
  fun w =>
    let s := session w in
    let c := mkCall (fresh_id s) sid dir from to st None None in
    (Ok c,
     set_session (mkDB (calls s ++ [c]) (conversations s) (voice_profiles s))
       w).

(** [db.add(Conversation(call_id=..., messages=...))]. *)
Definition db_add_conversation (cid : nat) (msgs : list Message)
  : M Conversation :=
  fun w =>
    let s := session w in
    let v := mkConversation (fresh_id s) cid msgs None PyNone PyNone in
    (Ok v,
     set_session (mkDB (calls s) (conversations s ++ [v]) (voice_profiles s))
       w).

(** A loaded row is a shared object: assigning to its attributes changes
    the row the session holds (rows are found by primary key). *)
Definition put_call (c : Call) (d : DB) : DB :=
  mkDB (map (fun x => if call_id x =? call_id c then c else x) (calls d))
       (conversations d) (voice_profiles d).

Definition put_conversation (v : Conversation) (d : DB) : DB :=
  mkDB (calls d)
       (map (fun x => if conv_id x =? conv_id v then v else x)
            (conversations d))
       (voice_profiles d).

Definition store_call (c : Call) : M unit :=
  fun w => (Ok tt, set_session (put_call c (session w)) w).

Definition store_conversation (v : Conversation) : M unit :=
  fun w => (Ok tt, set_session (put_conversation v (session w)) w).

(** [twilio_call_sid] is declared [unique=True]: inserting a row whose
    session id another row carries violates the index. *)
Definition sid_count (sid : string) (l : list Call) : nat :=
  length (filter (fun c => twilio_call_sid c == sid) l).

Definition is_new_call (durable : DB) (c : Call) : bool :=
  negb (existsb (fun x => call_id x =? call_id c) (calls durable)).

Definition unique_violation (durable pending : DB) : bool :=
  existsb (fun c => is_new_call durable c
                    && (1 <? sid_count (twilio_call_sid c) (calls pending)))
          (calls pending).

(** [db.commit()]: flush and commit, or roll back and raise. *)
Definition db_commit : M unit :=
  fun w =>
    match round_trip w with
    | (Raise e, w') => (Raise e, set_session (db w') w')
    | (Ok _, w') =>
        if unique_violation (db w') (session w')
        then (Raise (IntegrityError "duplicate key value violates unique constraint"),
              set_session (db w') w')
        else (Ok tt, set_durable (session w') w')
    end.

(* ================================================================== *)
(** ** Configuration: [src/config.py] *)

Record Settings : Type := mkSettings {
  twilio_webhook_url : option string;
  openai_model : string;
  openai_max_tokens : nat;
  openai_temperature : Q;
  elevenlabs_default_voice_id : option string;
  elevenlabs_model : string
}.

(** The double quote character, for the prompts that contain it. *)
Definition dq : string := String (ascii_of_nat 34) EmptyString.

(** [f"{x}"] for an optional string. *)
Definition fmt_opt (o : option string) : string :=
  match o with
  | Some s => s
  | None => "None"
  end.

(* ================================================================== *)
(** ** Call-control markup: [twilio.twiml.voice_response]

    A [VoiceResponse] is kept as the sequence of verbs appended to it;
    the methods of [TwilioService] return what the source passes to
    [str(response)]. *)

Inductive Verb : Type :=
| Say (text : string) (language : string)
| Play (url : string)
| Gather (input action method speech_timeout language : string)
         (says : list (string * string))
| Hangup.

Definition TwiML : Type := list Verb.

(* ================================================================== *)
(** ** [TwilioService]: [src/services/phone/twilio_service.py] *)

Module TwilioService.
Section Methods.

Variable settings : Settings.

Definition gather_action : string :=
  fmt_opt (twilio_webhook_url settings) +++ "/gather".

Definition generate_greeting_twiml (message : option string) : TwiML :=
  let greeting :=
    py_or_str message
      "Hello! I am your AI assistant. How can I help you today?" in
  let gather :=
    Gather "speech" gather_action "POST" "auto" "es-ES"
           [(greeting, "es-ES")] in
  [gather; Say "I didn't receive any input. Goodbye!" "es-ES"; Hangup].

Definition generate_response_twiml (message : string)
           (audio_url : option string) (continue_conversation : bool)
  : TwiML :=
  let first :=
    match audio_url with
    | Some u => if str_truthy u then Play u else Say message "es-ES"
    | None => Say message "es-ES"
    end in
  if continue_conversation
  then [first; Gather "speech" gather_action "POST" "auto" "es-ES" []]
  else [first; Say "Thank you for calling. Goodbye!" "es-ES"; Hangup].

Definition generate_hangup_twiml (message : option string) : TwiML :=
  match message with
  | Some m => if str_truthy m then [Say m "es-ES"; Hangup] else [Hangup]
  | None => [Hangup]
  end.

End Methods.
End TwilioService.

(* ================================================================== *)
(** ** [OpenAIService]: [src/services/ai/openai_service.py] *)

Module OpenAIService.
Section Methods.

Variable settings : Settings.

(** [json.loads], a function of the Python library. *)
Variable json_loads : string -> Result PyValue.

(** [client.chat.completions.create]: the request leaves, and the
    provider answers with its next scripted outcome. *)
Definition completions_create (model : string) (msgs : list ChatMsg)
           (temperature : Q) (max_tokens : nat) : M ChatResponse :=
  fun w =>
    (next_completion w,
     set_openai_replies (tl (openai_replies w))
       (add_request (CompletionRequest model msgs temperature max_tokens) w)).

(** [choices[0]]. *)
Definition first_choice (r : ChatResponse) : M (option string) :=
  match choices r with
  | c :: _ => ret c
  | [] => raise (IndexError "list index out of range")
  end.

Definition chat_completion (msgs : list ChatMsg) (model : option string)
           (temperature : option Q) (max_tokens : option nat) (stream : bool)
  : M ChatOut :=
  try_except
    (let model_to_use := py_or_str model (openai_model settings) in
     let temp :=
       match temperature with
       | Some t => t
       | None => openai_temperature settings
       end in
     let tokens := py_or_nat max_tokens (openai_max_tokens settings) in
     logger INFO "Generating chat completion" "" ;;
     if stream then ret Streaming
     else
       response <- completions_create model_to_use msgs temp tokens ;;
       choice <- first_choice response ;;
       let content := py_or_str choice "" in
       logger INFO "Chat completion generated" "" ;;
       ret (Text content))
    (fun e =>
       match e with
       | OpenAISDKError _ =>
           logger ERROR "OpenAI API error" (exn_str e) ;;
           raise (OpenAIError ("Chat completion failed: " +++ exn_str e))
       | _ =>
           logger ERROR "Unexpected error" (exn_str e) ;;
           raise (OpenAIError ("Unexpected error: " +++ exn_str e))
       end).

(** [json.loads(response)]. *)
Definition loads (response : ChatOut) : M PyValue :=
  match response with
  | Text s =>
      match json_loads s with
      | Ok v => ret v
      | Raise e => raise e
      end
  | Streaming =>
      raise (TypeError "the JSON object must be str, bytes or bytearray")
  end.

(** [value.get(key)]: only a dict has the method. *)
Definition py_get (value : PyValue) (key : string) : M PyValue :=
  match value with
  | PyDict d => ret (dict_get d key)
  | _ => raise (AttributeError "object has no attribute 'get'")
  end.

Definition sentiment_prompt (text : string) : string :=
  "Analyze the sentiment of the following text and provide:
1. Overall sentiment (positive, negative, or neutral)
2. Confidence score (0.0 to 1.0)
3. Key emotions detected

Text: " +++ dq +++ text +++ dq +++ "

Respond in JSON format:
{" +++ dq +++ "sentiment" +++ dq +++ ": " +++ dq
   +++ "positive|negative|neutral" +++ dq +++ ", " +++ dq +++ "confidence"
   +++ dq +++ ": 0.0-1.0, " +++ dq +++ "emotions" +++ dq +++ ": [" +++ dq
   +++ "emotion1" +++ dq +++ ", " +++ dq +++ "emotion2" +++ dq +++ "]}
".

Definition sentiment_default : PyValue :=
  PyDict [("sentiment", PyStr "neutral");
          ("confidence", PyNum "0.5");
          ("emotions", PyList [])].

Definition analyze_sentiment (text : string) : M PyValue :=
  try_except
    (let prompt := sentiment_prompt text in
     let msgs :=
       [mkChat "system" "You are a sentiment analysis expert.";
        mkChat "user" prompt] in
     response <- chat_completion msgs None (Some 0%Q) None false ;;
     result <- loads response ;;
     _ <- py_get result "sentiment" ;;
     logger INFO "Sentiment analyzed" "" ;;
     ret result)
    (fun e =>
       logger ERROR "Sentiment analysis failed" (exn_str e) ;;
       ret sentiment_default).

Definition intent_prompt (text : string) : string :=
  "Detect the intent of the following user message:

Message: " +++ dq +++ text +++ dq +++ "

Classify into one of these intents:
- information_request: User wants information
- appointment_scheduling: User wants to schedule or modify an appointment
- complaint: User has a complaint or issue
- general_inquiry: General question
- greeting: Greeting or small talk
- other: None of the above

Respond in JSON format:
{" +++ dq +++ "intent" +++ dq +++ ": " +++ dq +++ "intent_name" +++ dq
   +++ ", " +++ dq +++ "confidence" +++ dq +++ ": 0.0-1.0, " +++ dq
   +++ "entities" +++ dq +++ ": {}, " +++ dq +++ "summary" +++ dq +++ ": "
   +++ dq +++ "brief summary" +++ dq +++ "}
".

Definition intent_default (text : string) : PyValue :=
  PyDict [("intent", PyStr "other");
          ("confidence", PyNum "0.0");
          ("entities", PyDict []);
          ("summary", PyStr (py_prefix 100 text))].

Definition detect_intent (text : string) : M PyValue :=
  try_except
    (let prompt := intent_prompt text in
     let msgs :=
       [mkChat "system" "You are an intent classification expert.";
        mkChat "user" prompt] in
     response <- chat_completion msgs None (Some 0%Q) None false ;;
     result <- loads response ;;
     _ <- py_get result "intent" ;;
     logger INFO "Intent detected" "" ;;
     ret result)
    (fun e =>
       logger ERROR "Intent detection failed" (exn_str e) ;;
       ret (intent_default text)).

End Methods.
End OpenAIService.

(* ================================================================== *)
(** ** [ElevenLabsService]: [src/services/voice/elevenlabs_service.py] *)

Module ElevenLabsService.
Section Methods.

Variable settings : Settings.

(** [asyncio.to_thread(generate, ...)]: the synthesis request. *)
Definition elevenlabs_generate (text voice model : string)
           (stability similarity_boost : Q) : M string :=
  fun w =>
    (next_synthesis w,
     set_elevenlabs_replies (tl (elevenlabs_replies w))
       (add_request
          (SynthesisRequest text voice model stability similarity_boost) w)).

Definition text_to_speech (text : string) (voice_id : option string)
           (model : option string) (stability similarity_boost : Q)
  : M string :=
  try_except
    (let voice_to_use :=
       py_or voice_id (elevenlabs_default_voice_id settings) in
     let model_to_use := py_or_str model (elevenlabs_model settings) in
     voice <-
       match voice_to_use with
       | Some v =>
           if str_truthy v then ret v
           else raise (ElevenLabsError "No voice ID provided or configured")
       | None => raise (ElevenLabsError "No voice ID provided or configured")
       end ;;
     logger INFO "Generating speech" "" ;;
     audio <- elevenlabs_generate text voice model_to_use
                                  stability similarity_boost ;;
     logger INFO "Speech generated successfully" "" ;;
     ret audio)
    (fun e =>
       logger ERROR "Failed to generate speech" (exn_str e) ;;
       raise (ElevenLabsError ("Text-to-speech failed: " +++ exn_str e))).

End Methods.
End ElevenLabsService.

(* ================================================================== *)
(** ** [Conversation] methods

    The two methods the orchestrator calls follow section 4.2 of the
    specification. *)

(** Modelled from the spec: [Conversation.add_message] is missing from
    the sources.  Per the specification it appends to the ordered message
    sequence and stamps the current time.  The conversation is a row the
    session holds, so the row changes with the object. *)
Definition add_message (conversation : Conversation) (r c : string)
  : M Conversation :=
  t <- now ;;
  let conversation' :=
    mkConversation (conv_id conversation) (conv_call_id conversation)
                   (messages conversation ++ [mkMessage r c t])
                   (summary conversation) (intent conversation)
                   (sentiment conversation) in
  store_conversation conversation' ;;
  ret conversation'.

(** Modelled from the spec: [Conversation.get_messages_for_llm] is
    missing from the sources.  Per the specification it returns the
    stored messages in order as role and content pairs, timestamps
    stripped. *)
Definition get_messages_for_llm (conversation : Conversation)
  : list ChatMsg :=
  map (fun m => mkChat (role m) (content m)) (messages conversation).

(** Attribute assignments on loaded rows. *)
Definition with_status (s : CallStatus) (c : Call) : Call :=
  mkCall (call_id c) (twilio_call_sid c) (direction c) (from_number c)
         (to_number c) s (duration c) (recording_url c).

Definition with_duration (d : option nat) (c : Call) : Call :=
  mkCall (call_id c) (twilio_call_sid c) (direction c) (from_number c)
         (to_number c) (status c) d (recording_url c).

Definition with_recording_url (u : option string) (c : Call) : Call :=
  mkCall (call_id c) (twilio_call_sid c) (direction c) (from_number c)
         (to_number c) (status c) (duration c) u.

Definition with_summary (s : option string) (v : Conversation)
  : Conversation :=
  mkConversation (conv_id v) (conv_call_id v) (messages v) s
                 (intent v) (sentiment v).

Definition with_intent (i : PyValue) (v : Conversation) : Conversation :=
  mkConversation (conv_id v) (conv_call_id v) (messages v) (summary v)
                 i (sentiment v).

Definition with_sentiment (s : PyValue) (v : Conversation) : Conversation :=
  mkConversation (conv_id v) (conv_call_id v) (messages v) (summary v)
                 (intent v) s.

(* ================================================================== *)
(** ** [PhoneAgent]: [src/agents/phone_agent.py] *)

Module PhoneAgent.
Section Methods.

Variable settings : Settings.
Variable json_loads : string -> Result PyValue.

Definition system_prompt : string :=
  "Eres un asistente virtual profesional para una empresa.

Tu función:
- Responder llamadas telefónicas de manera profesional y amigable
- Ayudar a los clientes con sus consultas
- Agendar citas y reuniones
- Buscar información cuando sea necesario
- Tomar mensajes cuando sea apropiado

Personalidad: Profesional, amigable, eficiente

Reglas importantes:
- Siempre confirma detalles importantes (nombres, fechas, horas)
- Si no estás seguro, pide aclaración
- Nunca inventes información
- Ofrece tomar un mensaje si no puedes ayudar
- Mantén las respuestas concisas y claras
- Habla en español de manera natural y profesional
".

(** [context[key]] for a key that is present, [None] otherwise. *)
Fixpoint lookup (context : list (string * string)) (key : string)
  : option string :=
  match context with
  | [] => None
  | (k, v) :: rest => if k == key then Some v else lookup rest key
  end.

Definition _format_context (context : list (string * string)) : string :=
  let part (key label : string) : list string :=
    match lookup context key with
    | Some v => [label +++ v]
    | None => []
    end in
  let parts :=
    part "caller_name" "Nombre del llamante: "
    ++ part "caller_number" "Número: "
    ++ part "business_hours" "Horario de atención: "
    ++ part "company_name" "Empresa: " in
  match parts with
  | [] => "No hay contexto adicional"
  | _ :: _ => join ", " parts
  end.

(** The canned reply of [generate_response]. *)
Definition fallback_response : string :=
  "Disculpa, tuve un problema técnico. ¿Podrías repetir lo que dijiste?".

Definition generate_response (user_message : string)
           (conversation_history : option (list ChatMsg))
           (context : option (list (string * string))) : M string :=
  try_except
    (let msgs := [mkChat "system" system_prompt] in
     let msgs :=
       match conversation_history with
       | Some ((_ :: _) as h) => msgs ++ h
       | _ => msgs
       end in
     let msgs :=
       match context with
       | Some ((_ :: _) as c) =>
           msgs ++ [mkChat "system"
                           ("Contexto adicional: " +++ _format_context c)]
       | _ => msgs
       end in
     let msgs := msgs ++ [mkChat "user" user_message] in
     logger INFO "Generating agent response" "" ;;
     response <- OpenAIService.chat_completion settings msgs None
                   (Some (7 # 10)%Q) (Some 500) false ;;
     logger INFO "Agent response generated" "" ;;
     ret (match response with
          | Text s => s
          | Streaming => ""
          end))
    (fun e =>
       logger ERROR "Failed to generate response" (exn_str e) ;;
       ret fallback_response).

Definition analyze_intent (message : string) : M PyValue :=
  OpenAIService.detect_intent settings json_loads message.

Definition analyze_sentiment (message : string) : M PyValue :=
  OpenAIService.analyze_sentiment settings json_loads message.

End Methods.
End PhoneAgent.

(* ================================================================== *)
(** ** [CallHandler]: [src/services/phone/call_handler.py] *)

Module CallHandler.
Section Methods.

Variable settings : Settings.
Variable json_loads : string -> Result PyValue.

Definition _get_active_voice_profile : M (option VoiceProfile) :=
  try_except
    (rows <- select_active_voice_profiles ;;
     scalar_one_or_none rows)
    (fun _ => ret None).

Definition _save_audio (audio_bytes : string) (call_sid : string)
  : M string :=
  ret ("https://storage.example.com/audio/" +++ call_sid +++ ".mp3").

(** The newline of the join and of the prompt. *)
Definition nl : string := String (ascii_of_nat 10) EmptyString.

(** The canned summary of [_generate_summary]. *)
Definition summary_fallback : string := "Resumen no disponible".

Definition _generate_summary (msgs : list Message) : M string :=
  try_except
    (let conversation_text :=
       join nl (map (fun msg => role msg +++ ": " +++ content msg) msgs) in
     let prompt :=
       "Resume esta conversación telefónica en 2-3 oraciones:" +++ nl +++ nl
       +++ conversation_text +++ nl +++ nl +++ "Resume:" in
     summary <- OpenAIService.chat_completion settings
                  [mkChat "user" prompt] None (Some (3 # 10)%Q) (Some 150)
                  false ;;
     ret (match summary with
          | Text s => s
          | Streaming => ""
          end))
    (fun e =>
       logger ERROR "Failed to generate summary" (exn_str e) ;;
       ret summary_fallback).

Definition greeting : string :=
  "¡Hola! Soy tu asistente virtual. ¿En qué puedo ayudarte hoy?".

Definition handle_incoming_call (call_sid from_number to_number : string)
  : M TwiML :=
  try_except
    (logger INFO "Handling incoming call" "" ;;
     call <- db_add_call call_sid INBOUND from_number to_number IN_PROGRESS ;;
     db_commit ;;
     _ <- db_add_conversation (call_id call) [] ;;
     db_commit ;;
     let twiml := TwilioService.generate_greeting_twiml settings
                    (Some greeting) in
     logger INFO "Initial TwiML generated" "" ;;
     ret twiml)
    (fun e =>
       logger ERROR "Failed to handle incoming call" (exn_str e) ;;
       ret (TwilioService.generate_hangup_twiml
              (Some "Lo siento, hay un problema técnico. Por favor, llama más tarde."))).

(** The inner [try] of [handle_user_speech]: intent, then sentiment. *)
Definition classify (conversation : Conversation) (speech_result : string)
  : M unit :=
  try_except
    (intent_result <- PhoneAgent.analyze_intent settings json_loads
                        speech_result ;;
     i <- OpenAIService.py_get intent_result "intent" ;;
     let conversation := with_intent i conversation in
     store_conversation conversation ;;
     sentiment_result <- PhoneAgent.analyze_sentiment settings json_loads
                           speech_result ;;
     s <- OpenAIService.py_get sentiment_result "sentiment" ;;
     let conversation := with_sentiment s conversation in
     store_conversation conversation)
    (fun e =>
       logger WARNING "Failed to analyze intent/sentiment" (exn_str e)).

Definition handle_user_speech (call_sid speech_result : string) : M TwiML :=
  try_except
    (logger INFO "Handling user speech" "" ;;
     rows <- select_calls_by_sid call_sid ;;
     call <- scalar_one_or_none rows ;;
     match call with
     | None =>
         logger ERROR "Call not found" "" ;;
         ret (TwilioService.generate_hangup_twiml None)
     | Some call =>
         rows <- select_conversations_by_call (call_id call) ;;
         conversation <- scalar_one_or_none rows ;;
         match conversation with
         | None =>
             logger ERROR "Conversation not found" "" ;;
             ret (TwilioService.generate_hangup_twiml None)
         | Some conversation =>
             conversation <- add_message conversation "user" speech_result ;;
             ai_response <-
               PhoneAgent.generate_response settings speech_result
                 (Some (get_messages_for_llm conversation))
                 (Some [("caller_number", from_number call);
                        ("company_name", "Tu Empresa")]) ;;
             conversation <- add_message conversation "assistant"
                               ai_response ;;
             classify conversation speech_result ;;
             db_commit ;;
             voice_profile <- _get_active_voice_profile ;;
             audio_bytes <-
               ElevenLabsService.text_to_speech settings ai_response
                 (option_map elevenlabs_voice_id voice_profile) None
                 (1 # 2)%Q (3 # 4)%Q ;;
             audio_url <- _save_audio audio_bytes call_sid ;;
             let twiml := TwilioService.generate_response_twiml settings
                            ai_response (Some audio_url) true in
             logger INFO "Response TwiML generated" "" ;;
             ret twiml
         end
     end)
    (fun e =>
       logger ERROR "Failed to handle user speech" (exn_str e) ;;
       ret (TwilioService.generate_response_twiml settings
              "Disculpa, tuve un problema. ¿Puedes repetir?" None true)).

Definition handle_call_completed (call_sid : string) (dur : option nat)
           (rec_url : option string) : M unit :=
  try_except
    (logger INFO "Handling call completion" "" ;;
     rows <- select_calls_by_sid call_sid ;;
     call <- scalar_one_or_none rows ;;
     match call with
     | Some call =>
         let call := with_status COMPLETED call in
         store_call call ;;
         let call := with_duration dur call in
         store_call call ;;
         let call := with_recording_url rec_url call in
         store_call call ;;
         rows <- select_conversations_by_call (call_id call) ;;
         conversation <- scalar_one_or_none rows ;;
         match conversation with
         | Some conversation =>
             match messages conversation with
             | _ :: _ =>
                 summary <- _generate_summary (messages conversation) ;;
                 store_conversation (with_summary (Some summary) conversation)
             | [] => ret tt
             end
         | None => ret tt
         end ;;
         db_commit ;;
         logger INFO "Call completed and updated" ""
     | None => ret tt
     end)
    (fun e =>
       logger ERROR "Failed to handle call completion" (exn_str e)).

End Methods.
End CallHandler.

Local Open Scope py_scope.

(* ================================================================== *)
(** ** Webhook routes: [src/api/webhooks/twilio.py]

    A route runs on the session its [get_db] dependency opened.  A
    [Response] is kept as its content, the markup; the JSON replies are
    the dictionaries the routes return. *)

Module TwilioWebhooks.
Section Routes.

Variable settings : Settings.
Variable json_loads : string -> Result PyValue.

(** [int(CallDuration)]: the number of seconds the telephony provider
    sends as a decimal string; for a string [int] rejects, the exception
    it raises, of which the route uses the message only. *)
Variable py_int : string -> Result nat.

(** The three markup literals of the routes. *)
Definition incoming_error_twiml : TwiML :=
  [Say "Lo siento, hay un problema técnico. Por favor, intenta más tarde."
       "es-ES";
   Hangup].



Definition received : PyValue := PyDict [("status", PyStr "received")].

Definition error_reply (e : Exn) : PyValue :=
  PyDict [("status", PyStr "error"); ("message", PyStr (exn_str e))].

(** [POST /voice]. *)
Definition handle_incoming_call (CallSid From To CallStatus : string)
  : M TwiML :=
  try_except
    (logger INFO "Incoming call webhook" "" ;;
     twiml <- CallHandler.handle_incoming_call settings CallSid From To ;;
     ret twiml)
    (fun e =>
       logger ERROR "Error handling incoming call" (exn_str e) ;;
       ret incoming_error_twiml).


(** [int(CallDuration) if CallDuration else None]. *)
Definition parse_duration (CallDuration : option string)
  : Result (option nat) :=
  match CallDuration with
  | Some s =>
      if str_truthy s
      then match py_int s with
           | Ok n => Ok (Some n)
           | Raise e => Raise e
           end
      else Ok None
  | None => Ok None
  end.

(** [POST /status]. *)
Definition handle_call_status (CallSid CallStatus : string)
           (CallDuration RecordingUrl : option string) : M PyValue :=
  try_except
    (logger INFO "Call status update" "" ;;
     (if CallStatus == "completed"
      then
        duration <- (fun w => (parse_duration CallDuration, w)) ;;
        CallHandler.handle_call_completed settings CallSid duration
          RecordingUrl
      else ret tt) ;;
     ret received)
    (fun e =>
       logger ERROR "Error handling call status" (exn_str e) ;;
       ret (error_reply e)).

(** [db.execute(update(Call).where(Call.twilio_call_sid == CallSid)
    .values(recording_url=RecordingUrl))]. *)
Definition with_recording (CallSid RecordingUrl : string) (d : DB) : DB :=
  mkDB (map (fun c => if twilio_call_sid c == CallSid
                      then with_recording_url (Some RecordingUrl) c
                      else c) (calls d))
       (conversations d) (voice_profiles d).

Definition update_recording_url (CallSid RecordingUrl : string) : M unit :=
  round_trip ;;
  fun w => (Ok tt, set_session (with_recording CallSid RecordingUrl
                                  (session w)) w).

(** [POST /recording]. *)
Definition handle_recording_callback
           (CallSid RecordingSid RecordingUrl RecordingStatus : string)
  : M PyValue :=
  try_except
    (logger INFO "Recording callback" "" ;;
     update_recording_url CallSid RecordingUrl ;;
     db_commit ;;
     ret received)
    (fun e =>
       logger ERROR "Error handling recording" (exn_str e) ;;
       ret (error_reply e)).

End Routes.
End TwilioWebhooks.

(* ================================================================== *)
(** ** Voice look-up: [src/services/voice/elevenlabs_service.py]

    The dictionaries of [list_voices] have four fixed keys and are kept
    as records; [category] and [description] are [None] when the SDK
    object lacks the attribute. *)

Record Voice : Type := mkVoice {
  voice_id : string;
  voice_name : string;
  voice_category : option string;
  voice_description : option string
}.

Module ElevenLabsVoices.
Section Methods.

(** What the provider answers to [voices()]. *)
Variable voices_reply : Result (list Voice).

(** [asyncio.to_thread(voices)]. *)
Definition elevenlabs_voices : M (list Voice) :=
  fun w => (voices_reply, w).

Definition list_voices : M (list Voice) :=
  try_except
    (logger INFO "Listing available voices" "" ;;
     voice_list <- elevenlabs_voices ;;
     let results :=
       map (fun voice =>
              mkVoice (voice_id voice) (voice_name voice)
                      (voice_category voice) (voice_description voice))
           voice_list in
     logger INFO "Voices listed successfully" "" ;;
     ret results)
    (fun e =>
       logger ERROR "Failed to list voices" (exn_str e) ;;
       raise (ElevenLabsError ("Failed to list voices: " +++ exn_str e))).

Definition get_voice (id : string) : M Voice :=
  try_except
    (voice_list <- list_voices ;;
     match find (fun v => voice_id v == id) voice_list with
     | Some voice => ret voice
     | None => raise (ElevenLabsError ("Voice not found: " +++ id))
     end)
    (fun e =>
       logger ERROR "Failed to get voice" (exn_str e) ;;
       raise (ElevenLabsError ("Failed to get voice: " +++ exn_str e))).

End Methods.
End ElevenLabsVoices.

(* ================================================================== *)
(** ** Masking: [src/core/security.py]

    A string is its sequence of characters; [len] is [String.length]. *)

(** Where the bound [k] of a slice falls in a string of [len]
    characters: a negative bound counts from the end, and bounds beyond
    either end are clamped. *)
Definition slice_bound (k : Z) (len : nat) : nat :=
  if (k <? 0)%Z
  then Z.to_nat (Z.max 0 (Z.of_nat len + k))
  else Nat.min (Z.to_nat k) len.

(** [s[:k]]. *)
Definition py_slice_to (k : Z) (s : string) : string :=
  substring 0 (slice_bound k (String.length s)) s.

(** [s[k:]]. *)
Definition py_slice_from (k : Z) (s : string) : string :=
  let i := slice_bound k (String.length s) in
  substring i (String.length s - i) s.

(** [s * n]. *)
Fixpoint py_repeat (s : string) (n : nat) : string :=
  match n with
  | 0 => ""
  | S n' => s +++ py_repeat s n'
  end.

Definition mask_sensitive_data (data : string) (show_chars : Z) : string :=
  if (Z.of_nat (String.length data) <=? show_chars * 2)%Z
  then py_repeat "*" (String.length data)
  else py_slice_to show_chars data +++ "..."
       +++ py_slice_from (- show_chars) data.

(** Every character of a string is the star. *)
Fixpoint all_stars (s : string) : bool :=
  match s with
  | EmptyString => true
  | String a s' => Ascii.eqb a "*"%char && all_stars s'
  end.

(* ================================================================== *)
(** ** Log censoring: [src/core/logging.py]

    An event dictionary is a [PyDict]: its entries in insertion order,
    under distinct keys. *)

Module Logging.
Section Censor.

(** [str.lower]. *)
Variable lower : string -> string.

Definition sensitive_keys : list string :=
  ["password"; "token"; "api_key"; "secret"; "authorization";
   "auth_token"; "access_token"; "refresh_token"; "private_key"].

(** [sensitive in key_lower]: the substring test of [str]. *)
Definition py_in (needle hay : string) : bool :=
  match index 0 needle hay with
  | Some _ => true
  | None => false
  end.

(** [any(sensitive in key_lower for sensitive in sensitive_keys)]. *)
Definition is_sensitive (key : string) : bool :=
  existsb (fun sensitive => py_in sensitive (lower key)) sensitive_keys.

Definition redacted : PyValue := PyStr "***REDACTED***".

(** The inner [censor_dict], on the entries of a dictionary; [censor]
    is the value it stores for an entry whose key is not sensitive. *)
Fixpoint censor (value : PyValue) : PyValue :=
  match value with
  | PyDict d =>
      PyDict (map (fun entry =>
                     match entry with
                     | (key, value) =>
                         (key, if is_sensitive key then redacted
                               else censor value)
                     end) d)
  | PyList items =>
      PyList (map (fun item =>
                     match item with
                     | PyDict _ => censor item
                     | _ => item
                     end) items)
  | _ => value
  end.

Definition censor_dict (d : list (string * PyValue))
  : list (string * PyValue) :=
  map (fun entry =>
         match entry with
         | (key, value) =>
             (key, if is_sensitive key then redacted else censor value)
         end) d.

(** [censor_sensitive_data(logger, method_name, event_dict)]. *)
Definition censor_sensitive_data (logger method_name : string)
           (event_dict : list (string * PyValue))
  : list (string * PyValue) :=
  censor_dict event_dict.

(** The dictionaries [censor_dict] visits inside a dictionary: itself,
    the dictionaries among its values, the dictionaries among the items
    of its list values, and what it visits inside those. *)
Inductive visited : list (string * PyValue) -> list (string * PyValue)
                    -> Prop :=
| visited_here d : visited d d
| visited_value d key d1 d' :
    In (key, PyDict d1) d -> visited d1 d' -> visited d d'
| visited_item d key items d1 d' :
    In (key, PyList items) d -> In (PyDict d1) items -> visited d1 d' ->
    visited d d'.

End Censor.
End Logging.

(** A value that is no dictionary. *)
Definition not_dict (v : PyValue) : bool :=
  match v with
  | PyDict _ => false
  | _ => true
  end.

(* ================================================================== *)
(** * Vocabulary of the properties *)

(** ** Observations used by the statements *)

(** Markup the telephony provider accepts (section 6 of the
    specification): the four directives, each with its attributes, and a
    document that ends by listening or by ending the call. *)
Definition valid_verb (v : Verb) : bool :=
  match v with
  | Say _ lang => str_truthy lang
  | Play url => str_truthy url
  | Gather input action method speech_timeout lang says =>
      (input == "speech") && str_truthy action && (method == "POST")
      && (speech_timeout == "auto") && str_truthy lang
      && forallb (fun p => str_truthy (snd p)) says
  | Hangup => true
  end.

Definition closes_turn (v : Verb) : bool :=
  match v with
  | Gather _ _ _ _ _ _ | Hangup => true
  | Say _ _ | Play _ => false
  end.

Definition valid_twiml (t : TwiML) : bool :=
  forallb valid_verb t && closes_turn (last t (Say "" "")).

(** Markup that ends the call without listening again. *)
Definition is_hangup_twiml (t : TwiML) : bool :=
  match last t (Say "" "") with
  | Hangup => forallb (fun v => match v with
                                | Gather _ _ _ _ _ _ => false
                                | _ => true
                                end) t
  | _ => false
  end.

(** The database answers every round trip. *)
Definition db_reliable (w : World) : Prop :=
  Forall (fun fault => fault = false) (db_faults w).

(** Rows of a store selected as the handlers select them. *)
Definition calls_with_sid (sid : string) (d : DB) : list Call :=
  filter (fun c => twilio_call_sid c == sid) (calls d).

Definition conversations_of (id : nat) (d : DB) : list Conversation :=
  filter (fun v => conv_call_id v =? id) (conversations d).

(** What is left untouched by the parts that only talk to providers and
    to the log. *)
Definition same_store (w w' : World) : Prop :=
  db w' = db w /\ session w' = session w /\ commits w' = commits w
  /\ db_faults w' = db_faults w /\ clock w' = clock w.

(** ** What the services make of the providers' answers *)

(** What [chat_completion] makes of the provider's answer. *)
Definition completion_outcome (r : Result ChatResponse) : Result ChatOut :=
  match r with
  | Ok resp =>
      match choices resp with
      | c :: _ => Ok (Text (py_or_str c ""))
      | [] => Raise (OpenAIError "Unexpected error: list index out of range")
      end
  | Raise (OpenAISDKError m) =>
      Raise (OpenAIError ("Chat completion failed: " +++ m))
  | Raise e => Raise (OpenAIError ("Unexpected error: " +++ exn_str e))
  end.

(** The dictionary a classification parses out of the provider's answer,
    when there is one: the answer arrived, is JSON, and is an object. *)
Definition classification (json_loads : string -> Result PyValue)
           (r : Result ChatResponse) : option (list (string * PyValue)) :=
  match completion_outcome r with
  | Ok (Text s) =>
      match json_loads s with
      | Ok (PyDict d) => Some d
      | _ => None
      end
  | _ => None
  end.

(** What [detect_intent] and [analyze_sentiment] return for an answer. *)
Definition intent_result json_loads (text : string)
           (r : Result ChatResponse) : PyValue :=
  match classification json_loads r with
  | Some d => PyDict d
  | None => OpenAIService.intent_default text
  end.

Definition sentiment_result json_loads (r : Result ChatResponse) : PyValue :=
  match classification json_loads r with
  | Some d => PyDict d
  | None => OpenAIService.sentiment_default
  end.

(** A step that only talks to the completion provider and to the log. *)
Definition completion_step (w w' : World) : Prop :=
  same_store w w'
  /\ openai_replies w' = tl (openai_replies w)
  /\ elevenlabs_replies w' = elevenlabs_replies w.

(** The reply [generate_response] makes of the provider's answer. *)
Definition reply_text (r : Result ChatResponse) : string :=
  match completion_outcome r with
  | Ok (Text s) => s
  | Ok Streaming => ""
  | Raise _ => PhoneAgent.fallback_response
  end.

(** The summary [_generate_summary] makes of the provider's answer. *)
Definition summary_text (r : Result ChatResponse) : string :=
  match completion_outcome r with
  | Ok (Text s) => s
  | Ok Streaming => ""
  | Raise _ => CallHandler.summary_fallback
  end.

Definition same_rows (w w' : World) : Prop :=
  db w' = db w /\ session w' = session w /\ commits w' = commits w.

(** ** Database round trips *)

(** What a round trip answers. *)
Definition round_trip_result (w : World) : Result unit :=
  match db_faults w with
  | true :: _ => Raise (OperationalError "connection failure")
  | _ => Ok tt
  end.

Definition after_round_trip (w : World) : World :=
  set_db_faults (tl (db_faults w)) w.

(** ** What the claims ask of the store *)

(** The session id matches no stored Call, or its Call has no
    Conversation row. *)
Definition no_conversation_for (sid : string) (d : DB) : Prop :=
  calls_with_sid sid d = []
  \/ exists c, calls_with_sid sid d = [c]
               /\ conversations_of (call_id c) d = [].

(** What C3 asks of the store for a session id: exactly one Call row
    carries it, that row is in progress, and exactly one Conversation row
    is linked to it, with no message. *)
Definition one_call_in_progress (sid : string) (d : DB) : Prop :=
  exists c,
    calls_with_sid sid d = [c] /\ status c = IN_PROGRESS
    /\ exists v, conversations_of (call_id c) d = [v] /\ messages v = [].

(** [result.get(key)] on what a classifier returned. *)
Definition stored_field (result : PyValue) (key : string) : PyValue :=
  match result with
  | PyDict d => dict_get d key
  | _ => PyNone
  end.

(** The conversation row after a complete turn: the utterance and the
    reply appended, and the two labels set to what the classifiers gave.
    The first scripted answer of the provider is the reply's, the second
    the intent's, the third the sentiment's. *)
Definition turn_conversation (json_loads : string -> Result PyValue)
           (speech : string) (w : World) (v : Conversation) : Conversation :=
  mkConversation (conv_id v) (conv_call_id v)
    (messages v
     ++ [mkMessage "user" speech (clock w);
         mkMessage "assistant" (reply_text (next_completion w))
                   (S (clock w))])
    (summary v)
    (stored_field
       (intent_result json_loads speech
          (next_reply (tl (openai_replies w)))) "intent")
    (stored_field
       (sentiment_result json_loads
          (next_reply (tl (tl (openai_replies w))))) "sentiment").

Definition turn_db json_loads speech (w : World) (v : Conversation) : DB :=
  put_conversation (turn_conversation json_loads speech w v) (db w).

(** The turn found its rows and committed. *)
Definition turn_stored json_loads sid speech (w w' : World) : Prop :=
  exists c v,
    calls_with_sid sid (db w) = [c]
    /\ conversations_of (call_id c) (db w) = [v]
    /\ db w' = turn_db json_loads speech w v
    /\ commits w' = commits w ++ [turn_db json_loads speech w v].

Definition completed_call (dur : option nat) (rec_url : option string)
           (c : Call) : Call :=
  with_recording_url rec_url (with_duration dur (with_status COMPLETED c)).

(** The store a successful [handle_call_completed] commits: the Call
    completed, and a summary on its Conversation when that one has
    messages. *)
Definition completed_db (dur : option nat) (rec_url : option string)
           (w : World) (c : Call) : DB :=
  let d := put_call (completed_call dur rec_url c) (db w) in
  match conversations_of (call_id c) (db w) with
  | [v] =>
      match messages v with
      | _ :: _ =>
          put_conversation
            (with_summary (Some (summary_text (next_completion w))) v) d
      | [] => d
      end
  | _ => d
  end.

(** The last entry of the log reports a failure of the handler. *)
Definition failure_logged (event : string) (w : World) : Prop :=
  exists l msg, logs w = l ++ [mkLog ERROR event msg].

(** The log holds an ERROR entry of the event. *)
Definition error_logged (event : string) (w : World) : Prop :=
  exists msg, In (mkLog ERROR event msg) (logs w).

(** The completion request fails: the provider raises, or its answer
    holds no choice. *)
Definition completion_fails (r : Result ChatResponse) : Prop :=
  exists e, completion_outcome r = Raise e.

(** An assistant message without content. *)
Definition empty_reply (m : Message) : Prop :=
  role m = "assistant" /\ content m = "".

(** No conversation of the store holds an assistant message without
    content. *)
Definition no_empty_reply (d : DB) : Prop :=
  forall v m,
    In v (conversations d) -> In m (messages v) -> ~ empty_reply m.

(** Every assistant message without content that [after] holds was in the
    same conversation in [before] already: none was appended. *)
Definition no_empty_reply_appended (before after : DB) : Prop :=
  forall v' m,
    In v' (conversations after) -> In m (messages v') -> empty_reply m ->
    exists v,
      In v (conversations before) /\ conv_id v = conv_id v'
      /\ In m (messages v).

(** What C4 asks: the labels of the conversation of the session are the
    ones it had before the turn. *)
Definition labels_kept (sid : string) (before after : DB) : Prop :=
  forall c v,
    calls_with_sid sid before = [c] ->
    conversations_of (call_id c) before = [v] ->
    forall x,
      In x (conversations_of (call_id c) after) ->
      intent x = intent v /\ sentiment x = sentiment v.

(** The states made durable while a handler ran from [w] to [w']. *)
Definition persisted_during (w w' : World) : list DB :=
  skipn (length (commits w)) (commits w').

(** What C5 asserts of a durable state: a conversation row written by the
    turn ends with the user message, its assistant reply missing. *)
Definition user_without_reply (speech : string) (before snapshot : DB)
  : Prop :=
  exists v',
    In v' (conversations snapshot) /\ ~ In v' (conversations before)
    /\ exists l t, messages v' = l ++ [mkMessage "user" speech t].

(** ** Concrete data for the runs *)

Definition demo_settings : Settings :=
  mkSettings (Some "https://assistant.example/webhooks/twilio")
             "gpt-4-0125-preview" 4000 (7 # 10)%Q None
             "eleven_multilingual_v2".

(** A [json.loads] for the runs below: nothing in them is JSON. *)
Definition demo_json_loads (s : string) : Result PyValue :=
  Raise (JSONDecodeError "Expecting value: line 1 column 1 (char 0)").

Definition world_of (d : DB) (replies : list (Result ChatResponse)) : World :=
  mkWorld d d [] [] replies [] [] [] 7.

Definition empty_db : DB := mkDB [] [] [].

(** A call in progress whose conversation was labelled in an earlier
    turn. *)
Definition talking_call : Call :=
  mkCall 1 "CA123" INBOUND "+1555" "+1800" IN_PROGRESS None None.

Definition talking_conversation : Conversation :=
  mkConversation 2 1
    [mkMessage "user" "Tengo una queja" 3;
     mkMessage "assistant" "Lo siento mucho" 4]
    None (PyStr "complaint") (PyStr "negative").

Definition talking_db : DB :=
  mkDB [talking_call] [talking_conversation] [].

(** The same call once completed. *)
Definition finished_db : DB :=
  mkDB [mkCall 1 "CA123" INBOUND "+1555" "+1800" COMPLETED (Some 42) None]
       [talking_conversation] [].

(** The provider answers the reply, then fails twice. *)
Definition reply_then_failures : list (Result ChatResponse) :=
  [Ok (mkChatResponse [Some "Claro, con gusto"] (Some 12));
   Raise (OpenAISDKError "Request timed out.");
   Raise (OpenAISDKError "Request timed out.")].

(** ** Vocabulary of the further properties *)

(** What [text_to_speech] makes of the provider's answer, given the voice
    it resolved. *)
Definition synthesis_outcome (voice : option string) (r : Result string)
  : Result string :=
  if opt_truthy voice
  then match r with
       | Ok audio => Ok audio
       | Raise e =>
           Raise (ElevenLabsError ("Text-to-speech failed: " +++ exn_str e))
       end
  else Raise (ElevenLabsError
                "Text-to-speech failed: No voice ID provided or configured").

(** The profile [_get_active_voice_profile] finds in a store. *)
Definition active_voice_profile (d : DB) : option VoiceProfile :=
  hd_error (filter is_active (voice_profiles d)).

(** The voice a turn speaks with: the active profile's, else the
    configured default. *)
Definition turn_voice (settings : Settings) (d : DB) : option string :=
  py_or (option_map elevenlabs_voice_id (active_voice_profile d))
        (elevenlabs_default_voice_id settings).

(** The markup of the outer [except] of [handle_user_speech]. *)
Definition apology_markup (settings : Settings) : TwiML :=
  TwilioService.generate_response_twiml settings
    "Disculpa, tuve un problema. ¿Puedes repetir?" None true.

(** Where [_save_audio] says the audio of a call is. *)
Definition audio_url (call_sid : string) : string :=
  "https://storage.example.com/audio/" +++ call_sid +++ ".mp3".

(** The markup of a turn that was stored. *)
Definition turn_markup (settings : Settings) (call_sid reply : string)
           (voice : option string) (r : Result string) : TwiML :=
  match synthesis_outcome voice r with
  | Ok _ =>
      TwilioService.generate_response_twiml settings reply
        (Some (audio_url call_sid)) true
  | Raise _ => apology_markup settings
  end.

(** The requests [text_to_speech] sends: one when it has a voice, none
    otherwise. *)
Definition synthesis_requests (settings : Settings) (text : string)
           (voice model : option string) (stability similarity_boost : Q)
  : list Request :=
  match voice with
  | Some v =>
      if str_truthy v
      then [SynthesisRequest text v
              (py_or_str model (elevenlabs_model settings))
              stability similarity_boost]
      else []
  | None => []
  end.

(** The request [chat_completion] sends. *)
Definition completion_request (settings : Settings) (msgs : list ChatMsg)
           (model : option string) (temperature : option Q)
           (max_tokens : option nat) : Request :=
  CompletionRequest
    (py_or_str model (openai_model settings)) msgs
    (match temperature with
     | Some t => t
     | None => openai_temperature settings
     end)
    (py_or_nat max_tokens (openai_max_tokens settings)).

(** The messages [generate_response] sends for a turn of
    [handle_user_speech]. *)
Definition turn_prompt (speech : string) (c : Call) (v : Conversation)
  : list ChatMsg :=
  [mkChat "system" PhoneAgent.system_prompt]
  ++ (map (fun m => mkChat (role m) (content m)) (messages v)
      ++ [mkChat "user" speech])
  ++ [mkChat "system"
             ("Contexto adicional: Número: " +++ from_number c
              +++ ", Empresa: Tu Empresa")]
  ++ [mkChat "user" speech].

(** Everything a stored turn sends to the providers, in order: the reply
    request, the two classification requests, and the synthesis request
    when a voice is resolved. *)
Definition turn_requests (settings : Settings) (speech : string)
           (c : Call) (v : Conversation) (reply : string)
           (voice : option string) : list Request :=
  [completion_request settings (turn_prompt speech c v)
     None (Some (7 # 10)%Q) (Some 500);
   completion_request settings
     [mkChat "system" "You are an intent classification expert.";
      mkChat "user" (OpenAIService.intent_prompt speech)]
     None (Some 0%Q) None;
   completion_request settings
     [mkChat "system" "You are a sentiment analysis expert.";
      mkChat "user" (OpenAIService.sentiment_prompt speech)]
     None (Some 0%Q) None]
  ++ synthesis_requests settings reply voice None (1 # 2)%Q (3 # 4)%Q.

(** A step that talks to the completion provider once. *)
Definition one_completion (rq : Request) (w w' : World) : Prop :=
  same_store w w'
  /\ openai_replies w' = tl (openai_replies w)
  /\ elevenlabs_replies w' = elevenlabs_replies w
  /\ requests w' = requests w ++ [rq].

(** The messages [generate_response] sends. *)
Definition agent_messages (user_message : string)
           (history : option (list ChatMsg))
           (context : option (list (string * string))) : list ChatMsg :=
  (([mkChat "system" PhoneAgent.system_prompt]
    ++ match history with
       | Some h => h
       | None => []
       end)
   ++ match context with
      | Some ((_ :: _) as c) =>
          [mkChat "system"
                  ("Contexto adicional: " +++ PhoneAgent._format_context c)]
      | _ => []
      end)
  ++ [mkChat "user" user_message].

(** The rows [handle_incoming_call] inserts: the Call, keyed by the
    column default, and the store after each of its two commits. *)
Definition incoming_call (sid from to : string) (d : DB) : Call :=
  mkCall (fresh_id d) sid INBOUND from to IN_PROGRESS None None.

Definition with_incoming_call (sid from to : string) (d : DB) : DB :=
  mkDB (calls d ++ [incoming_call sid from to d]) (conversations d)
       (voice_profiles d).

Definition with_incoming_conversation (sid from to : string) (d : DB) : DB :=
  let d1 := with_incoming_call sid from to d in
  mkDB (calls d1)
       (conversations d1
        ++ [mkConversation (fresh_id d1) (fresh_id d) [] None PyNone PyNone])
       (voice_profiles d1).

(** The markup of the [except] of [handle_incoming_call]. *)
Definition incoming_apology : TwiML :=
  TwilioService.generate_hangup_twiml
    (Some "Lo siento, hay un problema técnico. Por favor, llama más tarde.").

(** The next round trip to the database fails. *)
Definition next_round_trip_fails (faults : list bool) : bool :=
  match faults with
  | true :: _ => true
  | _ => false
  end.

(** ** More concrete data for the runs *)

(** The configuration with a default voice. *)
Definition voiced_settings : Settings :=
  mkSettings (Some "https://assistant.example/webhooks/twilio")
             "gpt-4-0125-preview" 4000 (7 # 10)%Q (Some "voice-1")
             "eleven_multilingual_v2".

(** A world whose database follows a fault schedule. *)
Definition faulty_world (d : DB) (faults : list bool) : World :=
  mkWorld d d [] faults [] [] [] [] 7.

(** A world whose synthesis provider answers with audio. *)
Definition speaking_world : World :=
  mkWorld talking_db talking_db [] [] reply_then_failures [Ok "ID3"] [] []
          7.

(** An [int] for the runs: one decimal string it accepts, and the
    message of the failure for any other. *)
Definition demo_int (s : string) : Result nat :=
  if s == "42" then Ok 42
  else Raise (ProviderError
                ("invalid literal for int() with base 10: '" +++ s +++ "'")).

(** An event that carries a credential inside a nested dictionary. *)
Definition login_event : list (string * PyValue) :=
  [("event", PyStr "login");
   ("user", PyDict [("name", PyStr "ana"); ("password", PyStr "hunter2")])].

(* ================================================================== *)
(** * Properties *)

(** ** The monad *)

Lemma bind_ok A B (m : M A) (k : A -> M B) w a w' :
  m w = (Ok a, w') -> bind m k w = k a w'.
Proof. intros E. unfold bind. now rewrite E. Qed.

Lemma bind_raise A B (m : M A) (k : A -> M B) w e w' :
  m w = (Raise e, w') -> bind m k w = (Raise e, w').
Proof. intros E. unfold bind. now rewrite E. Qed.

Lemma try_ok A (m : M A) h w a w' :
  m w = (Ok a, w') -> try_except m h w = (Ok a, w').
Proof. intros E. unfold try_except. now rewrite E. Qed.

Lemma try_raise A (m : M A) h w e w' :
  m w = (Raise e, w') -> try_except m h w = h e w'.
Proof. intros E. unfold try_except. now rewrite E. Qed.

(** Run the first statement of a sequence, given what it evaluates to. *)
Ltac step E :=
  first [ rewrite (@bind_ok _ _ _ _ _ _ _ E)
        | rewrite (@bind_raise _ _ _ _ _ _ _ E)
        | rewrite (@try_ok _ _ _ _ _ _ E)
        | rewrite (@try_raise _ _ _ _ _ _ E) ].

Lemma same_store_refl w : same_store w w.
Proof. repeat split. Qed.

Lemma same_store_trans w1 w2 w3 :
  same_store w1 w2 -> same_store w2 w3 -> same_store w1 w3.
Proof.
  unfold same_store. intros (A1 & A2 & A3 & A4 & A5) (B1 & B2 & B3 & B4 & B5).
  repeat split; congruence.
Qed.

Lemma same_store_log e w : same_store w (add_log e w).
Proof. repeat split. Qed.

(** ** The completion client *)

Lemma chat_completion_run settings msgs model temp tok w :
  exists w',
    OpenAIService.chat_completion settings msgs model temp tok false w
    = (completion_outcome (next_completion w), w')
    /\ same_store w w'
    /\ openai_replies w' = tl (openai_replies w)
    /\ elevenlabs_replies w' = elevenlabs_replies w
    /\ (exists rq, requests w' = requests w ++ [rq]).
Proof.
  unfold OpenAIService.chat_completion, try_except, bind,
    OpenAIService.completions_create, OpenAIService.first_choice,
    logger, ret, raise, completion_outcome, next_completion, next_reply.
  cbn.
  destruct (openai_replies w) as [|[resp|e] rest]; cbn.
  - eexists; repeat split; cbn; eauto.
  - destruct (choices resp) as [|c cs]; cbn; eexists; repeat split; cbn; eauto.
  - destruct e; cbn; eexists; repeat split; cbn; eauto.
Qed.

Lemma completion_step_log w w' e :
  completion_step w w' -> completion_step w (add_log e w').
Proof.
  intros ((A1 & A2 & A3 & A4 & A5) & B & C). repeat split; assumption.
Qed.

Lemma detect_intent_run settings json_loads text w :
  exists w',
    OpenAIService.detect_intent settings json_loads text w
    = (Ok (intent_result json_loads text (next_completion w)), w')
    /\ completion_step w w'.
Proof.
  unfold OpenAIService.detect_intent, intent_result, classification.
  destruct (chat_completion_run settings
              [mkChat "system" "You are an intent classification expert.";
               mkChat "user" (OpenAIService.intent_prompt text)]
              None (Some 0%Q) None w) as (w1 & E & S1 & R1 & L1 & _).
  assert (C1 : completion_step w w1) by (repeat split; apply S1 || assumption).
  unfold try_except.
  destruct (completion_outcome (next_completion w)) as [[s|]|e].
  - step E. unfold OpenAIService.loads.
    destruct (json_loads s) as [v|e]; unfold bind, raise, ret, logger; cbn.
    + destruct v; cbn;
        (eexists; split; [reflexivity | now apply completion_step_log]).
    + eexists; split; [reflexivity | now apply completion_step_log].
  - step E. unfold bind, raise, logger, ret; cbn.
    eexists; split; [reflexivity | now apply completion_step_log].
  - step E. unfold bind, logger, ret; cbn.
    eexists; split; [reflexivity | now apply completion_step_log].
Qed.

Lemma analyze_sentiment_run settings json_loads text w :
  exists w',
    OpenAIService.analyze_sentiment settings json_loads text w
    = (Ok (sentiment_result json_loads (next_completion w)), w')
    /\ completion_step w w'.
Proof.
  unfold OpenAIService.analyze_sentiment, sentiment_result, classification.
  destruct (chat_completion_run settings
              [mkChat "system" "You are a sentiment analysis expert.";
               mkChat "user" (OpenAIService.sentiment_prompt text)]
              None (Some 0%Q) None w) as (w1 & E & S1 & R1 & L1 & _).
  assert (C1 : completion_step w w1) by (repeat split; apply S1 || assumption).
  unfold try_except.
  destruct (completion_outcome (next_completion w)) as [[s|]|e].
  - step E. unfold OpenAIService.loads.
    destruct (json_loads s) as [v|e]; unfold bind, raise, ret, logger; cbn.
    + destruct v; cbn;
        (eexists; split; [reflexivity | now apply completion_step_log]).
    + eexists; split; [reflexivity | now apply completion_step_log].
  - step E. unfold bind, raise, logger, ret; cbn.
    eexists; split; [reflexivity | now apply completion_step_log].
  - step E. unfold bind, logger, ret; cbn.
    eexists; split; [reflexivity | now apply completion_step_log].
Qed.

(** Both classifiers always hand back a dictionary. *)
Lemma intent_result_dict json_loads text r :
  exists d, intent_result json_loads text r = PyDict d.
Proof.
  unfold intent_result. destruct (classification json_loads r); eauto.
  unfold OpenAIService.intent_default. eauto.
Qed.

Lemma sentiment_result_dict json_loads r :
  exists d, sentiment_result json_loads r = PyDict d.
Proof.
  unfold sentiment_result. destruct (classification json_loads r); eauto.
  unfold OpenAIService.sentiment_default. eauto.
Qed.

(** ** The agent *)

Lemma generate_response_run settings user_message history context w :
  exists w',
    PhoneAgent.generate_response settings user_message history context w
    = (Ok (reply_text (next_completion w)), w')
    /\ completion_step w w'.
Proof.
  unfold PhoneAgent.generate_response, reply_text.
  match goal with
  | |- context [OpenAIService.chat_completion ?s ?m ?md ?t ?k false] =>
      destruct (chat_completion_run s m md t k
                  (add_log (mkLog INFO "Generating agent response" "") w))
        as (w1 & E & S1 & R1 & L1 & _)
  end.
  assert (C1 : completion_step w w1).
  { destruct S1 as (A1 & A2 & A3 & A4 & A5). repeat split; assumption. }
  change (next_completion
            (add_log (mkLog INFO "Generating agent response" "") w))
    with (next_completion w) in E.
  unfold try_except, bind at 1, logger at 1.
  destruct (completion_outcome (next_completion w)) as [[s|]|e];
    step E; unfold bind, logger, ret; cbn;
    (eexists; split; [reflexivity | now apply completion_step_log]).
Qed.

Lemma generate_summary_run settings msgs w :
  exists w',
    CallHandler._generate_summary settings msgs w
    = (Ok (summary_text (next_completion w)), w')
    /\ completion_step w w'
    /\ (completion_fails (next_completion w) ->
        failure_logged "Failed to generate summary" w').
Proof.
  unfold CallHandler._generate_summary, summary_text, completion_fails.
  match goal with
  | |- context [OpenAIService.chat_completion ?s ?m ?md ?t ?k false] =>
      destruct (chat_completion_run s m md t k w)
        as (w1 & E & S1 & R1 & L1 & _)
  end.
  assert (C1 : completion_step w w1) by (repeat split; apply S1 || assumption).
  unfold try_except.
  destruct (completion_outcome (next_completion w)) as [[s|]|e];
    step E; unfold bind, logger, ret; cbn;
    (eexists; split; [reflexivity|]; split;
     [now apply completion_step_log || exact C1|]).
  - intros (e & X). discriminate X.
  - intros (e & X). discriminate X.
  - intros _. do 2 eexists. reflexivity.
Qed.

(** ** Speech synthesis *)

Lemma text_to_speech_run settings text voice_id model st sb w :
  exists r w',
    ElevenLabsService.text_to_speech settings text voice_id model st sb w
    = (r, w')
    /\ same_store w w'
    /\ openai_replies w' = openai_replies w.
Proof.
  unfold ElevenLabsService.text_to_speech, try_except, bind, raise, ret,
    logger, ElevenLabsService.elevenlabs_generate.
  destruct (py_or voice_id (elevenlabs_default_voice_id settings)) as [v|];
    [destruct (str_truthy v)|]; cbn;
    try destruct (next_synthesis _); cbn;
    (do 2 eexists; split; [reflexivity | repeat split]).
Qed.

(** ** Database session *)

Lemma same_store_rows w w' : same_store w w' -> same_rows w w'.
Proof. intros (A1 & A2 & A3 & _). repeat split; assumption. Qed.

Lemma same_rows_trans w1 w2 w3 :
  same_rows w1 w2 -> same_rows w2 w3 -> same_rows w1 w3.
Proof.
  intros (A1 & A2 & A3) (B1 & B2 & B3). repeat split; congruence.
Qed.

Lemma select_run A (rows : World -> A) w :
  (round_trip ;; (fun w0 => (Ok (rows w0), w0))) w
  = (match round_trip_result w with
     | Ok _ => Ok (rows (after_round_trip w))
     | Raise e => Raise e
     end, after_round_trip w).
Proof.
  unfold bind, round_trip, round_trip_result, after_round_trip.
  destruct (db_faults w) as [|[|] rest]; reflexivity.
Qed.

Lemma select_calls_by_sid_run sid w :
  select_calls_by_sid sid w
  = (match round_trip_result w with
     | Ok _ => Ok (filter (fun c => twilio_call_sid c == sid)
                          (calls (session w)))
     | Raise e => Raise e
     end, after_round_trip w).
Proof. unfold select_calls_by_sid. now rewrite select_run. Qed.

Lemma select_conversations_by_call_run id w :
  select_conversations_by_call id w
  = (match round_trip_result w with
     | Ok _ => Ok (filter (fun v => conv_call_id v =? id)
                          (conversations (session w)))
     | Raise e => Raise e
     end, after_round_trip w).
Proof. unfold select_conversations_by_call. now rewrite select_run. Qed.

Lemma select_active_voice_profiles_run w :
  select_active_voice_profiles w
  = (match round_trip_result w with
     | Ok _ => Ok (firstn 1 (filter is_active (voice_profiles (session w))))
     | Raise e => Raise e
     end, after_round_trip w).
Proof. unfold select_active_voice_profiles. now rewrite select_run. Qed.

Lemma round_trip_reliable w :
  db_reliable w ->
  round_trip_result w = Ok tt /\ db_reliable (after_round_trip w).
Proof.
  unfold db_reliable, round_trip_result, after_round_trip. intros R.
  destruct (db_faults w) as [|b rest]; cbn.
  - split; [reflexivity | constructor].
  - inversion R; subst. split; [reflexivity | assumption].
Qed.

Lemma get_active_voice_profile_run w :
  exists vp w',
    CallHandler._get_active_voice_profile w = (Ok vp, w') /\ same_rows w w'.
Proof.
  unfold CallHandler._get_active_voice_profile, try_except, bind.
  rewrite select_active_voice_profiles_run.
  destruct (round_trip_result w).
  - destruct (firstn 1 (filter is_active (voice_profiles (session w))))
      as [|p [|q l]]; cbn;
      (do 2 eexists; split; [reflexivity | repeat split]).
  - cbn. do 2 eexists; split; [reflexivity | repeat split].
Qed.

Lemma put_conversation_twice v1 v2 d :
  conv_id v1 = conv_id v2 ->
  put_conversation v2 (put_conversation v1 d) = put_conversation v2 d.
Proof.
  intros E. unfold put_conversation; cbn. f_equal.
  rewrite map_map. apply map_ext. intros x.
  destruct (conv_id x =? conv_id v1) eqn:X.
  - rewrite E, Nat.eqb_refl. rewrite <- E, X. reflexivity.
  - reflexivity.
Qed.

Lemma put_call_twice c1 c2 d :
  call_id c1 = call_id c2 ->
  put_call c2 (put_call c1 d) = put_call c2 d.
Proof.
  intros E. unfold put_call; cbn. f_equal.
  rewrite map_map. apply map_ext. intros x.
  destruct (call_id x =? call_id c1) eqn:X.
  - rewrite E, Nat.eqb_refl. rewrite <- E, X. reflexivity.
  - reflexivity.
Qed.

(** Rows that were loaded, not inserted, never violate the unique index. *)
Lemma no_violation_without_insert d s :
  (forall c, In c (calls s) ->
             exists x, In x (calls d) /\ call_id x = call_id c) ->
  unique_violation d s = false.
Proof.
  intros H. unfold unique_violation.
  destruct (existsb _ (calls s)) eqn:X; [|reflexivity].
  apply existsb_exists in X. destruct X as (c & Hc & B).
  apply andb_true_iff in B. destruct B as (B & _).
  unfold is_new_call in B. apply negb_true_iff in B.
  destruct (H c Hc) as (x & Hx & Ex).
  assert (T : existsb (fun y => call_id y =? call_id c) (calls d) = true).
  { apply existsb_exists. exists x. split; [assumption|].
    now apply Nat.eqb_eq. }
  congruence.
Qed.

Lemma no_violation_same_calls d s :
  calls s = calls d -> unique_violation d s = false.
Proof.
  intros E. apply no_violation_without_insert. rewrite E. eauto.
Qed.

Lemma no_violation_put_call d c :
  unique_violation d (put_call c d) = false.
Proof.
  apply no_violation_without_insert. cbn. intros x Hx.
  apply in_map_iff in Hx. destruct Hx as (y & Ey & Hy).
  destruct (call_id y =? call_id c) eqn:X.
  - subst x. apply Nat.eqb_eq in X. eauto.
  - subst x. eauto.
Qed.

Lemma db_commit_run w :
  db_commit w
  = match round_trip_result w with
    | Raise e => (Raise e, set_session (db w) (after_round_trip w))
    | Ok _ =>
        if unique_violation (db w) (session w)
        then (Raise (IntegrityError
                       "duplicate key value violates unique constraint"),
              set_session (db w) (after_round_trip w))
        else (Ok tt, set_durable (session w) (after_round_trip w))
    end.
Proof.
  unfold db_commit, round_trip, round_trip_result, after_round_trip.
  destruct (db_faults w) as [|[|] rest]; reflexivity.
Qed.

Lemma bind_run A B (m : M A) (k : A -> M B) w :
  bind m k w = match m w with
               | (Ok a, w') => k a w'
               | (Raise e, w') => (Raise e, w')
               end.
Proof. reflexivity. Qed.

Lemma try_run A (m : M A) h w :
  try_except m h w = match m w with
                     | (Ok a, w') => (Ok a, w')
                     | (Raise e, w') => h e w'
                     end.
Proof. reflexivity. Qed.

Lemma bind_logger B lvl event err (k : unit -> M B) w :
  bind (logger lvl event err) k w = k tt (add_log (mkLog lvl event err) w).
Proof. reflexivity. Qed.

Lemma bind_ret A B (a : A) (k : A -> M B) w : bind (ret a) k w = k a w.
Proof. reflexivity. Qed.

Lemma bind_raise_now A B e (k : A -> M B) w :
  bind (raise e) k w = (Raise e, w).
Proof. reflexivity. Qed.

Lemma bind_store_conversation B v (k : unit -> M B) w :
  bind (store_conversation v) k w
  = k tt (set_session (put_conversation v (session w)) w).
Proof. reflexivity. Qed.

Lemma bind_store_call B c (k : unit -> M B) w :
  bind (store_call c) k w = k tt (set_session (put_call c (session w)) w).
Proof. reflexivity. Qed.

(** ** Speech synthesis without a voice (C7) *)

(** C7.  [text_to_speech] raises the typed [ElevenLabsError] whenever no
    voice id can be resolved, that is when neither the [voice_id] argument
    nor the configured default holds a voice id (each absent or empty);
    no synthesis request is sent and no scripted answer of the provider
    is consumed. *)
Theorem text_to_speech_without_voice :
  forall settings text voice_id model stability similarity_boost w,
    opt_truthy voice_id = false ->
    opt_truthy (elevenlabs_default_voice_id settings) = false ->
    exists w',
      ElevenLabsService.text_to_speech settings text voice_id model
        stability similarity_boost w
      = (Raise (ElevenLabsError
                  "Text-to-speech failed: No voice ID provided or configured"),
         w')
      /\ requests w' = requests w
      /\ elevenlabs_replies w' = elevenlabs_replies w
      /\ same_store w w'.
Proof.
  intros settings text voice_id model st sb w Hv Hd.
  unfold ElevenLabsService.text_to_speech, py_or. rewrite Hv.
  rewrite try_run, bind_run.
  destruct (elevenlabs_default_voice_id settings) as [v|]; cbn in Hd.
  - rewrite Hd. cbn. eexists; split; [reflexivity | repeat split].
  - cbn. eexists; split; [reflexivity | repeat split].
Qed.

(** ** Call completion for an unknown session (C9) *)

(** C9.  [handle_call_completed] for a session id that no stored Call
    carries returns normally ([None], no exception), leaves every row of
    the durable store and of the session as it was, commits nothing and
    sends no request to any provider; when the database answers, the only
    trace is the INFO entry written on entry. *)
Theorem handle_call_completed_unknown_session :
  forall settings call_sid dur rec_url w,
    calls_with_sid call_sid (db w) = [] ->
    exists w',
      CallHandler.handle_call_completed settings call_sid dur rec_url
        (open_session w)
      = (Ok tt, w')
      /\ db w' = db w /\ session w' = db w /\ commits w' = commits w
      /\ requests w' = requests w
      /\ openai_replies w' = openai_replies w
      /\ (db_reliable w ->
          logs w' = logs w ++ [mkLog INFO "Handling call completion" ""]).
Proof.
  intros settings sid dur rec_url w H.
  unfold CallHandler.handle_call_completed.
  rewrite try_run, bind_logger, bind_run, select_calls_by_sid_run.
  cbn [session open_session set_session add_log]. fold (calls_with_sid sid (db w)).
  rewrite H.
  unfold round_trip_result, db_reliable. cbn [db_faults add_log open_session set_session].
  destruct (db_faults w) as [|[|] rest]; cbn.
  - eexists; split; [reflexivity | repeat split].
  - eexists; split; [reflexivity | repeat split].
    intros R; inversion R; discriminate.
  - eexists; split; [reflexivity | repeat split].
Qed.

(** ** Speech for an unknown session (C2) *)

(** C2.  For a speech-gathered event whose session id matches no stored
    Call, or whose Call has no Conversation row, [handle_user_speech]
    mutates no row: the durable store and the session hold every Call,
    Conversation and VoiceProfile row as before and nothing is committed;
    no provider is called; and, the database answering its look-ups, the
    markup returned is the hangup markup. *)
Theorem handle_user_speech_unknown_session :
  forall settings json_loads call_sid speech_result w,
    no_conversation_for call_sid (db w) ->
    exists twiml w',
      CallHandler.handle_user_speech settings json_loads call_sid
        speech_result (open_session w)
      = (Ok twiml, w')
      /\ db w' = db w /\ session w' = db w /\ commits w' = commits w
      /\ requests w' = requests w
      /\ (db_reliable w ->
          twiml = TwilioService.generate_hangup_twiml None
          /\ is_hangup_twiml twiml = true).
Proof.
  intros settings jl sid speech w H.
  unfold CallHandler.handle_user_speech.
  rewrite try_run, bind_logger, bind_run, select_calls_by_sid_run.
  cbn [session open_session set_session add_log].
  fold (calls_with_sid sid (db w)).
  unfold round_trip_result at 1.
  cbn [db_faults add_log open_session set_session].
  destruct (db_faults w) as [|b rest] eqn:F.
  - (* no fault scripted *)
    destruct H as [H | (c & H & Hv)]; rewrite H; cbn.
    + do 2 eexists; split; [reflexivity | repeat split].
    + rewrite bind_run, select_conversations_by_call_run.
      unfold round_trip_result, after_round_trip; cbn. rewrite F; cbn.
      fold (conversations_of (call_id c) (db w)). rewrite Hv; cbn.
      do 2 eexists; split; [reflexivity | repeat split].
  - destruct b.
    + (* the first look-up fails *)
      cbn. do 2 eexists; split; [reflexivity | ].
      repeat (split; [reflexivity | ]).
      intros R; unfold db_reliable in R; rewrite F in R;
        inversion R; discriminate.
    + destruct H as [H | (c & H & Hv)]; rewrite H; cbn.
      * do 2 eexists; split; [reflexivity | repeat split].
      * rewrite bind_run, select_conversations_by_call_run.
        unfold round_trip_result, after_round_trip; cbn. rewrite F; cbn.
        fold (conversations_of (call_id c) (db w)). rewrite Hv.
        destruct rest as [|[|] rest']; cbn;
          (do 2 eexists; split; [reflexivity | ]);
          repeat (split; [reflexivity | ]);
          try (intros R; unfold db_reliable in R; rewrite F in R;
               inversion R as [|? ? ? R']; inversion R'; discriminate);
          split; reflexivity.
Qed.

(** ** Keys and the unique index *)

Lemma list_max_ge l x : In x l -> x <= list_max l.
Proof.
  induction l as [|y l IH]; cbn; [tauto|].
  intros [E | H].
  - subst. apply Nat.le_max_l.
  - etransitivity; [apply IH, H | apply Nat.le_max_r].
Qed.

Lemma fresh_id_call d c : In c (calls d) -> call_id c < fresh_id d.
Proof.
  intros H. unfold fresh_id. apply Nat.lt_succ_r, list_max_ge.
  apply in_or_app. left. now apply in_map.
Qed.

Lemma fresh_id_conversation_call d v :
  In v (conversations d) -> conv_call_id v < fresh_id d.
Proof.
  intros H. unfold fresh_id. apply Nat.lt_succ_r, list_max_ge.
  apply in_or_app. right. apply in_or_app. right. apply in_or_app. left.
  now apply in_map.
Qed.

Lemma filter_none A (f : A -> bool) l :
  (forall x, In x l -> f x = false) -> filter f l = [].
Proof.
  induction l as [|y l IH]; cbn; intros H; [reflexivity|].
  rewrite (H y (or_introl eq_refl)). apply IH. intros x Hx. apply H. now right.
Qed.

(** Inserting one Call whose session id no stored Call carries does not
    violate the unique index. *)
Lemma no_violation_first_insert d c :
  calls_with_sid (twilio_call_sid c) d = [] ->
  unique_violation d (mkDB (calls d ++ [c]) (conversations d)
                           (voice_profiles d)) = false.
Proof.
  intros H. unfold unique_violation; cbn [calls].
  rewrite existsb_app.
  assert (Old : existsb
                  (fun x => is_new_call d x
                            && (1 <? sid_count (twilio_call_sid x)
                                               (calls d ++ [c])))
                  (calls d) = false).
  { destruct (existsb _ (calls d)) eqn:X; [|reflexivity].
    apply existsb_exists in X. destruct X as (x & Hx & B).
    apply andb_true_iff in B. destruct B as (B & _).
    unfold is_new_call in B. apply negb_true_iff in B.
    assert (T : existsb (fun y => call_id y =? call_id x) (calls d) = true).
    { apply existsb_exists. exists x. split; [assumption|].
      apply Nat.eqb_refl. }
    congruence. }
  rewrite Old. cbn [existsb orb].
  unfold sid_count. rewrite filter_app, length_app.
  unfold calls_with_sid in H. rewrite H. cbn [filter].
  rewrite String.eqb_refl. cbn. now rewrite andb_false_r.
Qed.

Lemma db_reliable_eq w w' :
  db_faults w' = db_faults w -> db_reliable w -> db_reliable w'.
Proof. unfold db_reliable. now intros ->. Qed.

Lemma db_reliable_after w : db_reliable w -> db_reliable (after_round_trip w).
Proof. intros R. apply (round_trip_reliable R). Qed.

(** A commit that the database answers and that violates no index makes
    the session durable. *)
Lemma db_commit_reliable w :
  db_reliable w ->
  unique_violation (db w) (session w) = false ->
  db_commit w = (Ok tt, set_durable (session w) (after_round_trip w)).
Proof.
  intros R V. rewrite db_commit_run.
  destruct (round_trip_reliable R) as (-> & _). now rewrite V.
Qed.

Lemma bind_db_add_call B sid dir from to st (k : Call -> M B) w :
  bind (db_add_call sid dir from to st) k w
  = k (mkCall (fresh_id (session w)) sid dir from to st None None)
      (set_session
         (mkDB (calls (session w)
                ++ [mkCall (fresh_id (session w)) sid dir from to st
                           None None])
               (conversations (session w)) (voice_profiles (session w))) w).
Proof. reflexivity. Qed.

Lemma bind_db_add_conversation B cid msgs (k : Conversation -> M B) w :
  bind (db_add_conversation cid msgs) k w
  = k (mkConversation (fresh_id (session w)) cid msgs None PyNone PyNone)
      (set_session
         (mkDB (calls (session w))
               (conversations (session w)
                ++ [mkConversation (fresh_id (session w)) cid msgs None
                                   PyNone PyNone])
               (voice_profiles (session w))) w).
Proof. reflexivity. Qed.

(** ** Incoming calls (C3) *)

(** C3, amended.  For an inbound call-started event whose session id no
    stored Call carries, the database answering, [handle_incoming_call]
    returns the greeting markup and leaves exactly one Call row for that
    session id, with status in-progress, and exactly one Conversation row
    linked to it, with an empty message sequence; both rows are new and
    durable, and no other row is touched. *)
Theorem handle_incoming_call_new_session :
  forall settings sid from to w,
  calls_with_sid sid (db w) = [] ->
  db_reliable w ->
  exists w',
    CallHandler.handle_incoming_call settings sid from to (open_session w)
    = (Ok (TwilioService.generate_greeting_twiml settings
             (Some CallHandler.greeting)), w')
    /\ session w' = db w'
    /\ one_call_in_progress sid (db w')
    /\ (exists c v,
          calls (db w') = calls (db w) ++ [c]
          /\ conversations (db w') = conversations (db w) ++ [v]
          /\ voice_profiles (db w') = voice_profiles (db w)
          /\ c = mkCall (fresh_id (db w)) sid INBOUND from to
                        IN_PROGRESS None None
          /\ conv_call_id v = call_id c).
Proof.
  intros settings sid from to w H R.
  set (c := mkCall (fresh_id (db w)) sid INBOUND from to IN_PROGRESS None None).
  set (d1 := mkDB (calls (db w) ++ [c]) (conversations (db w))
                  (voice_profiles (db w))).
  set (v := mkConversation (fresh_id d1) (call_id c) [] None PyNone PyNone).
  unfold CallHandler.handle_incoming_call.
  rewrite try_run, bind_logger, bind_db_add_call, bind_run.
  rewrite db_commit_reliable.
  2: { apply (db_reliable_eq (w:=w)); [reflexivity | assumption]. }
  2: { apply (no_violation_first_insert (db w) c H). }
  rewrite bind_db_add_conversation, bind_run.
  rewrite db_commit_reliable.
  2: { apply (db_reliable_eq (w:=after_round_trip w));
       [reflexivity | now apply db_reliable_after]. }
  2: { apply no_violation_same_calls. reflexivity. }
  rewrite bind_logger. unfold ret.
  eexists; split; [reflexivity|].
  split; [reflexivity|].
  split.
  - exists c. split; [|split; [reflexivity|]].
    + unfold calls_with_sid; cbn. rewrite filter_app.
      unfold calls_with_sid in H. rewrite H; cbn.
      now rewrite String.eqb_refl.
    + exists v. split; [|reflexivity].
      unfold conversations_of; cbn. rewrite filter_app; cbn.
      rewrite Nat.eqb_refl.
      rewrite filter_none; [reflexivity|].
      intros x Hx. apply Nat.eqb_neq.
      pose proof (fresh_id_conversation_call _ _ Hx). lia.
  - exists c, v. repeat split.
Qed.

(** ** One turn of conversation *)

Lemma add_message_run v r c w :
  add_message v r c w
  = (Ok (mkConversation (conv_id v) (conv_call_id v)
                        (messages v ++ [mkMessage r c (clock w)])
                        (summary v) (intent v) (sentiment v)),
     set_session
       (put_conversation
          (mkConversation (conv_id v) (conv_call_id v)
                          (messages v ++ [mkMessage r c (clock w)])
                          (summary v) (intent v) (sentiment v))
          (session w))
       (tick w)).
Proof. reflexivity. Qed.

Lemma classify_run settings json_loads v text w :
  exists w',
    CallHandler.classify settings json_loads v text w = (Ok tt, w')
    /\ session w'
       = put_conversation
           (with_sentiment
              (stored_field
                 (sentiment_result json_loads
                    (next_reply (tl (openai_replies w)))) "sentiment")
              (with_intent
                 (stored_field
                    (intent_result json_loads text (next_completion w))
                    "intent") v))
           (session w)
    /\ db w' = db w /\ commits w' = commits w
    /\ db_faults w' = db_faults w
    /\ openai_replies w' = tl (tl (openai_replies w)).
Proof.
  unfold CallHandler.classify, PhoneAgent.analyze_intent,
    PhoneAgent.analyze_sentiment.
  destruct (detect_intent_run settings json_loads text w)
    as (w1 & E1 & (S1a & S1b & S1c & S1d & S1e) & R1 & L1).
  destruct (intent_result_dict json_loads text (next_completion w))
    as (di & Ei).
  rewrite Ei in *.
  rewrite try_run. step E1.
  unfold OpenAIService.py_get at 1. rewrite bind_ret, bind_store_conversation.
  match goal with
  | |- context [bind _ _ ?W] =>
      destruct (analyze_sentiment_run settings json_loads text W)
        as (w2 & E2 & (S2a & S2b & S2c & S2d & S2e) & R2 & L2)
  end.
  change (next_completion (set_session _ w1))
    with (next_reply (openai_replies w1)) in E2.
  rewrite R1 in E2.
  destruct (sentiment_result_dict json_loads
              (next_reply (tl (openai_replies w)))) as (ds & Es).
  rewrite Es in *.
  step E2.
  unfold OpenAIService.py_get at 1. rewrite bind_ret.
  unfold store_conversation.
  eexists; split; [reflexivity|].
  cbn [session db commits db_faults openai_replies set_session stored_field].
  cbn [session db commits db_faults openai_replies set_session]
    in S2a, S2b, S2c, S2d, R2.
  rewrite S2b.
  rewrite put_conversation_twice by reflexivity. rewrite S1b.
  repeat split; congruence.
Qed.

(** ** Markup is well formed *)

Lemma append_truthy a b : str_truthy b = true -> str_truthy (a +++ b) = true.
Proof. destruct a; cbn; [tauto | reflexivity]. Qed.

Lemma gather_action_truthy settings :
  str_truthy (TwilioService.gather_action settings) = true.
Proof. unfold TwilioService.gather_action. now apply append_truthy. Qed.

Lemma generate_response_twiml_valid settings message audio_url continue :
  valid_twiml
    (TwilioService.generate_response_twiml settings message audio_url
       continue) = true.
Proof.
  unfold TwilioService.generate_response_twiml, valid_twiml.
  pose proof (gather_action_truthy settings) as G.
  destruct audio_url as [u|]; [destruct (str_truthy u) eqn:U|];
    destruct continue; cbn; rewrite ?U, ?G; reflexivity.
Qed.

Lemma generate_hangup_twiml_valid message :
  valid_twiml (TwilioService.generate_hangup_twiml message) = true.
Proof.
  unfold TwilioService.generate_hangup_twiml.
  destruct message as [m|]; [destruct (str_truthy m)|]; reflexivity.
Qed.

Lemma generate_greeting_twiml_valid settings message :
  valid_twiml (TwilioService.generate_greeting_twiml settings message) = true.
Proof.
  unfold TwilioService.generate_greeting_twiml, valid_twiml.
  pose proof (gather_action_truthy settings) as G.
  cbn. rewrite G. reflexivity.
Qed.

(** ** The speech-gathered turn *)

Lemma handle_user_speech_run settings json_loads sid speech w :
  exists twiml w',
    CallHandler.handle_user_speech settings json_loads sid speech
      (open_session w)
    = (Ok twiml, w')
    /\ valid_twiml twiml = true
    /\ session w' = db w'
    /\ ((db w' = db w /\ commits w' = commits w)
        \/ turn_stored json_loads sid speech w w')
    /\ (db_reliable w ->
        forall c v,
          calls_with_sid sid (db w) = [c] ->
          conversations_of (call_id c) (db w) = [v] ->
          turn_stored json_loads sid speech w w').
Proof.
  unfold CallHandler.handle_user_speech.
  rewrite try_run, bind_logger, bind_run, select_calls_by_sid_run.
  set (w0 := add_log (mkLog INFO "Handling user speech" "") (open_session w)).
  change (session w0) with (db w). fold (calls_with_sid sid (db w)).
  assert (Rel0 : db_reliable w -> db_reliable w0)
    by (apply db_reliable_eq; reflexivity).
  destruct (round_trip_result w0) eqn:RT0.
  2: { (* the Call look-up fails *)
    rewrite bind_logger. unfold ret.
    do 2 eexists. split; [reflexivity|].
    split; [apply generate_response_twiml_valid|].
    split; [reflexivity|]. split; [left; split; reflexivity|].
    intros R. destruct (round_trip_reliable (Rel0 R)). congruence. }
  destruct (calls_with_sid sid (db w)) as [|c [|c' cs]] eqn:Hc.
  - (* no Call *)
    cbn [scalar_one_or_none]. rewrite bind_ret, bind_logger. unfold ret.
    do 2 eexists. split; [reflexivity|].
    split; [apply generate_hangup_twiml_valid|].
    split; [reflexivity|]. split; [left; split; reflexivity|].
    intros _ c v Hc'. discriminate.
  - (* one Call *)
    cbn [scalar_one_or_none]. rewrite bind_ret.
    rewrite bind_run, select_conversations_by_call_run.
    set (w1 := after_round_trip w0).
    change (session w1) with (db w).
    fold (conversations_of (call_id c) (db w)).
    assert (Rel1 : db_reliable w -> db_reliable w1)
      by (intros R; apply db_reliable_after; auto).
    destruct (round_trip_result w1) eqn:RT1.
    2: { rewrite bind_logger. unfold ret.
         do 2 eexists. split; [reflexivity|].
         split; [apply generate_response_twiml_valid|].
         split; [reflexivity|]. split; [left; split; reflexivity|].
         intros R. destruct (round_trip_reliable (Rel1 R)). congruence. }
    set (w2 := after_round_trip w1).
    assert (Rel2 : db_reliable w -> db_reliable w2)
      by (intros R; apply db_reliable_after; auto).
    destruct (conversations_of (call_id c) (db w)) as [|v [|v' vs]] eqn:Hv.
    + (* no Conversation *)
      cbn [scalar_one_or_none]. rewrite bind_ret, bind_logger. unfold ret.
      do 2 eexists. split; [reflexivity|].
      split; [apply generate_hangup_twiml_valid|].
      split; [reflexivity|]. split; [left; split; reflexivity|].
      intros _ c0 v0 Hc0 Hv0. injection Hc0 as <-. congruence.
    + (* one Conversation: the turn proper *)
      cbn [scalar_one_or_none]. rewrite bind_ret.
      rewrite bind_run, add_message_run.
      match goal with
      | |- context [bind (PhoneAgent.generate_response ?s ?m ?h ?x) _ ?W] =>
          destruct (generate_response_run s m h x W)
            as (w3 & E3 & (S3a & S3b & S3c & S3d & S3e) & R3 & L3)
      end.
      step E3.
      rewrite bind_run, add_message_run.
      match goal with
      | |- context [bind (CallHandler.classify ?s ?j ?x ?t) _ ?W] =>
          destruct (classify_run s j x t W)
            as (w4 & E4 & S4 & D4 & C4 & F4 & R4)
      end.
      step E4.
      cbn [session db commits db_faults clock openai_replies set_session tick
           conv_id conv_call_id messages summary intent sentiment]
        in S3a, S3b, S3c, S3d, S3e, R3, S4, D4, C4, F4, R4.
      change (next_completion (set_session _ (tick w2)))
        with (next_completion w) in *.
      change (clock w2) with (clock w) in *.
      change (session w2) with (db w) in *.
      assert (S4' : session w4 = turn_db json_loads speech w v).
      { rewrite S4, S3b.
        rewrite !put_conversation_twice by reflexivity.
        unfold turn_db, turn_conversation, next_completion.
        cbn [openai_replies set_session tick].
        rewrite R3, S3e. rewrite <- app_assoc. reflexivity. }
      assert (Rel4 : db_reliable w -> db_reliable w4).
      { intros R. apply (db_reliable_eq (w:=w2)); [|auto].
        rewrite F4, S3d. reflexivity. }
      assert (D4' : db w4 = db w) by (rewrite D4, S3a; reflexivity).
      assert (C4' : commits w4 = commits w) by (rewrite C4, S3c; reflexivity).
      rewrite bind_run, db_commit_run.
      rewrite no_violation_same_calls by (rewrite S4', D4'; reflexivity).
      destruct (round_trip_result w4) eqn:RT4.
      2: { (* the commit fails: rolled back *)
        rewrite bind_logger. unfold ret.
        do 2 eexists. split; [reflexivity|].
        split; [apply generate_response_twiml_valid|].
        split; [reflexivity|].
        split; [left; split; assumption|].
        intros R. destruct (round_trip_reliable (Rel4 R)). congruence. }
      (* committed *)
      match goal with
      | |- context [bind CallHandler._get_active_voice_profile _ ?W] =>
          destruct (get_active_voice_profile_run W)
            as (vp & w5 & E5 & D5 & S5 & C5)
      end.
      step E5.
      match goal with
      | |- context [bind (ElevenLabsService.text_to_speech ?s ?t ?x ?m ?a ?b)
                         _ ?W] =>
          destruct (text_to_speech_run s t x m a b W)
            as (r & w6 & E6 & (D6 & S6 & C6 & _) & _)
      end.
      cbn [db session commits set_durable] in D5, S5, C5.
      assert (Stored : forall w', db w' = db w5 -> commits w' = commits w5 ->
                                  turn_stored json_loads sid speech w w').
      { intros w' Hd Hk. exists c, v.
        change (commits (after_round_trip w4)) with (commits w4) in C5.
        split; [exact Hc|]. split; [exact Hv|].
        split; congruence. }
      destruct r as [audio|e]; step E6.
      * unfold CallHandler._save_audio. rewrite bind_ret, bind_logger.
        unfold ret.
        do 2 eexists. split; [reflexivity|].
        split; [apply generate_response_twiml_valid|].
        split; [cbn; congruence|].
        split; [right|intros _ c0 v0 E0 E1]; apply Stored; cbn; congruence.
      * rewrite bind_logger. unfold ret.
        do 2 eexists. split; [reflexivity|].
        split; [apply generate_response_twiml_valid|].
        split; [cbn; congruence|].
        split; [right|intros _ c0 v0 E0 E1]; apply Stored; cbn; congruence.
    + (* several Conversation rows *)
      cbn [scalar_one_or_none]. rewrite bind_raise_now. cbv beta iota.
      rewrite bind_logger. unfold ret.
      do 2 eexists. split; [reflexivity|].
      split; [apply generate_response_twiml_valid|].
      split; [reflexivity|]. split; [left; split; reflexivity|].
      intros _ c0 v0 Hc0 Hv0. injection Hc0 as <-. congruence.
  - (* several Call rows *)
    cbn [scalar_one_or_none]. rewrite bind_raise_now. cbv beta iota.
    rewrite bind_logger. unfold ret.
    do 2 eexists. split; [reflexivity|].
    split; [apply generate_response_twiml_valid|].
    split; [reflexivity|]. split; [left; split; reflexivity|].
    intros _ c0 v0 Hc'. discriminate.
Qed.

(** ** The call-completed event *)

Lemma no_violation_updated_call d s c :
  calls s = calls (put_call c d) -> unique_violation d s = false.
Proof.
  intros E. apply no_violation_without_insert. rewrite E. cbn. intros x Hx.
  apply in_map_iff in Hx. destruct Hx as (y & Ey & Hy).
  destruct (call_id y =? call_id c) eqn:X.
  - subst x. apply Nat.eqb_eq in X. eauto.
  - subst x. eauto.
Qed.

Lemma handle_call_completed_run settings sid dur rec_url w c :
  calls_with_sid sid (db w) = [c] ->
  exists w',
    CallHandler.handle_call_completed settings sid dur rec_url
      (open_session w)
    = (Ok tt, w')
    /\ ((db w' = completed_db dur rec_url w c
         /\ commits w' = commits w ++ [db w'])
        \/ (db w' = db w /\ commits w' = commits w
            /\ failure_logged "Failed to handle call completion" w'))
    /\ (db_reliable w ->
        length (conversations_of (call_id c) (db w)) <= 1 ->
        db w' = completed_db dur rec_url w c
        /\ commits w' = commits w ++ [db w']
        /\ forall v,
            conversations_of (call_id c) (db w) = [v] ->
            messages v <> [] ->
            completion_fails (next_completion w) ->
            error_logged "Failed to generate summary" w').
Proof.
  intros Hc.
  unfold CallHandler.handle_call_completed.
  rewrite try_run, bind_logger, bind_run, select_calls_by_sid_run.
  set (w0 := add_log (mkLog INFO "Handling call completion" "")
                     (open_session w)).
  change (session w0) with (db w). fold (calls_with_sid sid (db w)).
  rewrite Hc.
  assert (Rel0 : db_reliable w -> db_reliable w0)
    by (apply db_reliable_eq; reflexivity).
  destruct (round_trip_result w0) eqn:RT0.
  2: { unfold logger.
       eexists. split; [reflexivity|].
       split.
       - right. split; [reflexivity|]. split; [reflexivity|].
         do 2 eexists. reflexivity.
       - intros R. destruct (round_trip_reliable (Rel0 R)). congruence. }
  cbn [scalar_one_or_none]. rewrite bind_ret.
  rewrite !bind_store_call.
  set (w1 := after_round_trip w0).
  match goal with
  | |- context [bind (select_conversations_by_call _) _ ?W] =>
      change W
        with (set_session
                (put_call
                   (with_recording_url rec_url
                      (with_duration dur (with_status COMPLETED c)))
                   (put_call (with_duration dur (with_status COMPLETED c))
                      (put_call (with_status COMPLETED c) (db w))))
                w1)
  end.
  rewrite !put_call_twice by reflexivity.
  change (call_id (with_recording_url _ _)) with (call_id c).
  fold (completed_call dur rec_url c).
  set (c' := completed_call dur rec_url c).
  set (w2 := set_session (put_call c' (db w)) w1).
  rewrite bind_run, select_conversations_by_call_run.
  change (conversations (session w2)) with (conversations (db w)).
  fold (conversations_of (call_id c) (db w)).
  assert (Rel2 : db_reliable w -> db_reliable w2).
  { intros R. apply (db_reliable_eq (w:=w1));
      [reflexivity | apply db_reliable_after; auto]. }
  set (w3 := after_round_trip w2).
  assert (Rel3 : db_reliable w -> db_reliable w3)
    by (intros R; apply db_reliable_after; auto).
  unfold completed_db. fold c'.
  destruct (round_trip_result w2) eqn:RT2.
  2: { unfold logger.
       eexists. split; [reflexivity|].
       split.
       - right. split; [reflexivity|]. split; [reflexivity|].
         do 2 eexists. reflexivity.
       - intros R. destruct (round_trip_reliable (Rel2 R)). congruence. }
  (* what remains once the conversation block has run in a world [w3] *)
  assert (Commit :
    forall wc dc,
      session wc = dc -> calls dc = calls (put_call c' (db w)) ->
      db wc = db w -> commits wc = commits w ->
      (db_reliable w -> db_reliable wc) ->
      exists w',
        (let (r, wd) :=
           (db_commit ;; logger INFO "Call completed and updated" "") wc in
         match r with
         | Ok a2 => (Ok a2, wd)
         | Raise e =>
             logger ERROR "Failed to handle call completion" (exn_str e) wd
         end) = (Ok tt, w')
        /\ ((db w' = dc /\ commits w' = commits w ++ [db w'])
            \/ (db w' = db w /\ commits w' = commits w
                /\ failure_logged "Failed to handle call completion" w'))
        /\ (db_reliable w ->
            db w' = dc /\ commits w' = commits w ++ [db w'])
        /\ (forall entry, In entry (logs wc) -> In entry (logs w'))).
  { intros wc dc Sc Kc Dc Cc Relc.
    rewrite bind_run, db_commit_run, Sc, Dc.
    rewrite (no_violation_updated_call _ _ _ Kc).
    destruct (round_trip_result wc) eqn:RTc.
    - unfold logger. eexists. split; [reflexivity|].
      cbn [db commits logs set_durable add_log after_round_trip
           set_db_faults].
      rewrite Cc. split; [left; split; reflexivity|].
      split; [intros _; split; reflexivity|].
      intros entry I. apply in_or_app. now left.
    - unfold logger. eexists. split; [reflexivity|].
      cbn [db commits logs set_session add_log after_round_trip
           set_db_faults].
      split.
      + right. split; [assumption|]. split; [assumption|].
        do 2 eexists. reflexivity.
      + split.
        * intros R. destruct (round_trip_reliable (Relc R)). congruence.
        * intros entry I. apply in_or_app. now left. }
  destruct (conversations_of (call_id c) (db w)) as [|v [|v' vs]] eqn:Hv.
  - (* no Conversation row *)
    cbn [scalar_one_or_none]. rewrite bind_ret, bind_ret.
    destruct (Commit w3 (put_call c' (db w)) eq_refl eq_refl eq_refl eq_refl
                Rel3) as (w' & E & O & P & _).
    rewrite E. exists w'. split; [reflexivity|]. split; [exact O|].
    intros R _. destruct (P R) as (P1 & P2).
    split; [exact P1|]. split; [exact P2|].
    intros v0 Hv0. discriminate Hv0.
  - (* one Conversation row *)
    cbn [scalar_one_or_none]. rewrite bind_ret.
    destruct (messages v) as [|m ms] eqn:Hm.
    + rewrite bind_ret.
      destruct (Commit w3 (put_call c' (db w)) eq_refl eq_refl eq_refl eq_refl
                  Rel3) as (w' & E & O & P & _).
      rewrite E. exists w'. split; [reflexivity|]. split; [exact O|].
      intros R _. destruct (P R) as (P1 & P2).
      split; [exact P1|]. split; [exact P2|].
      intros v0 Hv0 Hm0. injection Hv0 as <-. congruence.
    + destruct (generate_summary_run settings (m :: ms) w3)
        as (w4 & E3 & ((S3a & S3b & S3c & S3d & S3e) & _) & G3).
      rewrite bind_run.
      change (next_completion w3) with (next_completion w) in E3.
      step E3. unfold store_conversation. rewrite S3b.
      change (session w3) with (put_call c' (db w)).
      match goal with
      | |- context [(db_commit ;; _) ?W] =>
          destruct (Commit W (session W)) as (w' & E & O & P & Q)
      end.
      * reflexivity.
      * reflexivity.
      * cbn [db set_session]. now rewrite S3a.
      * cbn [commits set_session]. now rewrite S3c.
      * intros R. apply (db_reliable_eq (w:=w3)); [|auto].
        cbn [db_faults set_session]. now rewrite S3d.
      * cbn [session set_session logs] in E, O, P, Q.
        rewrite E. exists w'. split; [reflexivity|]. split; [exact O|].
        intros R _. destruct (P R) as (P1 & P2).
        split; [exact P1|]. split; [exact P2|].
        intros v0 _ _ F. destruct (G3 F) as (l & msg & G).
        exists msg. apply Q. rewrite G. apply in_or_app. right. now left.
  - (* several Conversation rows *)
    cbn [scalar_one_or_none]. rewrite bind_raise_now. cbv beta iota.
    unfold logger.
    eexists. split; [reflexivity|].
    split.
    + right. split; [reflexivity|]. split; [reflexivity|].
      do 2 eexists. reflexivity.
    + intros _ L. cbn in L. lia.
Qed.

(** ** Reading a store after an update by primary key *)

Lemma in_put_conversation v' d x :
  In x (conversations (put_conversation v' d)) ->
  x = v' \/ In x (conversations d).
Proof.
  cbn. intros H. apply in_map_iff in H. destruct H as (y & E & Hy).
  destruct (conv_id y =? conv_id v'); subst; auto.
Qed.

Lemma conversations_of_put cid v v' d :
  conversations_of cid d = [v] ->
  conv_id v' = conv_id v -> conv_call_id v' = cid ->
  In v' (conversations_of cid (put_conversation v' d))
  /\ forall x, In x (conversations_of cid (put_conversation v' d)) -> x = v'.
Proof.
  intros Hv Ei Ec. unfold conversations_of in *. cbn. split.
  - apply filter_In. split; [|now rewrite Ec, Nat.eqb_refl].
    apply in_map_iff. exists v. split.
    + now rewrite Ei, Nat.eqb_refl.
    + assert (I : In v (filter (fun v0 => conv_call_id v0 =? cid)
                               (conversations d)))
        by (rewrite Hv; now left).
      now apply filter_In in I.
  - intros x Hx. apply filter_In in Hx. destruct Hx as (Hx & Fx).
    apply in_map_iff in Hx. destruct Hx as (y & E & Hy).
    destruct (conv_id y =? conv_id v') eqn:X; [now subst|].
    subst x.
    assert (I : In y (filter (fun v0 => conv_call_id v0 =? cid)
                             (conversations d)))
      by (apply filter_In; auto).
    rewrite Hv in I. destruct I as [<- | []].
    rewrite Ei, Nat.eqb_refl in X. discriminate.
Qed.

Lemma calls_with_sid_put sid c c' d :
  calls_with_sid sid d = [c] ->
  call_id c' = call_id c -> twilio_call_sid c' = sid ->
  In c' (calls_with_sid sid (put_call c' d))
  /\ forall x, In x (calls_with_sid sid (put_call c' d)) -> x = c'.
Proof.
  intros Hc Ei Es. unfold calls_with_sid in *. cbn. split.
  - apply filter_In. split; [|now rewrite Es, String.eqb_refl].
    apply in_map_iff. exists c. split.
    + now rewrite Ei, Nat.eqb_refl.
    + assert (I : In c (filter (fun c0 => twilio_call_sid c0 == sid)
                               (calls d)))
        by (rewrite Hc; now left).
      now apply filter_In in I.
  - intros x Hx. apply filter_In in Hx. destruct Hx as (Hx & Fx).
    apply in_map_iff in Hx. destruct Hx as (y & E & Hy).
    destruct (call_id y =? call_id c') eqn:X; [now subst|].
    subst x.
    assert (I : In y (filter (fun c0 => twilio_call_sid c0 == sid)
                             (calls d)))
      by (apply filter_In; auto).
    rewrite Hc in I. destruct I as [<- | []].
    rewrite Ei, Nat.eqb_refl in X. discriminate.
Qed.

Lemma in_conversations_of cid d v :
  conversations_of cid d = [v] -> In v (conversations d).
Proof.
  intros H.
  assert (I : In v (conversations_of cid d)) by (rewrite H; now left).
  unfold conversations_of in I. now apply filter_In in I.
Qed.

Lemma conv_call_id_of cid d v :
  conversations_of cid d = [v] -> conv_call_id v = cid.
Proof.
  intros H.
  assert (I : In v (conversations_of cid d)) by (rewrite H; now left).
  unfold conversations_of in I. apply filter_In in I.
  now apply Nat.eqb_eq.
Qed.

Lemma sid_of sid d c : calls_with_sid sid d = [c] -> twilio_call_sid c = sid.
Proof.
  intros H.
  assert (I : In c (calls_with_sid sid d)) by (rewrite H; now left).
  unfold calls_with_sid in I. apply filter_In in I.
  now apply String.eqb_eq.
Qed.

(** ** Failure of the completion provider (C1, C8) *)

Lemma completion_fails_raise e : completion_fails (Raise e).
Proof. destruct e; cbn; eexists; reflexivity. Qed.

Lemma reply_text_fallback r :
  completion_fails r -> reply_text r = PhoneAgent.fallback_response.
Proof. intros (e & E). unfold reply_text. now rewrite E. Qed.

Lemma summary_text_fallback r :
  completion_fails r -> summary_text r = CallHandler.summary_fallback.
Proof. intros (e & E). unfold summary_text. now rewrite E. Qed.

Lemma no_empty_reply_appended_refl d : no_empty_reply_appended d d.
Proof. intros v' m Hv Hm _. exists v'. auto. Qed.

Lemma turn_db_no_empty_reply json_loads speech w cid v :
  conversations_of cid (db w) = [v] ->
  completion_fails (next_completion w) ->
  no_empty_reply_appended (db w) (turn_db json_loads speech w v).
Proof.
  intros Hv F v' m Hv' Hm (Er & Ec).
  apply in_put_conversation in Hv'. destruct Hv' as [-> | Hv'].
  - cbn in Hm. apply in_app_or in Hm. destruct Hm as [Hm | [<- | [<- | []]]].
    + exists v. split; [eapply in_conversations_of; eauto | auto].
    + cbn in Er. discriminate.
    + cbn in Ec. rewrite (reply_text_fallback F) in Ec. discriminate.
  - exists v'. auto.
Qed.

(** C1.  When the completion request of a speech-gathered turn fails,
    [handle_user_speech] still returns (it raises nothing) markup that is
    well formed, and it has appended no assistant message without
    content: whatever the database and the synthesis provider do, every
    assistant message with empty content that a conversation holds
    afterwards, in the durable store or in the session, was in that
    conversation before the turn; so a store without such a message
    before the turn has none afterwards. *)
Theorem handle_user_speech_completion_failure :
  forall settings json_loads call_sid speech_result w,
    completion_fails (next_completion w) ->
    exists twiml w',
      CallHandler.handle_user_speech settings json_loads call_sid
        speech_result (open_session w)
      = (Ok twiml, w')
      /\ valid_twiml twiml = true
      /\ no_empty_reply_appended (db w) (db w')
      /\ no_empty_reply_appended (db w) (session w')
      /\ (no_empty_reply (db w) -> no_empty_reply (db w')).
Proof.
  intros settings jl sid speech w F.
  destruct (handle_user_speech_run settings jl sid speech w)
    as (tw & w' & E & V & S & O & _).
  exists tw, w'. split; [exact E|]. split; [exact V|].
  rewrite S.
  assert (N : no_empty_reply_appended (db w) (db w')).
  { destruct O as [(D & _) | (c & v & Hc & Hv & D & _)]; rewrite D.
    - apply no_empty_reply_appended_refl.
    - eapply turn_db_no_empty_reply; eauto. }
  split; [exact N|]. split; [exact N|].
  intros B v' m Hv' Hm Em.
  destruct (N v' m Hv' Hm Em) as (v & Hv & _ & Hm').
  exact (B v m Hv Hm' Em).
Qed.

(** C8.  [generate_response] is total: for every input and every world
    it returns a string and raises nothing; when the completion request
    fails the string is the fixed fallback, which is not empty.  So a
    turn of [handle_user_speech] that finds its Call and Conversation
    (the database answering) appends, after the user message, an
    assistant message carrying that fallback when the completion fails. *)
Theorem generate_response_total :
  forall settings user_message conversation_history context w,
    (exists w',
        PhoneAgent.generate_response settings user_message
          conversation_history context w
        = (Ok (reply_text (next_completion w)), w')
        /\ same_store w w')
    /\ (completion_fails (next_completion w) ->
        reply_text (next_completion w)
        = "Disculpa, tuve un problema técnico. ¿Podrías repetir lo que dijiste?")
    /\ (forall json_loads call_sid c v,
           completion_fails (next_completion w) ->
           db_reliable w ->
           calls_with_sid call_sid (db w) = [c] ->
           conversations_of (call_id c) (db w) = [v] ->
           exists twiml w',
             CallHandler.handle_user_speech settings json_loads call_sid
               user_message (open_session w)
             = (Ok twiml, w')
             /\ conversations_of (call_id c) (db w') <> []
             /\ forall x,
                 In x (conversations_of (call_id c) (db w')) ->
                 messages x
                 = messages v
                   ++ [mkMessage "user" user_message (clock w);
                       mkMessage "assistant"
                         "Disculpa, tuve un problema técnico. ¿Podrías repetir lo que dijiste?"
                         (S (clock w))]).
Proof.
  intros settings um hist ctx w. split; [|split].
  - destruct (generate_response_run settings um hist ctx w)
      as (w' & E & S & _).
    exists w'. auto.
  - intros F. now rewrite (reply_text_fallback F).
  - intros jl sid c v F R Hc Hv.
    destruct (handle_user_speech_run settings jl sid um w)
      as (tw & w' & E & _ & _ & _ & P).
    destruct (P R c v Hc Hv) as (c0 & v0 & Hc0 & Hv0 & D & _).
    rewrite Hc in Hc0. injection Hc0 as <-.
    rewrite Hv in Hv0. injection Hv0 as <-.
    exists tw, w'. split; [exact E|]. rewrite D. unfold turn_db.
    destruct (@conversations_of_put (call_id c) v
                (turn_conversation jl um w v) (db w) Hv eq_refl
                (@conv_call_id_of (call_id c) (db w) v Hv))
      as (I & U).
    split.
    + intros N. rewrite N in I. exact I.
    + intros x Hx. rewrite (U x Hx). cbn.
      now rewrite (reply_text_fallback F).
Qed.

(** ** Failing classification (C4) *)

(** C4, amended.  A failing classification does not stop the turn:
    [handle_user_speech] returns well-formed markup.  In a turn that finds
    its Call and Conversation (the database answering), a failed intent
    classification (no answer, no JSON, or no JSON object) stores the
    label [other] as the conversation's intent, and a failed sentiment
    classification stores the label [neutral] as its sentiment: the
    defaults of [detect_intent] and [analyze_sentiment] replace the
    stored labels. *)
Theorem handle_user_speech_classification_failure :
  forall settings json_loads call_sid speech_result w c v,
    db_reliable w ->
    calls_with_sid call_sid (db w) = [c] ->
    conversations_of (call_id c) (db w) = [v] ->
    exists twiml w',
      CallHandler.handle_user_speech settings json_loads call_sid
        speech_result (open_session w)
      = (Ok twiml, w')
      /\ valid_twiml twiml = true
      /\ conversations_of (call_id c) (db w') <> []
      /\ forall x,
          In x (conversations_of (call_id c) (db w')) ->
          (classification json_loads (next_reply (tl (openai_replies w)))
           = None ->
           intent x = PyStr "other")
          /\ (classification json_loads
                (next_reply (tl (tl (openai_replies w)))) = None ->
              sentiment x = PyStr "neutral").
Proof.
  intros settings jl sid speech w c v R Hc Hv.
  destruct (handle_user_speech_run settings jl sid speech w)
    as (tw & w' & E & V & _ & _ & P).
  destruct (P R c v Hc Hv) as (c0 & v0 & Hc0 & Hv0 & D & _).
  rewrite Hc in Hc0. injection Hc0 as <-.
  rewrite Hv in Hv0. injection Hv0 as <-.
  exists tw, w'. split; [exact E|]. split; [exact V|].
  rewrite D. unfold turn_db.
  destruct (@conversations_of_put (call_id c) v
              (turn_conversation jl speech w v) (db w) Hv eq_refl
              (@conv_call_id_of (call_id c) (db w) v Hv))
    as (I & U).
  split.
  - intros N. rewrite N in I. exact I.
  - intros x Hx. rewrite (U x Hx). cbn. split; intros N.
    + unfold intent_result. now rewrite N.
    + unfold sentiment_result. now rewrite N.
Qed.

(** ** Commits of a turn (C5) *)

Lemma turn_db_rows json_loads speech w v x :
  In x (conversations (turn_db json_loads speech w v)) ->
  ~ In x (conversations (db w)) ->
  messages x
  = messages v
    ++ [mkMessage "user" speech (clock w);
        mkMessage "assistant" (reply_text (next_completion w))
                  (S (clock w))].
Proof.
  intros Hx N. apply in_put_conversation in Hx.
  destruct Hx as [-> | Hx]; [reflexivity | contradiction].
Qed.

Lemma turn_db_replied json_loads speech w v :
  ~ user_without_reply speech (db w) (turn_db json_loads speech w v).
Proof.
  intros (x & Hx & N & l & t & E).
  rewrite (turn_db_rows _ _ _ _ _ Hx N) in E.
  change (messages v
          ++ [mkMessage "user" speech (clock w);
              mkMessage "assistant" (reply_text (next_completion w))
                        (S (clock w))])
    with (messages v
          ++ [mkMessage "user" speech (clock w)]
          ++ [mkMessage "assistant" (reply_text (next_completion w))
                        (S (clock w))]) in E.
  rewrite app_assoc in E. apply app_inj_tail in E. destruct E as (_ & E).
  discriminate.
Qed.

(** C5, amended.  [handle_user_speech] commits at most once in a turn,
    after the user message, the assistant reply and the labels have all
    been written: whatever the database and the providers do, either
    nothing is made durable during the turn, or exactly one state is, the
    store the handler ends with, in which every conversation row the
    turn wrote ends with the user message followed by its assistant
    reply.  No durable state holds the user message without its reply. *)
Theorem handle_user_speech_commits_once :
  forall settings json_loads call_sid speech_result w,
    exists twiml w',
      CallHandler.handle_user_speech settings json_loads call_sid
        speech_result (open_session w)
      = (Ok twiml, w')
      /\ (persisted_during w w' = []
          \/ persisted_during w w' = [db w'])
      /\ (forall snapshot,
             In snapshot (persisted_during w w') ->
             ~ user_without_reply speech_result (db w) snapshot)
      /\ (forall snapshot x,
             In snapshot (persisted_during w w') ->
             In x (conversations snapshot) ->
             ~ In x (conversations (db w)) ->
             exists l,
               messages x
               = l ++ [mkMessage "user" speech_result (clock w);
                       mkMessage "assistant"
                                 (reply_text (next_completion w))
                                 (S (clock w))]).
Proof.
  intros settings jl sid speech w.
  destruct (handle_user_speech_run settings jl sid speech w)
    as (tw & w' & E & _ & _ & O & _).
  exists tw, w'. split; [exact E|]. unfold persisted_during.
  destruct O as [(D & C) | (c & v & Hc & Hv & D & C)]; rewrite C.
  - rewrite skipn_all. split; [now left|]. split; intros; contradiction.
  - rewrite skipn_app, skipn_all, Nat.sub_diag. cbn [skipn app].
    rewrite D. split; [now right|]. split.
    + intros s [<- | []]. apply turn_db_replied.
    + intros s x [<- | []] Hx N. exists (messages v).
      now apply turn_db_rows with (json_loads := jl).
Qed.

(** ** Completion of a known call (C6, C10) *)

Lemma completed_db_calls sid dur rec_url w c :
  calls_with_sid sid (db w) = [c] ->
  In (completed_call dur rec_url c)
     (calls_with_sid sid (completed_db dur rec_url w c))
  /\ forall x,
      In x (calls_with_sid sid (completed_db dur rec_url w c)) ->
      x = completed_call dur rec_url c.
Proof.
  intros Hc.
  assert (K : calls_with_sid sid (completed_db dur rec_url w c)
              = calls_with_sid sid
                  (put_call (completed_call dur rec_url c) (db w))).
  { unfold completed_db.
    destruct (conversations_of (call_id c) (db w)) as [|v [|v' vs]];
      try reflexivity.
    destruct (messages v); reflexivity. }
  rewrite K.
  apply (@calls_with_sid_put sid c (completed_call dur rec_url c) (db w) Hc
           eq_refl).
  exact (@sid_of sid (db w) c Hc).
Qed.

Lemma completed_db_summary dur rec_url w c v :
  conversations_of (call_id c) (db w) = [v] ->
  messages v <> [] ->
  In (with_summary (Some (summary_text (next_completion w))) v)
     (conversations_of (call_id c) (completed_db dur rec_url w c))
  /\ forall x,
      In x (conversations_of (call_id c) (completed_db dur rec_url w c)) ->
      x = with_summary (Some (summary_text (next_completion w))) v.
Proof.
  intros Hv Hm. unfold completed_db. rewrite Hv.
  destruct (messages v) as [|m ms]; [congruence|].
  apply (@conversations_of_put (call_id c) v
           (with_summary (Some (summary_text (next_completion w))) v)
           (put_call (completed_call dur rec_url c) (db w))).
  - exact Hv.
  - reflexivity.
  - exact (@conv_call_id_of (call_id c) (db w) v Hv).
Qed.



(** C10.  [_generate_summary] never raises: for every message list and
    every world it returns a string, and when the completion request
    fails that string is the fixed text [Resumen no disponible].  So the
    completion of a call whose Conversation has messages (the database
    answering) always returns normally and leaves a summary string on
    that Conversation. *)
Theorem generate_summary_total :
  forall settings msgs w,
    (exists w',
        CallHandler._generate_summary settings msgs w
        = (Ok (summary_text (next_completion w)), w')
        /\ same_store w w')
    /\ (completion_fails (next_completion w) ->
        summary_text (next_completion w) = "Resumen no disponible")
    /\ (forall call_sid dur rec_url c v,
           db_reliable w ->
           calls_with_sid call_sid (db w) = [c] ->
           conversations_of (call_id c) (db w) = [v] ->
           messages v <> [] ->
           exists w',
             CallHandler.handle_call_completed settings call_sid dur rec_url
               (open_session w)
             = (Ok tt, w')
             /\ conversations_of (call_id c) (db w') <> []
             /\ forall x,
                 In x (conversations_of (call_id c) (db w')) ->
                 summary x = Some (summary_text (next_completion w))).
Proof.
  intros settings msgs w. split; [|split].
  - destruct (generate_summary_run settings msgs w)
      as (w' & E & (S & _) & _).
    exists w'. auto.
  - intros F. now rewrite (summary_text_fallback F).
  - intros sid dur rec_url c v R Hc Hv Hm.
    destruct (@handle_call_completed_run settings sid dur rec_url w c Hc)
      as (w' & E & _ & P).
    assert (L : length (conversations_of (call_id c) (db w)) <= 1)
      by (rewrite Hv; cbn; lia).
    destruct (P R L) as (D & _ & _).
    exists w'. split; [exact E|]. rewrite D.
    destruct (@completed_db_summary dur rec_url w c v Hv Hm) as (I & U).
    split; [intros N; rewrite N in I; exact I|].
    intros x Hx. now rewrite (U x Hx).
Qed.

(* ================================================================== *)
(** * Concrete runs: where the claims fail as stated *)

(** C3 as stated fails: the call-started event of a session id that is
    already stored (a second delivery of the webhook, here after the call
    completed) violates the unique index; the handler answers with the
    apology, and the only Call row of the session id is the completed
    one. *)
Lemma handle_incoming_call_redelivered :
  ~ one_call_in_progress "CA123"
      (db (snd (CallHandler.handle_incoming_call demo_settings
                  "CA123" "+1555" "+1800"
                  (open_session (world_of finished_db []))))).
Proof.
  intros (c & Hc & Hs & _).
  vm_compute in Hc. injection Hc as <-. discriminate Hs.
Qed.

(** C4 as stated fails: both classifications fail, the turn completes,
    and the labels [complaint] and [negative] stored by the earlier turn
    are replaced by the defaults. *)
Lemma handle_user_speech_labels_overwritten :
  let w := world_of talking_db reply_then_failures in
  let w' := snd (CallHandler.handle_user_speech demo_settings
                   demo_json_loads "CA123" "Gracias" (open_session w)) in
  classification demo_json_loads (next_reply (tl (openai_replies w))) = None
  /\ classification demo_json_loads
       (next_reply (tl (tl (openai_replies w)))) = None
  /\ ~ labels_kept "CA123" (db w) (db w').
Proof.
  cbv zeta. split; [vm_compute; reflexivity|].
  split; [vm_compute; reflexivity|].
  intros H.
  specialize (H talking_call talking_conversation eq_refl eq_refl).
  vm_compute in H.
  match type of H with
  | forall x, ?a = x \/ False -> _ =>
      destruct (H a (or_introl eq_refl)) as (H1 & _)
  end.
  discriminate H1.
Qed.

(** C5 as stated fails: in this turn the utterance is appended and the
    turn commits, and the only state made durable holds the utterance
    together with its reply. *)
Lemma handle_user_speech_no_partial_commit :
  let w := world_of talking_db reply_then_failures in
  let w' := snd (CallHandler.handle_user_speech demo_settings
                   demo_json_loads "CA123" "Gracias" (open_session w)) in
  persisted_during w w' = [db w']
  /\ ~ (exists snapshot,
           In snapshot (persisted_during w w')
           /\ user_without_reply "Gracias" (db w) snapshot).
Proof.
  cbv zeta. split; [vm_compute; reflexivity|].
  intros (s & Hs & U).
  assert (E : persisted_during (world_of talking_db reply_then_failures)
                (snd (CallHandler.handle_user_speech demo_settings
                        demo_json_loads "CA123" "Gracias"
                        (open_session
                           (world_of talking_db reply_then_failures))))
              = [turn_db demo_json_loads "Gracias"
                   (world_of talking_db reply_then_failures)
                   talking_conversation])
    by (vm_compute; reflexivity).
  rewrite E in Hs. destruct Hs as [<- | []].
  exact (turn_db_replied U).
Qed.

(** The scenario of the specification: call started, one utterance, call
    completed after 42 seconds. *)
Example end_to_end_scenario :
  let answers :=
    [Ok (mkChatResponse [Some "Claro, con gusto"] None);
     Raise (OpenAISDKError "Request timed out.");
     Raise (OpenAISDKError "Request timed out.");
     Ok (mkChatResponse [Some "El cliente pide una cita."] None)] in
  let w1 := snd (CallHandler.handle_incoming_call demo_settings
                   "CA123" "+1555" "+1800"
                   (open_session (world_of empty_db answers))) in
  let w2 := snd (CallHandler.handle_user_speech demo_settings
                   demo_json_loads "CA123" "I need an appointment"
                   (open_session w1)) in
  let w3 := snd (CallHandler.handle_call_completed demo_settings
                   "CA123" (Some 42) None (open_session w2)) in
  map status (calls (db w1)) = [IN_PROGRESS]
  /\ map messages (conversations (db w1)) = [[]]
  /\ map (fun v => map role (messages v)) (conversations (db w2))
     = [["user"; "assistant"]]
  /\ map (fun c => (status c, duration c)) (calls (db w3))
     = [(COMPLETED, Some 42)]
  /\ map summary (conversations (db w3))
     = [Some "El cliente pide una cita."].
Proof. vm_compute. repeat split. Qed.

(* ================================================================== *)
(** * Instances of the theorems *)

Lemma handle_user_speech_completion_failure_witness :
  let w := world_of talking_db [Raise (OpenAISDKError "Request timed out.")] in
  completion_fails (next_completion w)
  /\ exists twiml w',
      CallHandler.handle_user_speech demo_settings demo_json_loads
        "CA123" "Gracias" (open_session w)
      = (Ok twiml, w')
      /\ valid_twiml twiml = true
      /\ no_empty_reply_appended (db w) (db w')
      /\ no_empty_reply_appended (db w) (session w')
      /\ (no_empty_reply (db w) -> no_empty_reply (db w')).
Proof.
  cbv zeta. split.
  - eexists. vm_compute. reflexivity.
  - apply handle_user_speech_completion_failure.
    eexists. vm_compute. reflexivity.
Defined.

Lemma handle_user_speech_unknown_session_witness :
  let w := world_of talking_db [] in
  no_conversation_for "CA999" (db w)
  /\ exists twiml w',
      CallHandler.handle_user_speech demo_settings demo_json_loads
        "CA999" "Hola" (open_session w)
      = (Ok twiml, w')
      /\ db w' = db w /\ session w' = db w /\ commits w' = commits w
      /\ requests w' = requests w
      /\ (db_reliable w ->
          twiml = TwilioService.generate_hangup_twiml None
          /\ is_hangup_twiml twiml = true).
Proof.
  cbv zeta. split.
  - left. vm_compute. reflexivity.
  - apply handle_user_speech_unknown_session.
    left. vm_compute. reflexivity.
Defined.

Lemma handle_incoming_call_new_session_witness :
  let w := world_of empty_db [] in
  calls_with_sid "CA123" (db w) = []
  /\ db_reliable w
  /\ exists w',
      CallHandler.handle_incoming_call demo_settings "CA123" "+1555" "+1800"
        (open_session w)
      = (Ok (TwilioService.generate_greeting_twiml demo_settings
               (Some CallHandler.greeting)), w')
      /\ one_call_in_progress "CA123" (db w').
Proof.
  cbv zeta.
  split; [vm_compute; reflexivity|].
  split; [constructor|].
  destruct (@handle_incoming_call_new_session demo_settings "CA123" "+1555"
              "+1800" (world_of empty_db []))
    as (w' & E & _ & O & _).
  - vm_compute. reflexivity.
  - constructor.
  - exists w'. split; [exact E | exact O].
Defined.

Lemma handle_user_speech_classification_failure_witness :
  let w := world_of talking_db reply_then_failures in
  db_reliable w
  /\ calls_with_sid "CA123" (db w) = [talking_call]
  /\ conversations_of (call_id talking_call) (db w) = [talking_conversation]
  /\ exists twiml w',
      CallHandler.handle_user_speech demo_settings demo_json_loads
        "CA123" "Gracias" (open_session w)
      = (Ok twiml, w')
      /\ valid_twiml twiml = true
      /\ conversations_of (call_id talking_call) (db w') <> [].
Proof.
  cbv zeta.
  split; [constructor|].
  split; [vm_compute; reflexivity|].
  split; [vm_compute; reflexivity|].
  destruct (@handle_user_speech_classification_failure demo_settings
              demo_json_loads "CA123" "Gracias"
              (world_of talking_db reply_then_failures)
              talking_call talking_conversation)
    as (tw & w' & E & V & N & _).
  - constructor.
  - vm_compute. reflexivity.
  - vm_compute. reflexivity.
  - exists tw, w'. split; [exact E|]. split; [exact V | exact N].
Defined.


Lemma text_to_speech_without_voice_witness :
  let w := world_of talking_db [] in
  opt_truthy None = false
  /\ opt_truthy (elevenlabs_default_voice_id demo_settings) = false
  /\ exists w',
      ElevenLabsService.text_to_speech demo_settings "Hola" None None
        (1 # 2)%Q (3 # 4)%Q w
      = (Raise (ElevenLabsError
                  "Text-to-speech failed: No voice ID provided or configured"),
         w')
      /\ requests w' = requests w
      /\ elevenlabs_replies w' = elevenlabs_replies w
      /\ same_store w w'.
Proof.
  cbv zeta.
  split; [reflexivity|]. split; [reflexivity|].
  apply text_to_speech_without_voice; reflexivity.
Defined.

Lemma generate_response_total_witness :
  let w := world_of talking_db [Raise (OpenAISDKError "Request timed out.")] in
  completion_fails (next_completion w)
  /\ db_reliable w
  /\ exists twiml w',
      CallHandler.handle_user_speech demo_settings demo_json_loads
        "CA123" "Gracias" (open_session w)
      = (Ok twiml, w')
      /\ conversations_of (call_id talking_call) (db w') <> [].
Proof.
  cbv zeta.
  split; [eexists; vm_compute; reflexivity|].
  split; [constructor|].
  destruct (@generate_response_total demo_settings "Gracias" None None
              (world_of talking_db
                 [Raise (OpenAISDKError "Request timed out.")]))
    as (_ & _ & H).
  destruct (H demo_json_loads "CA123" talking_call talking_conversation)
    as (tw & w' & E & N & _).
  - eexists. vm_compute. reflexivity.
  - constructor.
  - vm_compute. reflexivity.
  - vm_compute. reflexivity.
  - exists tw, w'. split; [exact E | exact N].
Defined.

Lemma handle_call_completed_unknown_session_witness :
  let w := world_of talking_db [] in
  calls_with_sid "CA999" (db w) = []
  /\ exists w',
      CallHandler.handle_call_completed demo_settings "CA999" (Some 42) None
        (open_session w)
      = (Ok tt, w')
      /\ db w' = db w /\ session w' = db w /\ commits w' = commits w
      /\ requests w' = requests w
      /\ openai_replies w' = openai_replies w
      /\ (db_reliable w ->
          logs w' = logs w ++ [mkLog INFO "Handling call completion" ""]).
Proof.
  cbv zeta.
  split; [vm_compute; reflexivity|].
  apply handle_call_completed_unknown_session.
  vm_compute. reflexivity.
Defined.

Lemma generate_summary_total_witness :
  let w := world_of talking_db [Raise (OpenAISDKError "Request timed out.")] in
  completion_fails (next_completion w)
  /\ db_reliable w
  /\ exists w',
      CallHandler.handle_call_completed demo_settings "CA123" (Some 42) None
        (open_session w)
      = (Ok tt, w')
      /\ forall x,
          In x (conversations_of (call_id talking_call) (db w')) ->
          summary x = Some "Resumen no disponible".
Proof.
  cbv zeta.
  split; [eexists; vm_compute; reflexivity|].
  split; [constructor|].
  destruct (@generate_summary_total demo_settings
              (messages talking_conversation)
              (world_of talking_db
                 [Raise (OpenAISDKError "Request timed out.")]))
    as (_ & _ & H).
  destruct (H "CA123" (Some 42) None talking_call talking_conversation)
    as (w' & E & _ & S).
  - constructor.
  - vm_compute. reflexivity.
  - vm_compute. reflexivity.
  - discriminate.
  - exists w'. split; [exact E|].
    intros x Hx. rewrite (S x Hx). vm_compute. reflexivity.
Defined.

(* ================================================================== *)
(** * Further properties *)

(** ** What the services and the turn do, exactly *)

Lemma chat_completion_exact settings msgs model temp tok w :
  exists w',
    OpenAIService.chat_completion settings msgs model temp tok false w
    = (completion_outcome (next_completion w), w')
    /\ same_store w w'
    /\ openai_replies w' = tl (openai_replies w)
    /\ elevenlabs_replies w' = elevenlabs_replies w
    /\ requests w'
       = requests w ++ [completion_request settings msgs model temp tok].
Proof.
  unfold OpenAIService.chat_completion, try_except, bind,
    OpenAIService.completions_create, OpenAIService.first_choice,
    logger, ret, raise, completion_outcome, next_completion, next_reply,
    completion_request.
  cbn.
  destruct (openai_replies w) as [|[resp|e] rest]; cbn.
  - eexists; split; [reflexivity | repeat split].
  - destruct (choices resp) as [|c cs]; cbn;
      (eexists; split; [reflexivity | repeat split]).
  - destruct e; cbn; (eexists; split; [reflexivity | repeat split]).
Qed.

Lemma text_to_speech_exact settings text voice_id model st sb w :
  exists w',
    ElevenLabsService.text_to_speech settings text voice_id model st sb w
    = (synthesis_outcome
         (py_or voice_id (elevenlabs_default_voice_id settings))
         (next_synthesis w), w')
    /\ same_store w w'
    /\ openai_replies w' = openai_replies w
    /\ requests w'
       = requests w
         ++ synthesis_requests settings text
              (py_or voice_id (elevenlabs_default_voice_id settings))
              model st sb
    /\ elevenlabs_replies w'
       = if opt_truthy (py_or voice_id (elevenlabs_default_voice_id settings))
         then tl (elevenlabs_replies w)
         else elevenlabs_replies w.
Proof.
  unfold ElevenLabsService.text_to_speech, try_except, bind, raise, ret,
    logger, ElevenLabsService.elevenlabs_generate, synthesis_outcome,
    synthesis_requests.
  destruct (py_or voice_id (elevenlabs_default_voice_id settings)) as [v|];
    cbn [opt_truthy].
  - destruct (str_truthy v) eqn:T; cbn.
    + change (next_synthesis (add_log _ w)) with (next_synthesis w).
      destruct (next_synthesis w) as [a|e] eqn:N; cbn;
        (eexists; split; [reflexivity|]; split; [repeat split|];
         repeat split).
    + eexists; split; [reflexivity|]. split; [repeat split|].
      repeat split. cbn. now rewrite app_nil_r.
  - cbn. eexists; split; [reflexivity|]. split; [repeat split|].
    repeat split. cbn. now rewrite app_nil_r.
Qed.

Lemma one_completion_log rq w w' e :
  one_completion rq w w' -> one_completion rq w (add_log e w').
Proof.
  intros ((A1 & A2 & A3 & A4 & A5) & B & C & D). repeat split; assumption.
Qed.

Lemma detect_intent_exact settings json_loads text w :
  exists w',
    OpenAIService.detect_intent settings json_loads text w
    = (Ok (intent_result json_loads text (next_completion w)), w')
    /\ one_completion
         (completion_request settings
            [mkChat "system" "You are an intent classification expert.";
             mkChat "user" (OpenAIService.intent_prompt text)]
            None (Some 0%Q) None) w w'.
Proof.
  unfold OpenAIService.detect_intent, intent_result, classification.
  destruct (chat_completion_exact settings
              [mkChat "system" "You are an intent classification expert.";
               mkChat "user" (OpenAIService.intent_prompt text)]
              None (Some 0%Q) None w) as (w1 & E & S1 & R1 & L1 & Q1).
  assert (C1 : one_completion
                 (completion_request settings
                    [mkChat "system" "You are an intent classification expert.";
                     mkChat "user" (OpenAIService.intent_prompt text)]
                    None (Some 0%Q) None) w w1)
    by (split; [exact S1|]; repeat split; assumption).
  unfold try_except.
  destruct (completion_outcome (next_completion w)) as [[s|]|e].
  - step E. unfold OpenAIService.loads.
    destruct (json_loads s) as [v|e]; unfold bind, raise, ret, logger; cbn.
    + destruct v; cbn;
        (eexists; split; [reflexivity | now apply one_completion_log]).
    + eexists; split; [reflexivity | now apply one_completion_log].
  - step E. unfold bind, raise, logger, ret; cbn.
    eexists; split; [reflexivity | now apply one_completion_log].
  - step E. unfold bind, logger, ret; cbn.
    eexists; split; [reflexivity | now apply one_completion_log].
Qed.

Lemma analyze_sentiment_exact settings json_loads text w :
  exists w',
    OpenAIService.analyze_sentiment settings json_loads text w
    = (Ok (sentiment_result json_loads (next_completion w)), w')
    /\ one_completion
         (completion_request settings
            [mkChat "system" "You are a sentiment analysis expert.";
             mkChat "user" (OpenAIService.sentiment_prompt text)]
            None (Some 0%Q) None) w w'.
Proof.
  unfold OpenAIService.analyze_sentiment, sentiment_result, classification.
  destruct (chat_completion_exact settings
              [mkChat "system" "You are a sentiment analysis expert.";
               mkChat "user" (OpenAIService.sentiment_prompt text)]
              None (Some 0%Q) None w) as (w1 & E & S1 & R1 & L1 & Q1).
  assert (C1 : one_completion
                 (completion_request settings
                    [mkChat "system" "You are a sentiment analysis expert.";
                     mkChat "user" (OpenAIService.sentiment_prompt text)]
                    None (Some 0%Q) None) w w1)
    by (split; [exact S1|]; repeat split; assumption).
  unfold try_except.
  destruct (completion_outcome (next_completion w)) as [[s|]|e].
  - step E. unfold OpenAIService.loads.
    destruct (json_loads s) as [v|e]; unfold bind, raise, ret, logger; cbn.
    + destruct v; cbn;
        (eexists; split; [reflexivity | now apply one_completion_log]).
    + eexists; split; [reflexivity | now apply one_completion_log].
  - step E. unfold bind, raise, logger, ret; cbn.
    eexists; split; [reflexivity | now apply one_completion_log].
  - step E. unfold bind, logger, ret; cbn.
    eexists; split; [reflexivity | now apply one_completion_log].
Qed.

Lemma generate_response_exact settings user_message history context w :
  exists w',
    PhoneAgent.generate_response settings user_message history context w
    = (Ok (reply_text (next_completion w)), w')
    /\ one_completion
         (completion_request settings
            (agent_messages user_message history context)
            None (Some (7 # 10)%Q) (Some 500)) w w'.
Proof.
  unfold PhoneAgent.generate_response, reply_text.
  match goal with
  | |- context [OpenAIService.chat_completion ?s ?m ?md ?t ?k false] =>
      destruct (chat_completion_exact s m md t k
                  (add_log (mkLog INFO "Generating agent response" "") w))
        as (w1 & E & S1 & R1 & L1 & Q1);
      assert (M : m = agent_messages user_message history context)
  end.
  { unfold agent_messages.
    destruct history as [[|h hs]|]; destruct context as [[|c cs]|];
      cbn [app]; rewrite ?app_nil_r; reflexivity. }
  rewrite M in *.
  assert (C1 : one_completion
                 (completion_request settings
                    (agent_messages user_message history context)
                    None (Some (7 # 10)%Q) (Some 500)) w w1).
  { destruct S1 as (A1 & A2 & A3 & A4 & A5). repeat split; assumption. }
  change (next_completion
            (add_log (mkLog INFO "Generating agent response" "") w))
    with (next_completion w) in E.
  unfold try_except, bind at 1, logger at 1.
  destruct (completion_outcome (next_completion w)) as [[s|]|e];
    step E; unfold bind, logger, ret; cbn;
    (eexists; split; [reflexivity | now apply one_completion_log]).
Qed.

Lemma format_turn_context number :
  PhoneAgent._format_context
    [("caller_number", number); ("company_name", "Tu Empresa")]
  = "Número: " +++ number +++ ", Empresa: Tu Empresa".
Proof. reflexivity. Qed.

Lemma agent_messages_turn speech c (v : Conversation) t :
  agent_messages speech
    (Some (get_messages_for_llm
             (mkConversation (conv_id v) (conv_call_id v)
                (messages v ++ [mkMessage "user" speech t])
                (summary v) (intent v) (sentiment v))))
    (Some [("caller_number", from_number c); ("company_name", "Tu Empresa")])
  = turn_prompt speech c v.
Proof.
  unfold agent_messages, turn_prompt, get_messages_for_llm.
  cbn [messages]. rewrite map_app. cbn [map role content].
  rewrite format_turn_context.
  destruct (messages v) as [|m l]; rewrite <- !app_assoc; reflexivity.
Qed.

Lemma get_active_voice_profile_exact w :
  CallHandler._get_active_voice_profile w
  = (Ok (match round_trip_result w with
         | Ok _ => active_voice_profile (session w)
         | Raise _ => None
         end),
     after_round_trip w).
Proof.
  unfold CallHandler._get_active_voice_profile, active_voice_profile.
  rewrite try_run, bind_run, select_active_voice_profiles_run.
  destruct (round_trip_result w); [|reflexivity].
  destruct (filter is_active (voice_profiles (session w))) as [|p l];
    reflexivity.
Qed.

Lemma classify_exact settings json_loads v text w :
  exists w',
    CallHandler.classify settings json_loads v text w = (Ok tt, w')
    /\ session w'
       = put_conversation
           (with_sentiment
              (stored_field
                 (sentiment_result json_loads
                    (next_reply (tl (openai_replies w)))) "sentiment")
              (with_intent
                 (stored_field
                    (intent_result json_loads text (next_completion w))
                    "intent") v))
           (session w)
    /\ db w' = db w /\ commits w' = commits w
    /\ db_faults w' = db_faults w
    /\ openai_replies w' = tl (tl (openai_replies w))
    /\ elevenlabs_replies w' = elevenlabs_replies w
    /\ requests w'
       = requests w
         ++ [completion_request settings
               [mkChat "system" "You are an intent classification expert.";
                mkChat "user" (OpenAIService.intent_prompt text)]
               None (Some 0%Q) None;
             completion_request settings
               [mkChat "system" "You are a sentiment analysis expert.";
                mkChat "user" (OpenAIService.sentiment_prompt text)]
               None (Some 0%Q) None].
Proof.
  unfold CallHandler.classify, PhoneAgent.analyze_intent,
    PhoneAgent.analyze_sentiment.
  destruct (detect_intent_exact settings json_loads text w)
    as (w1 & E1 & (S1a & S1b & S1c & S1d & S1e) & R1 & L1 & Q1).
  destruct (intent_result_dict json_loads text (next_completion w))
    as (di & Ei).
  rewrite Ei in *.
  rewrite try_run. step E1.
  unfold OpenAIService.py_get at 1. rewrite bind_ret, bind_store_conversation.
  match goal with
  | |- context [bind _ _ ?W] =>
      destruct (analyze_sentiment_exact settings json_loads text W)
        as (w2 & E2 & (S2a & S2b & S2c & S2d & S2e) & R2 & L2 & Q2)
  end.
  change (next_completion (set_session _ w1))
    with (next_reply (openai_replies w1)) in E2.
  rewrite R1 in E2.
  destruct (sentiment_result_dict json_loads
              (next_reply (tl (openai_replies w)))) as (ds & Es).
  rewrite Es in *.
  step E2.
  unfold OpenAIService.py_get at 1. rewrite bind_ret.
  unfold store_conversation.
  eexists; split; [reflexivity|].
  cbn [session db commits db_faults openai_replies elevenlabs_replies
       requests set_session stored_field].
  cbn [session db commits db_faults openai_replies elevenlabs_replies
       requests set_session]
    in S2a, S2b, S2c, S2d, R2, L2, Q2.
  rewrite S2b.
  rewrite put_conversation_twice by reflexivity. rewrite S1b.
  repeat split; try congruence.
  rewrite Q2, Q1, <- app_assoc. reflexivity.
Qed.

(** A speech-gathered turn that finds its rows, the database answering:
    what it returns, stores and sends. *)
Lemma handle_user_speech_exact settings json_loads sid speech w c v :
  db_reliable w ->
  calls_with_sid sid (db w) = [c] ->
  conversations_of (call_id c) (db w) = [v] ->
  exists w',
    CallHandler.handle_user_speech settings json_loads sid speech
      (open_session w)
    = (Ok (turn_markup settings sid (reply_text (next_completion w))
             (turn_voice settings (db w)) (next_synthesis w)), w')
    /\ db w' = turn_db json_loads speech w v
    /\ session w' = db w'
    /\ commits w' = commits w ++ [db w']
    /\ requests w'
       = requests w
         ++ turn_requests settings speech c v (reply_text (next_completion w))
              (turn_voice settings (db w))
    /\ openai_replies w' = tl (tl (tl (openai_replies w))).
Proof.
  intros R Hc Hv.
  unfold CallHandler.handle_user_speech.
  rewrite try_run, bind_logger, bind_run, select_calls_by_sid_run.
  set (w0 := add_log (mkLog INFO "Handling user speech" "") (open_session w)).
  change (session w0) with (db w). fold (calls_with_sid sid (db w)).
  assert (R0 : db_reliable w0) by (apply (db_reliable_eq (w:=w)); auto).
  destruct (round_trip_reliable R0) as (-> & R1). rewrite Hc.
  cbn [scalar_one_or_none]. rewrite bind_ret.
  rewrite bind_run, select_conversations_by_call_run.
  set (w1 := after_round_trip w0) in *.
  change (session w1) with (db w).
  fold (conversations_of (call_id c) (db w)).
  destruct (round_trip_reliable R1) as (-> & R2). rewrite Hv.
  set (w2 := after_round_trip w1) in *.
  cbn [scalar_one_or_none]. rewrite bind_ret.
  rewrite bind_run, add_message_run.
  match goal with
  | |- context [bind (PhoneAgent.generate_response ?s ?m ?h ?x) _ ?W] =>
      destruct (generate_response_exact s m h x W)
        as (w3 & E3 & (S3a & S3b & S3c & S3d & S3e) & R3 & L3 & Q3)
  end.
  step E3.
  rewrite bind_run, add_message_run.
  match goal with
  | |- context [bind (CallHandler.classify ?s ?j ?x ?t) _ ?W] =>
      destruct (classify_exact s j x t W)
        as (w4 & E4 & S4 & D4 & C4 & F4 & R4 & L4 & Q4)
  end.
  step E4.
  cbn [session db commits db_faults clock openai_replies elevenlabs_replies
       requests set_session tick
       conv_id conv_call_id messages summary intent sentiment]
    in S3a, S3b, S3c, S3d, S3e, R3, L3, Q3, S4, D4, C4, F4, R4, L4, Q4.
  change (next_completion (set_session _ (tick w2)))
    with (next_completion w) in *.
  change (clock w2) with (clock w) in *.
  change (session w2) with (db w) in *.
  assert (S4' : session w4 = turn_db json_loads speech w v).
  { rewrite S4, S3b.
    rewrite !put_conversation_twice by reflexivity.
    unfold turn_db, turn_conversation, next_completion.
    cbn [openai_replies set_session tick].
    rewrite R3, S3e. rewrite <- app_assoc. reflexivity. }
  assert (Rel4 : db_reliable w4).
  { apply (db_reliable_eq (w:=w2)); [|exact R2].
    rewrite F4, S3d. reflexivity. }
  assert (D4' : db w4 = db w) by (rewrite D4, S3a; reflexivity).
  assert (C4' : commits w4 = commits w) by (rewrite C4, S3c; reflexivity).
  rewrite bind_run, db_commit_reliable;
    [|exact Rel4
     |apply no_violation_same_calls; rewrite S4', D4'; reflexivity].
  rewrite bind_run, get_active_voice_profile_exact.
  match goal with
  | |- context [round_trip_result ?W] =>
      assert (R5 : db_reliable W)
        by (apply (db_reliable_eq (w:=after_round_trip w4));
            [reflexivity | now apply db_reliable_after])
  end.
  destruct (round_trip_reliable R5) as (-> & _).
  cbn [session set_durable].
  match goal with
  | |- context [bind (ElevenLabsService.text_to_speech ?s ?t ?x ?m ?a ?b)
                     _ ?W] =>
      destruct (text_to_speech_exact s t x m a b W)
        as (w6 & E6 & (D6 & S6 & C6 & _) & O6 & Q6 & _)
  end.
  cbn [db session commits requests openai_replies set_durable
       after_round_trip set_db_faults]
    in D6, S6, C6, Q6, O6.
  assert (O : openai_replies w6 = tl (tl (tl (openai_replies w)))).
  { rewrite O6, R4, R3. reflexivity. }
  change (next_synthesis (after_round_trip _)) with (next_synthesis w4) in E6.
  assert (N4 : next_synthesis w4 = next_synthesis w).
  { unfold next_synthesis. now rewrite L4, L3. }
  rewrite N4 in E6.
  assert (V : py_or (option_map elevenlabs_voice_id
                       (active_voice_profile (session w4)))
                    (elevenlabs_default_voice_id settings)
              = turn_voice settings (db w)).
  { rewrite S4'. reflexivity. }
  rewrite V in E6, Q6.
  assert (Q : requests w4
              = requests w
                ++ [completion_request settings (turn_prompt speech c v)
                      None (Some (7 # 10)%Q) (Some 500);
                    completion_request settings
                      [mkChat "system"
                         "You are an intent classification expert.";
                       mkChat "user" (OpenAIService.intent_prompt speech)]
                      None (Some 0%Q) None;
                    completion_request settings
                      [mkChat "system" "You are a sentiment analysis expert.";
                       mkChat "user" (OpenAIService.sentiment_prompt speech)]
                      None (Some 0%Q) None]).
  { rewrite Q4, Q3. cbn [requests set_session tick].
    rewrite agent_messages_turn, <- app_assoc. reflexivity. }
  assert (Q' : requests w6
               = requests w
                 ++ turn_requests settings speech c v
                      (reply_text (next_completion w))
                      (turn_voice settings (db w))).
  { unfold turn_requests. rewrite Q6.
    change (requests (after_round_trip _)) with (requests w4).
    rewrite Q, <- app_assoc. reflexivity. }
  unfold turn_markup.
  destruct (synthesis_outcome (turn_voice settings (db w)) (next_synthesis w))
    as [audio|e]; step E6.
  - unfold CallHandler._save_audio. rewrite bind_ret, bind_logger.
    unfold ret.
    eexists. split; [reflexivity|].
    cbn [db session commits add_log]. rewrite D6, S6, C6, C4', S4'.
    split; [reflexivity|]. split; [reflexivity|]. split; [reflexivity|].
    split; [exact Q' | exact O].
  - rewrite bind_logger. unfold ret.
    eexists. split; [reflexivity|].
    cbn [db session commits add_log]. rewrite D6, S6, C6, C4', S4'.
    split; [reflexivity|]. split; [reflexivity|]. split; [reflexivity|].
    split; [exact Q' | exact O].
Qed.

(** ** Incoming calls, whatever the database does *)

Lemma new_call_is_new d sid from to :
  is_new_call d (incoming_call sid from to d) = true.
Proof.
  unfold is_new_call. apply negb_true_iff.
  destruct (existsb _ (calls d)) eqn:X; [|reflexivity].
  apply existsb_exists in X. destruct X as (x & Hx & E).
  apply Nat.eqb_eq in E. apply fresh_id_call in Hx.
  cbn [incoming_call call_id] in E. lia.
Qed.

(** Inserting a Call whose session id a stored Call carries violates the
    unique index. *)
Lemma violation_second_insert d sid from to :
  calls_with_sid sid d <> [] ->
  unique_violation d (with_incoming_call sid from to d) = true.
Proof.
  intros H. unfold unique_violation, with_incoming_call; cbn [calls].
  apply existsb_exists. exists (incoming_call sid from to d). split.
  - apply in_or_app. right. now left.
  - rewrite new_call_is_new. cbn [andb].
    apply Nat.ltb_lt. unfold sid_count.
    rewrite filter_app, length_app. cbn [incoming_call twilio_call_sid filter].
    rewrite String.eqb_refl. cbn [length].
    unfold calls_with_sid in H.
    destruct (filter _ (calls d)); [congruence | cbn; lia].
Qed.

Lemma no_violation_new_conversation d v :
  unique_violation d (mkDB (calls d) (conversations d ++ [v])
                           (voice_profiles d)) = false.
Proof. apply no_violation_same_calls. reflexivity. Qed.

Lemma round_trip_result_fails w :
  round_trip_result w
  = if next_round_trip_fails (db_faults w)
    then Raise (OperationalError "connection failure")
    else Ok tt.
Proof.
  unfold round_trip_result, next_round_trip_fails.
  destruct (db_faults w) as [|[|] l]; reflexivity.
Qed.

Lemma db_reliable_tl w :
  db_reliable w -> Forall (fun fault => fault = false) (tl (db_faults w)).
Proof.
  unfold db_reliable. intros R.
  destruct (db_faults w); [constructor | now inversion R].
Qed.

Lemma db_reliable_tl2 w :
  db_reliable w ->
  Forall (fun fault => fault = false) (tl (tl (db_faults w))).
Proof.
  unfold db_reliable. intros R.
  destruct (db_faults w) as [|a [|b l]]; [constructor | constructor |].
  inversion R as [|? ? _ R']. now inversion R'.
Qed.

(** The three ways [handle_incoming_call] ends: nothing stored, the Call
    stored alone, both rows stored. *)
Lemma handle_incoming_call_run settings sid from to w :
  let d1 := with_incoming_call sid from to (db w) in
  let d2 := with_incoming_conversation sid from to (db w) in
  let first_fails :=
    next_round_trip_fails (db_faults w)
    || unique_violation (db w) d1 in
  let second_fails := next_round_trip_fails (tl (db_faults w)) in
  exists w',
    CallHandler.handle_incoming_call settings sid from to (open_session w)
    = (Ok (if first_fails || second_fails
           then incoming_apology
           else TwilioService.generate_greeting_twiml settings
                  (Some CallHandler.greeting)), w')
    /\ session w' = db w'
    /\ db w' = (if first_fails then db w
                else if second_fails then d1 else d2)
    /\ commits w' = commits w
                    ++ (if first_fails then []
                        else if second_fails then [d1] else [d1; d2])
    /\ requests w' = requests w
    /\ openai_replies w' = openai_replies w
    /\ elevenlabs_replies w' = elevenlabs_replies w
    /\ clock w' = clock w
    /\ (db_reliable w -> db_reliable w').
Proof.
  intros d1 d2 first_fails second_fails.
  unfold CallHandler.handle_incoming_call.
  rewrite try_run, bind_logger, bind_db_add_call.
  rewrite bind_run, db_commit_run, round_trip_result_fails.
  cbn [db session db_faults add_log open_session set_session].
  fold (incoming_call sid from to (db w)).
  fold (with_incoming_call sid from to (db w)). fold d1.
  subst first_fails.
  destruct (next_round_trip_fails (db_faults w)) eqn:F1; cbn [orb].
  { unfold logger, ret. eexists. split; [reflexivity|].
    cbn. rewrite app_nil_r. repeat split. apply db_reliable_tl. }
  destruct (unique_violation (db w) d1) eqn:V1; cbn [orb].
  { unfold logger, ret. eexists. split; [reflexivity|].
    cbn. rewrite app_nil_r. repeat split. apply db_reliable_tl. }
  rewrite bind_db_add_conversation.
  rewrite bind_run, db_commit_run, round_trip_result_fails.
  cbn [db session db_faults add_log open_session set_session set_durable
       after_round_trip set_db_faults incoming_call call_id].
  subst second_fails.
  destruct (next_round_trip_fails (tl (db_faults w))) eqn:F2.
  { unfold logger, ret. eexists. split; [reflexivity|].
    cbn. repeat split. intros R. apply db_reliable_tl2, R. }
  rewrite no_violation_new_conversation.
  rewrite bind_logger. unfold ret.
  eexists. split; [reflexivity|].
  cbn. rewrite <- app_assoc. repeat split.
  intros R. apply db_reliable_tl2, R.
Qed.

Lemma calls_with_sid_incoming sid from to d :
  calls_with_sid sid d = [] ->
  calls_with_sid sid (with_incoming_call sid from to d)
  = [incoming_call sid from to d].
Proof.
  intros H. unfold calls_with_sid, with_incoming_call in *. cbn [calls].
  rewrite filter_app, H. cbn. now rewrite String.eqb_refl.
Qed.

Lemma conversations_of_fresh d :
  conversations_of (fresh_id d) d = [].
Proof.
  unfold conversations_of. apply filter_none. intros v Hv.
  apply Nat.eqb_neq. apply fresh_id_conversation_call in Hv. lia.
Qed.

Lemma reliable_never_fails l :
  Forall (fun fault => fault = false) l -> next_round_trip_fails l = false.
Proof.
  intros R.
  destruct l as [|[|] l]; [reflexivity | inversion R; discriminate
                          | reflexivity].
Qed.


(** X1.  [handle_incoming_call] never raises, whatever the database
    does: it returns the greeting markup exactly when both the Call row
    and its Conversation row are durable, and otherwise the apology that
    ends the call, with either nothing stored or the Call row stored
    alone.  The markup is valid in each case and no provider is
    called. *)
Theorem handle_incoming_call_never_raises :
  forall settings sid from to w,
  exists twiml w',
    CallHandler.handle_incoming_call settings sid from to (open_session w)
    = (Ok twiml, w')
    /\ valid_twiml twiml = true
    /\ requests w' = requests w
    /\ ((twiml = TwilioService.generate_greeting_twiml settings
                   (Some CallHandler.greeting)
         /\ db w' = with_incoming_conversation sid from to (db w))
        \/ (twiml = incoming_apology /\ is_hangup_twiml twiml = true
            /\ (db w' = db w
                \/ db w' = with_incoming_call sid from to (db w)))).
Proof.
  intros settings sid from to w.
  destruct (handle_incoming_call_run settings sid from to w)
    as (w' & E & _ & D & _ & Q & _).
  cbv zeta in E, D.
  do 2 eexists. split; [exact E|].
  destruct (next_round_trip_fails (db_faults w)
            || unique_violation (db w)
                 (with_incoming_call sid from to (db w))); cbn [orb] in *.
  - split; [reflexivity|]. split; [exact Q|]. right. auto.
  - destruct (next_round_trip_fails (tl (db_faults w))).
    + split; [reflexivity|]. split; [exact Q|]. right. auto.
    + split; [apply generate_greeting_twiml_valid|].
      split; [exact Q|]. left. auto.
Qed.

(** X2.  A call-started event for a session id that a stored Call
    already carries (a webhook delivered twice, for one) is answered with
    the apology that ends the call, under every fault schedule of the
    database: the unique index on the session id rejects the insert, the
    durable store is left as it was and nothing is committed. *)
Theorem handle_incoming_call_known_session :
  forall settings sid from to w,
  calls_with_sid sid (db w) <> [] ->
  exists w',
    CallHandler.handle_incoming_call settings sid from to (open_session w)
    = (Ok incoming_apology, w')
    /\ db w' = db w /\ session w' = db w /\ commits w' = commits w.
Proof.
  intros settings sid from to w H.
  destruct (handle_incoming_call_run settings sid from to w)
    as (w' & E & S & D & C & _).
  cbv zeta in E, D, C.
  rewrite (@violation_second_insert (db w) sid from to H), orb_true_r
    in E, D, C.
  cbn [orb] in E. rewrite app_nil_r in C.
  exists w'. repeat split; congruence.
Qed.

(** X3.  The two inserts of [handle_incoming_call] are committed one
    after the other, so the second can fail alone: for a new session id,
    when the database answers the first commit and fails the second, the
    caller hears the apology and the call ends, yet the Call row is
    durable, in progress, and no Conversation row is linked to it. *)
Theorem handle_incoming_call_second_commit_fails :
  forall settings sid from to w rest,
  calls_with_sid sid (db w) = [] ->
  db_faults w = false :: true :: rest ->
  exists w',
    CallHandler.handle_incoming_call settings sid from to (open_session w)
    = (Ok incoming_apology, w')
    /\ db w' = with_incoming_call sid from to (db w)
    /\ commits w' = commits w ++ [db w']
    /\ calls_with_sid sid (db w') = [incoming_call sid from to (db w)]
    /\ conversations_of (call_id (incoming_call sid from to (db w))) (db w')
       = [].
Proof.
  intros settings sid from to w rest H F.
  destruct (handle_incoming_call_run settings sid from to w)
    as (w' & E & S & D & C & _).
  cbv zeta in E, D, C.
  assert (V : unique_violation (db w) (with_incoming_call sid from to (db w))
              = false).
  { apply (@no_violation_first_insert (db w)
             (incoming_call sid from to (db w))). exact H. }
  rewrite V, F in E, D, C. cbn in E, D, C.
  exists w'. split; [exact E|]. split; [exact D|].
  split; [now rewrite D|]. rewrite D. split.
  - now apply (@calls_with_sid_incoming sid from to (db w)).
  - apply (@conversations_of_fresh (db w)).
Qed.

(** ** The speech-gathered turn, whatever the providers do *)

Lemma synthesis_fails voice r :
  opt_truthy voice = false \/ (exists e, r = Raise e) ->
  exists e, synthesis_outcome voice r = Raise e.
Proof.
  unfold synthesis_outcome. intros [H | (e & ->)].
  - rewrite H. eauto.
  - destruct (opt_truthy voice); eauto.
Qed.

Lemma audio_url_truthy call_sid : str_truthy (audio_url call_sid) = true.
Proof. reflexivity. Qed.

(** The three markups a turn can end with. *)
Lemma handle_user_speech_markup settings json_loads sid speech w :
  exists twiml w',
    CallHandler.handle_user_speech settings json_loads sid speech
      (open_session w)
    = (Ok twiml, w')
    /\ ((twiml = [Hangup] /\ db w' = db w /\ commits w' = commits w)
        \/ twiml = apology_markup settings
        \/ (twiml = TwilioService.generate_response_twiml settings
                      (reply_text (next_completion w))
                      (Some (audio_url sid)) true
            /\ turn_stored json_loads sid speech w w')).
Proof.
  unfold CallHandler.handle_user_speech.
  rewrite try_run, bind_logger, bind_run, select_calls_by_sid_run.
  set (w0 := add_log (mkLog INFO "Handling user speech" "") (open_session w)).
  change (session w0) with (db w). fold (calls_with_sid sid (db w)).
  destruct (round_trip_result w0) eqn:RT0.
  2: { rewrite bind_logger. unfold ret.
       do 2 eexists. split; [reflexivity|]. right. left. reflexivity. }
  destruct (calls_with_sid sid (db w)) as [|c [|c' cs]] eqn:Hc.
  - cbn [scalar_one_or_none]. rewrite bind_ret, bind_logger. unfold ret.
    do 2 eexists. split; [reflexivity|]. left. repeat split.
  - cbn [scalar_one_or_none]. rewrite bind_ret.
    rewrite bind_run, select_conversations_by_call_run.
    set (w1 := after_round_trip w0).
    change (session w1) with (db w).
    fold (conversations_of (call_id c) (db w)).
    destruct (round_trip_result w1) eqn:RT1.
    2: { rewrite bind_logger. unfold ret.
         do 2 eexists. split; [reflexivity|]. right. left. reflexivity. }
    set (w2 := after_round_trip w1).
    destruct (conversations_of (call_id c) (db w)) as [|v [|v' vs]] eqn:Hv.
    + cbn [scalar_one_or_none]. rewrite bind_ret, bind_logger. unfold ret.
      do 2 eexists. split; [reflexivity|]. left. repeat split.
    + cbn [scalar_one_or_none]. rewrite bind_ret.
      rewrite bind_run, add_message_run.
      match goal with
      | |- context [bind (PhoneAgent.generate_response ?s ?m ?h ?x) _ ?W] =>
          destruct (generate_response_run s m h x W)
            as (w3 & E3 & (S3a & S3b & S3c & S3d & S3e) & R3 & L3)
      end.
      step E3.
      rewrite bind_run, add_message_run.
      match goal with
      | |- context [bind (CallHandler.classify ?s ?j ?x ?t) _ ?W] =>
          destruct (classify_run s j x t W)
            as (w4 & E4 & S4 & D4 & C4 & F4 & R4)
      end.
      step E4.
      cbn [session db commits db_faults clock openai_replies set_session tick
           conv_id conv_call_id messages summary intent sentiment]
        in S3a, S3b, S3c, S3d, S3e, R3, S4, D4, C4, F4, R4.
      change (next_completion (set_session _ (tick w2)))
        with (next_completion w) in *.
      change (clock w2) with (clock w) in *.
      change (session w2) with (db w) in *.
      assert (S4' : session w4 = turn_db json_loads speech w v).
      { rewrite S4, S3b.
        rewrite !put_conversation_twice by reflexivity.
        unfold turn_db, turn_conversation, next_completion.
        cbn [openai_replies set_session tick].
        rewrite R3, S3e. rewrite <- app_assoc. reflexivity. }
      assert (D4' : db w4 = db w) by (rewrite D4, S3a; reflexivity).
      assert (C4' : commits w4 = commits w) by (rewrite C4, S3c; reflexivity).
      rewrite bind_run, db_commit_run.
      rewrite no_violation_same_calls by (rewrite S4', D4'; reflexivity).
      destruct (round_trip_result w4) eqn:RT4.
      2: { rewrite bind_logger. unfold ret.
           do 2 eexists. split; [reflexivity|]. right. left. reflexivity. }
      match goal with
      | |- context [bind CallHandler._get_active_voice_profile _ ?W] =>
          destruct (get_active_voice_profile_run W)
            as (vp & w5 & E5 & D5 & S5 & C5)
      end.
      step E5.
      match goal with
      | |- context [bind (ElevenLabsService.text_to_speech ?s ?t ?x ?m ?a ?b)
                         _ ?W] =>
          destruct (text_to_speech_run s t x m a b W)
            as (r & w6 & E6 & (D6 & S6 & C6 & _) & _)
      end.
      cbn [db session commits set_durable] in D5, S5, C5.
      assert (Stored : forall w', db w' = db w5 -> commits w' = commits w5 ->
                                  turn_stored json_loads sid speech w w').
      { intros w' Hd Hk. exists c, v.
        change (commits (after_round_trip w4)) with (commits w4) in C5.
        split; [exact Hc|]. split; [exact Hv|].
        split; congruence. }
      destruct r as [audio|e]; step E6.
      * unfold CallHandler._save_audio. rewrite bind_ret, bind_logger.
        unfold ret.
        do 2 eexists. split; [reflexivity|]. right. right.
        split; [reflexivity|]. apply Stored; cbn; congruence.
      * rewrite bind_logger. unfold ret.
        do 2 eexists. split; [reflexivity|]. right. left. reflexivity.
    + cbn [scalar_one_or_none]. rewrite bind_raise_now. cbv beta iota.
      rewrite bind_logger. unfold ret.
      do 2 eexists. split; [reflexivity|]. right. left. reflexivity.
  - cbn [scalar_one_or_none]. rewrite bind_raise_now. cbv beta iota.
    rewrite bind_logger. unfold ret.
    do 2 eexists. split; [reflexivity|]. right. left. reflexivity.
Qed.

(** X4.  Whatever the database and the providers do,
    [handle_user_speech] ends in one of three ways: the bare hangup (no
    Call or no Conversation for the session id; nothing is stored), the
    canned request to repeat (something failed), or the markup that
    plays the synthesised audio and listens again (the turn is stored).
    The text fallback of [generate_response_twiml], a [Say] of the
    reply, is none of them: [_save_audio] always returns an address. *)
Theorem handle_user_speech_three_markups :
  forall settings json_loads sid speech w,
  exists twiml w',
    CallHandler.handle_user_speech settings json_loads sid speech
      (open_session w)
    = (Ok twiml, w')
    /\ ((twiml = [Hangup] /\ db w' = db w /\ commits w' = commits w)
        \/ twiml
           = [Say "Disculpa, tuve un problema. ¿Puedes repetir?" "es-ES";
              Gather "speech" (TwilioService.gather_action settings) "POST"
                     "auto" "es-ES" []]
        \/ (twiml
            = [Play ("https://storage.example.com/audio/" +++ sid
                     +++ ".mp3");
               Gather "speech" (TwilioService.gather_action settings) "POST"
                      "auto" "es-ES" []]
            /\ turn_stored json_loads sid speech w w')).
Proof.
  intros settings json_loads sid speech w.
  destruct (handle_user_speech_markup settings json_loads sid speech w)
    as (twiml & w' & E & O).
  exists twiml, w'. split; [exact E|].
  destruct O as [H | [-> | (-> & T)]].
  - left. exact H.
  - right. left. reflexivity.
  - right. right. split; [reflexivity | exact T].
Qed.

(** X5.  The turn is committed before the reply is synthesised.  When no
    voice can be resolved (no active profile and no configured default)
    or the synthesis provider fails, the caller hears the canned request
    to repeat, not the reply, yet the utterance and the reply are already
    durable in the conversation. *)
Theorem handle_user_speech_synthesis_failure :
  forall settings json_loads sid speech w c v,
  db_reliable w ->
  calls_with_sid sid (db w) = [c] ->
  conversations_of (call_id c) (db w) = [v] ->
  opt_truthy (turn_voice settings (db w)) = false
  \/ (exists e, next_synthesis w = Raise e) ->
  exists w',
    CallHandler.handle_user_speech settings json_loads sid speech
      (open_session w)
    = (Ok [Say "Disculpa, tuve un problema. ¿Puedes repetir?" "es-ES";
           Gather "speech" (TwilioService.gather_action settings) "POST"
                  "auto" "es-ES" []], w')
    /\ db w' = turn_db json_loads speech w v
    /\ commits w' = commits w ++ [db w']
    /\ In (turn_conversation json_loads speech w v) (conversations (db w')).
Proof.
  intros settings json_loads sid speech w c v R Hc Hv F.
  destruct (@handle_user_speech_exact settings json_loads sid speech w c v
              R Hc Hv) as (w' & E & D & _ & C & _).
  destruct (@synthesis_fails _ _ F) as (e & X).
  unfold turn_markup in E. rewrite X in E.
  exists w'. split; [exact E|]. split; [exact D|]. split; [exact C|].
  rewrite D.
  pose proof (@conv_call_id_of (call_id c) (db w) v Hv) as Ec.
  destruct (@conversations_of_put (call_id c) v
              (turn_conversation json_loads speech w v) (db w) Hv eq_refl Ec)
    as (I & _).
  unfold conversations_of in I. apply filter_In in I. apply I.
Qed.

(** X6.  When a voice is resolved and the synthesis provider answers, the
    markup of the turn plays the audio at the address [_save_audio]
    derives from the session id alone and listens again: the audio bytes
    the provider returned are stored nowhere and the reply text does not
    appear in the markup. *)
Theorem handle_user_speech_plays_audio :
  forall settings json_loads sid speech w c v audio,
  db_reliable w ->
  calls_with_sid sid (db w) = [c] ->
  conversations_of (call_id c) (db w) = [v] ->
  opt_truthy (turn_voice settings (db w)) = true ->
  next_synthesis w = Ok audio ->
  exists w',
    CallHandler.handle_user_speech settings json_loads sid speech
      (open_session w)
    = (Ok [Play ("https://storage.example.com/audio/" +++ sid +++ ".mp3");
           Gather "speech" (TwilioService.gather_action settings) "POST"
                  "auto" "es-ES" []], w')
    /\ db w' = turn_db json_loads speech w v
    /\ commits w' = commits w ++ [db w'].
Proof.
  intros settings json_loads sid speech w c v audio R Hc Hv T N.
  destruct (@handle_user_speech_exact settings json_loads sid speech w c v
              R Hc Hv) as (w' & E & D & _ & C & _).
  unfold turn_markup, synthesis_outcome in E. rewrite T, N in E.
  exists w'. auto.
Qed.

(** X7.  What a stored turn sends to the providers, in order: the reply
    request, the intent request and the sentiment request, then one
    synthesis request for the reply when a voice is resolved.  The
    utterance is appended to the conversation before the history is read,
    so the reply request carries it twice: as the last message of the
    history and again as the final user message, after the caller
    context.  Three scripted answers of the completion provider are
    consumed. *)
Theorem handle_user_speech_provider_traffic :
  forall settings json_loads sid speech w c v,
  db_reliable w ->
  calls_with_sid sid (db w) = [c] ->
  conversations_of (call_id c) (db w) = [v] ->
  exists twiml w',
    CallHandler.handle_user_speech settings json_loads sid speech
      (open_session w)
    = (Ok twiml, w')
    /\ requests w'
       = requests w
         ++ [CompletionRequest (openai_model settings)
               ([mkChat "system" PhoneAgent.system_prompt]
                ++ get_messages_for_llm v
                ++ [mkChat "user" speech;
                    mkChat "system"
                      ("Contexto adicional: Número: " +++ from_number c
                       +++ ", Empresa: Tu Empresa");
                    mkChat "user" speech])
               (7 # 10)%Q 500;
             CompletionRequest (openai_model settings)
               [mkChat "system" "You are an intent classification expert.";
                mkChat "user" (OpenAIService.intent_prompt speech)]
               0%Q (openai_max_tokens settings);
             CompletionRequest (openai_model settings)
               [mkChat "system" "You are a sentiment analysis expert.";
                mkChat "user" (OpenAIService.sentiment_prompt speech)]
               0%Q (openai_max_tokens settings)]
         ++ synthesis_requests settings (reply_text (next_completion w))
              (turn_voice settings (db w)) None (1 # 2)%Q (3 # 4)%Q
    /\ openai_replies w' = tl (tl (tl (openai_replies w))).
Proof.
  intros settings json_loads sid speech w c v R Hc Hv.
  destruct (@handle_user_speech_exact settings json_loads sid speech w c v
              R Hc Hv) as (w' & E & _ & _ & _ & Q & O).
  do 2 eexists. split; [exact E|]. split; [|exact O].
  rewrite Q. unfold turn_requests, turn_prompt, completion_request,
    get_messages_for_llm.
  cbn [py_or_str py_or_nat]. rewrite <- !app_assoc. reflexivity.
Qed.

(** ** The service clients *)

(** X8.  [chat_completion] (not streaming) sends exactly one request,
    whatever the provider answers.  An explicit temperature is honoured
    even when it is zero ([is not None]), whereas a [max_tokens] of zero
    and an empty [model] are replaced by the configured values ([or]). *)
Theorem chat_completion_request_defaults :
  forall settings msgs model temperature max_tokens w,
  exists r w',
    OpenAIService.chat_completion settings msgs model temperature
      max_tokens false w
    = (r, w')
    /\ requests w'
       = requests w
         ++ [CompletionRequest
               (match model with
                | Some m => if m == "" then openai_model settings else m
                | None => openai_model settings
                end)
               msgs
               (match temperature with
                | Some t => t
                | None => openai_temperature settings
                end)
               (match max_tokens with
                | Some (S n) => S n
                | Some 0 | None => openai_max_tokens settings
                end)].
Proof.
  intros settings msgs model temperature max_tokens w.
  destruct (chat_completion_exact settings msgs model temperature
              max_tokens w) as (w' & E & _ & _ & _ & Q).
  do 2 eexists. split; [exact E|]. rewrite Q.
  unfold completion_request, py_or_str, py_or_nat, str_truthy.
  destruct model as [m|]; [destruct (m == "")|];
    destruct max_tokens as [[|n]|]; reflexivity.
Qed.

(** X9.  The only exception [chat_completion] lets out is the typed
    [OpenAIError]: a failure of the SDK is wrapped as
    [Chat completion failed: ...], anything else (an answer without
    choices included) as [Unexpected error: ...].  An answer whose first
    choice has no content is returned as the empty string.  No row is
    touched and one scripted answer is consumed. *)
Theorem chat_completion_typed_errors :
  forall settings msgs model temperature max_tokens w,
  exists w',
    OpenAIService.chat_completion settings msgs model temperature
      max_tokens false w
    = (match next_completion w with
       | Ok resp =>
           match choices resp with
           | Some content :: _ => Ok (Text content)
           | None :: _ => Ok (Text "")
           | [] =>
               Raise (OpenAIError "Unexpected error: list index out of range")
           end
       | Raise (OpenAISDKError m) =>
           Raise (OpenAIError ("Chat completion failed: " +++ m))
       | Raise e => Raise (OpenAIError ("Unexpected error: " +++ exn_str e))
       end, w')
    /\ same_store w w'
    /\ openai_replies w' = tl (openai_replies w).
Proof.
  intros settings msgs model temperature max_tokens w.
  destruct (chat_completion_exact settings msgs model temperature
              max_tokens w) as (w' & E & S & R & _).
  exists w'. rewrite E. split; [|split; assumption].
  f_equal. unfold completion_outcome.
  destruct (next_completion w) as [resp|e]; [|reflexivity].
  destruct (choices resp) as [|[s|] l]; try reflexivity.
  cbn [py_or_str]. unfold str_truthy.
  destruct (s == "") eqn:X; [|reflexivity].
  apply String.eqb_eq in X. now subst.
Qed.

(** X10.  With a voice to speak with, [text_to_speech] sends exactly one
    synthesis request, for the [voice_id] argument when it is given and
    not empty and for the configured default otherwise; it returns the
    provider's audio unchanged, and wraps any failure of the provider in
    the typed [ElevenLabsError] with the prefix [Text-to-speech failed].
    No row is touched. *)
Theorem text_to_speech_resolved_voice :
  forall settings text voice_id model stability similarity_boost w v,
  py_or voice_id (elevenlabs_default_voice_id settings) = Some v ->
  str_truthy v = true ->
  exists w',
    ElevenLabsService.text_to_speech settings text voice_id model
      stability similarity_boost w
    = (match next_synthesis w with
       | Ok audio => Ok audio
       | Raise e =>
           Raise (ElevenLabsError ("Text-to-speech failed: " +++ exn_str e))
       end, w')
    /\ requests w'
       = requests w
         ++ [SynthesisRequest text v
               (py_or_str model (elevenlabs_model settings))
               stability similarity_boost]
    /\ elevenlabs_replies w' = tl (elevenlabs_replies w)
    /\ same_store w w'.
Proof.
  intros settings text voice_id model st sb w v V T.
  destruct (text_to_speech_exact settings text voice_id model st sb w)
    as (w' & E & S & _ & Q & L).
  unfold synthesis_outcome, synthesis_requests in *.
  rewrite V in *. cbn [opt_truthy] in *. rewrite T in *.
  exists w'. auto.
Qed.

(** X11.  [_get_active_voice_profile] never raises and leaves no trace:
    a failed look-up is answered like an empty table, with [None] and
    without a log entry, so the turn goes on with the configured default
    voice.  Otherwise it returns the first active profile the store
    lists; several active profiles are no error, as the query is limited
    to one row.  No row is touched. *)
Theorem get_active_voice_profile_never_raises :
  forall w,
  exists w',
    CallHandler._get_active_voice_profile w
    = (Ok (if next_round_trip_fails (db_faults w) then None
           else hd_error (filter is_active (voice_profiles (session w)))),
       w')
    /\ same_rows w w' /\ logs w' = logs w
    /\ requests w' = requests w.
Proof.
  intros w. rewrite get_active_voice_profile_exact.
  rewrite round_trip_result_fails.
  eexists. split.
  - destruct (next_round_trip_fails (db_faults w)); reflexivity.
  - repeat split.
Qed.


Lemma agent_messages_ends user_message history context :
  hd_error (agent_messages user_message history context)
  = Some (mkChat "system" PhoneAgent.system_prompt)
  /\ last (agent_messages user_message history context) (mkChat "" "")
     = mkChat "user" user_message.
Proof.
  unfold agent_messages. split.
  - rewrite <- !app_assoc. reflexivity.
  - apply last_last.
Qed.

(** X13.  [generate_response] sends exactly one completion request, at
    temperature 0.7 and with 500 tokens whatever the configuration says.
    Its messages begin with the system prompt and end with the user
    message; between them come the history as given and, for a context
    that is not empty, one system message with the formatted context.
    Without history and context the request is the system prompt and the
    user message alone. *)
Theorem generate_response_prompt :
  forall settings user_message history context w,
  exists msgs w',
    PhoneAgent.generate_response settings user_message history context w
    = (Ok (reply_text (next_completion w)), w')
    /\ requests w'
       = requests w
         ++ [CompletionRequest (openai_model settings) msgs (7 # 10)%Q 500]
    /\ msgs
       = [mkChat "system" PhoneAgent.system_prompt]
         ++ match history with
            | Some h => h
            | None => []
            end
         ++ match context with
            | Some (entry :: entries) =>
                [mkChat "system"
                   ("Contexto adicional: "
                    +++ PhoneAgent._format_context (entry :: entries))]
            | Some [] | None => []
            end
         ++ [mkChat "user" user_message]
    /\ hd_error msgs = Some (mkChat "system" PhoneAgent.system_prompt)
    /\ last msgs (mkChat "" "") = mkChat "user" user_message.
Proof.
  intros settings user_message history context w.
  destruct (generate_response_exact settings user_message history context w)
    as (w' & E & _ & _ & _ & Q).
  destruct (agent_messages_ends user_message history context) as (H & L).
  exists (agent_messages user_message history context), w'.
  split; [exact E|]. split; [exact Q|]. split; [|split; assumption].
  unfold agent_messages. rewrite <- !app_assoc.
  destruct context as [[|entry entries]|]; reflexivity.
Qed.

(** ** Masking *)

Lemma length_append s1 s2 :
  String.length (s1 +++ s2) = String.length s1 + String.length s2.
Proof. induction s1 as [|a s1 IH]; cbn; [reflexivity | now rewrite IH]. Qed.

Lemma length_substring s : forall n m,
  String.length (substring n m s) = Nat.min m (String.length s - n).
Proof.
  induction s as [|a s IH]; intros n m.
  - destruct n, m; reflexivity.
  - destruct n as [|n]; destruct m as [|m]; cbn; try reflexivity.
    + now rewrite IH, Nat.sub_0_r.
    + apply IH.
    + apply IH.
Qed.

Lemma substring_all s : substring 0 (String.length s) s = s.
Proof. induction s as [|a s IH]; cbn; [reflexivity | now rewrite IH]. Qed.

Lemma length_py_repeat n : String.length (py_repeat "*" n) = n.
Proof. induction n as [|n IH]; cbn; [reflexivity | now rewrite IH]. Qed.

Lemma all_stars_py_repeat n : all_stars (py_repeat "*" n) = true.
Proof. induction n as [|n IH]; cbn; [reflexivity | exact IH]. Qed.

(** X14.  A string of at most twice [show_chars] characters is masked
    completely: every character of the result is a star, and the result
    is as long as the input. *)
Theorem mask_sensitive_data_short :
  forall data show_chars,
  (Z.of_nat (String.length data) <= 2 * show_chars)%Z ->
  mask_sensitive_data data show_chars = py_repeat "*" (String.length data)
  /\ all_stars (mask_sensitive_data data show_chars) = true
  /\ String.length (mask_sensitive_data data show_chars)
     = String.length data.
Proof.
  intros data n H. unfold mask_sensitive_data.
  assert (T : (Z.of_nat (String.length data) <=? n * 2)%Z = true)
    by (apply Z.leb_le; lia).
  rewrite T. split; [reflexivity|]. split.
  - apply all_stars_py_repeat.
  - apply length_py_repeat.
Qed.

(** X15.  A longer string keeps its first and its last [show_chars]
    characters around three dots, so the result has [2 * show_chars + 3]
    characters whatever the length of the input: the characters between
    are dropped and their number is not revealed. *)
Theorem mask_sensitive_data_long :
  forall data show_chars,
  0 < show_chars ->
  2 * show_chars < String.length data ->
  mask_sensitive_data data (Z.of_nat show_chars)
  = substring 0 show_chars data +++ "..."
    +++ substring (String.length data - show_chars) show_chars data
  /\ String.length (mask_sensitive_data data (Z.of_nat show_chars))
     = 2 * show_chars + 3.
Proof.
  intros data n P H. unfold mask_sensitive_data.
  assert (T : (Z.of_nat (String.length data) <=? Z.of_nat n * 2)%Z = false)
    by (apply Z.leb_gt; lia).
  rewrite T. unfold py_slice_to, py_slice_from, slice_bound.
  assert (N : (- Z.of_nat n <? 0)%Z = true) by (apply Z.ltb_lt; lia).
  assert (N' : (Z.of_nat n <? 0)%Z = false) by (apply Z.ltb_ge; lia).
  rewrite N, N'.
  replace (Nat.min (Z.to_nat (Z.of_nat n)) (String.length data)) with n
    by lia.
  replace (Z.to_nat (Z.max 0 (Z.of_nat (String.length data) + - Z.of_nat n)))
    with (String.length data - n) by lia.
  replace (String.length data - (String.length data - n)) with n by lia.
  split; [reflexivity|].
  rewrite !length_append, !length_substring. cbn [String.length]. lia.
Qed.

(** X16.  With [show_chars] zero nothing is masked: [data[-0:]] is the
    whole string, so every non-empty input comes back in full after the
    three dots. *)
Theorem mask_sensitive_data_zero :
  forall data,
  data <> "" ->
  mask_sensitive_data data 0 = "..." +++ data.
Proof.
  intros data H. unfold mask_sensitive_data.
  destruct data as [|a s]; [congruence|].
  cbn [String.length].
  assert (T : (Z.of_nat (S (String.length s)) <=? 0 * 2)%Z = false)
    by (apply Z.leb_gt; lia).
  rewrite T. unfold py_slice_to, py_slice_from, slice_bound.
  cbn [Z.opp Z.ltb Z.compare Z.to_nat Nat.min String.length substring].
  rewrite Nat.sub_0_r.
  change (substring 0 (S (String.length s)) (String a s))
    with (String a (substring 0 (String.length s) s)).
  now rewrite substring_all.
Qed.

(** ** Log censoring *)

(** Induction on a value and, inside it, on the values it holds. *)
Lemma PyValue_nested_ind (P : PyValue -> Prop) :
  P PyNone ->
  (forall b, P (PyBool b)) ->
  (forall n, P (PyNum n)) ->
  (forall s, P (PyStr s)) ->
  (forall items, Forall P items -> P (PyList items)) ->
  (forall d, Forall (fun entry => P (snd entry)) d -> P (PyDict d)) ->
  forall v, P v.
Proof.
  intros HN HB HU HS HL HD.
  refine (fix IH (v : PyValue) : P v :=
            match v with
            | PyNone => HN
            | PyBool b => HB b
            | PyNum n => HU n
            | PyStr s => HS s
            | PyList items =>
                HL items
                   ((fix go (l : list PyValue) : Forall P l :=
                       match l with
                       | [] => Forall_nil _
                       | x :: xs => Forall_cons x (IH x) (go xs)
                       end) items)
            | PyDict d =>
                HD d
                   ((fix go (l : list (string * PyValue))
                     : Forall (fun entry => P (snd entry)) l :=
                       match l with
                       | [] => Forall_nil _
                       | x :: xs => Forall_cons x (IH (snd x)) (go xs)
                       end) d)
            end).
Qed.

Section CensorFacts.

Variable lower : string -> string.

Lemma censor_dict_eq d :
  Logging.censor lower (PyDict d) = PyDict (Logging.censor_dict lower d).
Proof. reflexivity. Qed.

Lemma censor_list_eq items :
  Logging.censor lower (PyList items)
  = PyList (map (fun item => match item with
                             | PyDict _ => Logging.censor lower item
                             | _ => item
                             end) items).
Proof. reflexivity. Qed.

Lemma censor_twice v :
  Logging.censor lower (Logging.censor lower v) = Logging.censor lower v.
Proof.
  induction v as [| | | |items IH|d IH] using PyValue_nested_ind;
    try reflexivity.
  - rewrite !censor_list_eq. f_equal. rewrite map_map.
    apply map_ext_Forall. revert IH. apply Forall_impl.
    intros item H. destruct item; try reflexivity.
    rewrite censor_dict_eq. rewrite censor_dict_eq in H. exact H.
  - rewrite !censor_dict_eq. f_equal. unfold Logging.censor_dict.
    rewrite map_map.
    apply map_ext_Forall. revert IH. apply Forall_impl.
    intros [key value] H. cbn [snd] in H. cbv beta iota.
    destruct (Logging.is_sensitive lower key); [reflexivity|].
    now rewrite H.
Qed.

(** X17.  Censoring keeps every entry in place under its key, and
    censoring twice changes nothing more: the processor can be applied
    again to an event it has already censored. *)
Theorem censor_dict_idempotent :
  forall d,
  map fst (Logging.censor_dict lower d) = map fst d
  /\ Logging.censor_dict lower (Logging.censor_dict lower d)
     = Logging.censor_dict lower d.
Proof.
  intros d. split.
  - unfold Logging.censor_dict. rewrite map_map.
    apply map_ext. now intros [key value].
  - pose proof (censor_twice (PyDict d)) as H.
    rewrite !censor_dict_eq in H. now injection H.
Qed.

Lemma censor_dict_inv v d1 :
  Logging.censor lower v = PyDict d1 ->
  exists d0, v = PyDict d0 /\ d1 = Logging.censor_dict lower d0.
Proof.
  destruct v; try discriminate.
  intros H. rewrite censor_dict_eq in H. injection H as <-. eauto.
Qed.

Lemma censor_list_inv v items :
  Logging.censor lower v = PyList items ->
  exists items0,
    v = PyList items0
    /\ items = map (fun item => match item with
                                | PyDict _ => Logging.censor lower item
                                | _ => item
                                end) items0.
Proof.
  destruct v; try discriminate.
  intros H. rewrite censor_list_eq in H. injection H as <-. eauto.
Qed.

Lemma in_censor_dict key value d :
  In (key, value) (Logging.censor_dict lower d) ->
  exists value0,
    In (key, value0) d
    /\ value = if Logging.is_sensitive lower key then Logging.redacted
               else Logging.censor lower value0.
Proof.
  unfold Logging.censor_dict. intros H. apply in_map_iff in H.
  destruct H as ([k v0] & E & I). injection E as <- <-. eauto.
Qed.

Lemma visited_censored X d' :
  Logging.visited X d' ->
  forall d, X = Logging.censor_dict lower d ->
  exists d0, d' = Logging.censor_dict lower d0.
Proof.
  induction 1 as [X | X key d1 d' I V IH | X key items d1 d' I J V IH];
    intros d ->.
  - eauto.
  - apply in_censor_dict in I. destruct I as (v0 & _ & E).
    destruct (Logging.is_sensitive lower key); [discriminate|].
    symmetry in E. apply censor_dict_inv in E.
    destruct E as (d0 & _ & ->). eapply IH. reflexivity.
  - apply in_censor_dict in I. destruct I as (v0 & _ & E).
    destruct (Logging.is_sensitive lower key); [discriminate|].
    symmetry in E. apply censor_list_inv in E.
    destruct E as (items0 & _ & ->).
    apply in_map_iff in J. destruct J as (item & E & _).
    destruct item; try discriminate.
    rewrite censor_dict_eq in E. injection E as <-.
    eapply IH. reflexivity.
Qed.

(** X18.  After censoring, every dictionary the censor visits (the
    event itself, dictionaries stored as values, dictionaries that are
    items of list values, at any depth) holds the marker
    [***REDACTED***] under each key that contains a sensitive word,
    whatever was stored there, a dictionary or a list included. *)
Theorem censor_dict_redacts :
  forall d d' key value,
  Logging.visited (Logging.censor_dict lower d) d' ->
  In (key, value) d' ->
  Logging.is_sensitive lower key = true ->
  value = PyStr "***REDACTED***".
Proof.
  intros d d' key value V I S.
  destruct (@visited_censored _ _ V d eq_refl) as (d0 & ->).
  apply in_censor_dict in I. destruct I as (v0 & _ & E).
  now rewrite S in E.
Qed.

Lemma substring_middle pre s post :
  substring (String.length pre) (String.length s) (pre +++ s +++ post) = s.
Proof.
  induction pre as [|a pre IH]; cbn.
  - induction s as [|b s IH]; cbn.
    + destruct post; reflexivity.
    + now rewrite IH.
  - exact IH.
Qed.

Lemma py_in_middle pre s post :
  s <> "" -> Logging.py_in s (pre +++ s +++ post) = true.
Proof.
  intros N. unfold Logging.py_in.
  destruct (index 0 s (pre +++ s +++ post)) eqn:X; [reflexivity|].
  exfalso.
  apply (index_correct3 0 (String.length pre) s (pre +++ s +++ post) X N
           (Nat.le_0_l _)).
  apply substring_middle.
Qed.

(** X19.  The test is by substring, not by equality: a key whose
    lower-case form merely contains one of the nine sensitive words
    ([max_tokens], [token_count], [secretary], ...) loses its value to
    the marker, at the top level of the event. *)
Theorem censor_dict_substring_match :
  forall d key value word before after,
  In word Logging.sensitive_keys ->
  lower key = before +++ word +++ after ->
  In (key, value) d ->
  In (key, PyStr "***REDACTED***") (Logging.censor_dict lower d).
Proof.
  intros d key value word pre post W E I.
  assert (S : Logging.is_sensitive lower key = true).
  { unfold Logging.is_sensitive. apply existsb_exists.
    exists word. split; [exact W|]. rewrite E.
    apply py_in_middle. intros ->.
    cbn in W. repeat (destruct W as [W | W]; [discriminate|]).
    exact W. }
  unfold Logging.censor_dict. apply in_map_iff.
  exists (key, value). split; [|exact I]. now rewrite S.
Qed.

(** X20.  Under a key that is not sensitive, only dictionaries and the
    dictionaries directly inside a list are censored: a list whose items
    are not dictionaries is stored as it is, so a dictionary inside an
    inner list keeps every value, whatever its keys. *)
Theorem censor_dict_passes_nested_lists :
  forall key items before after,
  Logging.is_sensitive lower key = false ->
  forallb not_dict items = true ->
  Logging.censor_dict lower (before ++ (key, PyList items) :: after)
  = Logging.censor_dict lower before
    ++ (key, PyList items) :: Logging.censor_dict lower after.
Proof.
  intros key items before after S F.
  unfold Logging.censor_dict at 1. rewrite map_app. cbn [map].
  rewrite S, censor_list_eq. do 4 f_equal.
  rewrite <- (map_id items) at 2. apply map_ext_in.
  intros item I. rewrite forallb_forall in F. specialize (F item I).
  destruct item; try reflexivity. discriminate.
Qed.

End CensorFacts.

(** ** The webhook routes *)

Section RouteFacts.

Variable settings : Settings.
Variable json_loads : string -> Result PyValue.
Variable py_int : string -> Result nat.



(** X22.  The status route records completion only: an event with any
    other status (busy, failed, no-answer, canceled, ringing, ...) is
    acknowledged with [received] and reads and writes nothing, so the
    Call row keeps the status it had. *)
Theorem handle_call_status_other_status :
  forall CallSid CallStatus CallDuration RecordingUrl w,
  CallStatus <> "completed" ->
  exists w',
    TwilioWebhooks.handle_call_status settings py_int CallSid CallStatus
      CallDuration RecordingUrl (open_session w)
    = (Ok (PyDict [("status", PyStr "received")]), w')
    /\ db w' = db w /\ session w' = db w /\ commits w' = commits w
    /\ db_faults w' = db_faults w /\ requests w' = requests w.
Proof.
  intros sid st dur url w N.
  unfold TwilioWebhooks.handle_call_status.
  apply String.eqb_neq in N. rewrite N.
  eexists. split; [reflexivity | repeat split].
Qed.

(** X23.  A completed event whose [CallDuration] is present and is
    rejected by [int] is dropped: the handler is not run, no row is read
    or written, and the route answers with the error dictionary that
    carries the message of the exception. *)
Theorem handle_call_status_bad_duration :
  forall CallSid CallDuration RecordingUrl w e,
  str_truthy CallDuration = true ->
  py_int CallDuration = Raise e ->
  exists w',
    TwilioWebhooks.handle_call_status settings py_int CallSid "completed"
      (Some CallDuration) RecordingUrl (open_session w)
    = (Ok (PyDict [("status", PyStr "error");
                   ("message", PyStr (exn_str e))]), w')
    /\ db w' = db w /\ session w' = db w /\ commits w' = commits w
    /\ db_faults w' = db_faults w /\ requests w' = requests w.
Proof.
  intros sid dur url w e T P.
  unfold TwilioWebhooks.handle_call_status, TwilioWebhooks.parse_duration.
  rewrite try_run, bind_logger. cbn [String.eqb]. rewrite T, P.
  eexists. split; [reflexivity | repeat split].
Qed.

Lemma no_violation_with_recording sid url d :
  unique_violation d (TwilioWebhooks.with_recording sid url d) = false.
Proof.
  apply no_violation_without_insert. cbn. intros x Hx.
  apply in_map_iff in Hx. destruct Hx as (y & Ey & Hy).
  exists y. split; [exact Hy|].
  destruct (twilio_call_sid y == sid); now subst x.
Qed.

Lemma handle_recording_callback_run sid rsid url st w :
  let fails := next_round_trip_fails (db_faults w)
               || next_round_trip_fails (tl (db_faults w)) in
  exists w',
    TwilioWebhooks.handle_recording_callback sid rsid url st (open_session w)
    = (Ok (if fails
           then TwilioWebhooks.error_reply
                  (OperationalError "connection failure")
           else TwilioWebhooks.received), w')
    /\ db w' = (if fails then db w
                else TwilioWebhooks.with_recording sid url (db w))
    /\ commits w' = commits w ++ (if fails then [] else [db w'])
    /\ requests w' = requests w
    /\ (db_reliable w -> db_reliable w').
Proof.
  intros fails. subst fails.
  unfold TwilioWebhooks.handle_recording_callback,
    TwilioWebhooks.update_recording_url.
  rewrite try_run, bind_logger, bind_run, bind_run.
  unfold round_trip at 1.
  cbn [db_faults add_log open_session set_session].
  fold (round_trip_result w). rewrite round_trip_result_fails.
  destruct (next_round_trip_fails (db_faults w)) eqn:F1; cbn [orb].
  { unfold logger, ret. eexists. split; [reflexivity|].
    cbn. rewrite app_nil_r. repeat split. apply db_reliable_tl. }
  cbv beta iota.
  rewrite bind_run, db_commit_run, round_trip_result_fails.
  cbn [db session db_faults add_log open_session set_session set_db_faults].
  destruct (next_round_trip_fails (tl (db_faults w))) eqn:F2.
  { unfold logger, ret. eexists. split; [reflexivity|].
    cbn. rewrite app_nil_r. repeat split.
    intros R. apply db_reliable_tl2, R. }
  rewrite no_violation_with_recording. unfold ret.
  eexists. split; [reflexivity|].
  cbn. repeat split. intros R. apply db_reliable_tl2, R.
Qed.


Lemma calls_with_sid_recording sid url d c :
  calls_with_sid sid d = [c] ->
  calls_with_sid sid (TwilioWebhooks.with_recording sid url d)
  = [with_recording_url (Some url) c].
Proof.
  unfold calls_with_sid, TwilioWebhooks.with_recording. cbn [calls].
  induction (calls d) as [|x l IH]; cbn [filter map]; [discriminate|].
  destruct (twilio_call_sid x == sid) eqn:X.
  - cbn [with_recording_url twilio_call_sid]. rewrite X.
    intros H. injection H as -> H. f_equal.
    clear IH. induction l as [|y l IH]; [reflexivity|].
    cbn [filter map] in *. destruct (twilio_call_sid y == sid) eqn:Y;
      [discriminate|]. rewrite Y. apply IH, H.
  - rewrite X. exact IH.
Qed.

(** X25.  The completion handler assigns the recording reference it is
    given, so the order of the two callbacks matters: once the recording
    route has stored a reference on the Call, a completed status event
    that carries no [RecordingUrl] stores [None] over it.  (The database
    answering, the session id carried by one Call with at most one
    Conversation.) *)
Theorem recording_then_completed_erases_recording :
  forall CallSid RecordingSid RecordingUrl RecordingStatus CallDuration
         dur w c,
  db_reliable w ->
  calls_with_sid CallSid (db w) = [c] ->
  length (conversations_of (call_id c) (db w)) <= 1 ->
  TwilioWebhooks.parse_duration py_int CallDuration = Ok dur ->
  exists w1 w2,
    TwilioWebhooks.handle_recording_callback CallSid RecordingSid
      RecordingUrl RecordingStatus (open_session w)
    = (Ok (PyDict [("status", PyStr "received")]), w1)
    /\ calls_with_sid CallSid (db w1)
       = [with_recording_url (Some RecordingUrl) c]
    /\ TwilioWebhooks.handle_call_status settings py_int CallSid
         "completed" CallDuration None (open_session w1)
       = (Ok (PyDict [("status", PyStr "received")]), w2)
    /\ forall x,
         In x (calls_with_sid CallSid (db w2)) ->
         recording_url x = None /\ status x = COMPLETED
         /\ duration x = dur.
Proof.
  intros sid rsid url st cd dur w c R Hc L P.
  destruct (handle_recording_callback_run sid rsid url st w)
    as (w1 & E1 & D1 & _ & _ & R1).
  cbv zeta in E1, D1.
  rewrite (reliable_never_fails R),
    (reliable_never_fails (db_reliable_tl R)) in E1, D1.
  cbn [orb] in E1, D1.
  assert (Hc1 : calls_with_sid sid (db w1)
                = [with_recording_url (Some url) c])
    by (rewrite D1; now apply calls_with_sid_recording).
  exists w1.
  set (w1' := add_log (mkLog INFO "Call status update" "") w1).
  assert (L1 : length (conversations_of
                         (call_id (with_recording_url (Some url) c))
                         (db w1')) <= 1).
  { change (db w1') with (db w1). rewrite D1. exact L. }
  destruct (@handle_call_completed_run settings sid dur None w1'
              (with_recording_url (Some url) c) Hc1)
    as (w2 & E2 & _ & G).
  destruct (G (R1 R) L1) as (D2 & _).
  eexists. split; [exact E1|]. split; [exact Hc1|]. split.
  - unfold TwilioWebhooks.handle_call_status.
    rewrite try_run, bind_logger. cbn [String.eqb Ascii.eqb Bool.eqb].
    rewrite bind_run, bind_run.
    rewrite P. cbv beta iota. change (add_log _ (open_session w1))
      with (open_session w1').
    rewrite E2. reflexivity.
  - intros x Hx. rewrite D2 in Hx.
    destruct (@completed_db_calls sid dur None w1'
                (with_recording_url (Some url) c) Hc1) as (_ & U).
    rewrite (U x Hx). repeat split.
Qed.

End RouteFacts.

(** ** A call from its first event *)

Lemma conversations_of_incoming sid from to d :
  conversations_of (fresh_id d) (with_incoming_conversation sid from to d)
  = [mkConversation (fresh_id (with_incoming_call sid from to d))
                    (fresh_id d) [] None PyNone PyNone].
Proof.
  pose proof (conversations_of_fresh d) as F.
  unfold conversations_of, with_incoming_conversation, with_incoming_call
    in *.
  cbn [conversations]. rewrite filter_app, F. cbn.
  now rewrite Nat.eqb_refl.
Qed.

(** X26.  The greeting and the first turn compose: for a session id no
    stored Call carries, the database answering, the call-started event
    is greeted and the first speech event that follows finds the rows it
    created; the stored conversation then holds exactly the utterance and
    the reply, and the reply was requested with the system prompt, the
    utterance, the caller's number as context, and the utterance
    again. *)
Theorem first_turn_of_new_call :
  forall settings json_loads sid from to speech w,
  db_reliable w ->
  calls_with_sid sid (db w) = [] ->
  exists w1 twiml w2 later,
    CallHandler.handle_incoming_call settings sid from to (open_session w)
    = (Ok (TwilioService.generate_greeting_twiml settings
             (Some CallHandler.greeting)), w1)
    /\ CallHandler.handle_user_speech settings json_loads sid speech
         (open_session w1)
       = (Ok twiml, w2)
    /\ conversations_of (fresh_id (db w)) (db w2) <> []
    /\ (forall x,
           In x (conversations_of (fresh_id (db w)) (db w2)) ->
           messages x
           = [mkMessage "user" speech (clock w);
              mkMessage "assistant" (reply_text (next_completion w))
                        (S (clock w))])
    /\ requests w2
       = requests w
         ++ CompletionRequest (openai_model settings)
              [mkChat "system" PhoneAgent.system_prompt;
               mkChat "user" speech;
               mkChat "system"
                 ("Contexto adicional: Número: " +++ from
                  +++ ", Empresa: Tu Empresa");
               mkChat "user" speech]
              (7 # 10)%Q 500
         :: later.
Proof.
  intros settings json_loads sid from to speech w R H.
  destruct (handle_incoming_call_run settings sid from to w)
    as (w1 & E1 & _ & D1 & _ & Q1 & O1 & _ & K1 & R1).
  cbv zeta in E1, D1.
  rewrite (@no_violation_first_insert (db w)
             (incoming_call sid from to (db w)) H : unique_violation (db w)
               (with_incoming_call sid from to (db w)) = false),
    (reliable_never_fails R), (reliable_never_fails (db_reliable_tl R))
    in E1, D1.
  cbn [orb] in E1, D1.
  set (c := incoming_call sid from to (db w)) in *.
  set (v := mkConversation (fresh_id (with_incoming_call sid from to (db w)))
                           (fresh_id (db w)) [] None PyNone PyNone).
  assert (Hc : calls_with_sid sid (db w1) = [c]).
  { rewrite D1. apply (@calls_with_sid_incoming sid from to (db w) H). }
  assert (Hv : conversations_of (call_id c) (db w1) = [v]).
  { rewrite D1. apply conversations_of_incoming. }
  destruct (@handle_user_speech_exact settings json_loads sid speech w1 c v
              (R1 R) Hc Hv) as (w2 & E2 & D2 & _ & _ & Q2 & _).
  exists w1. do 3 eexists.
  split; [exact E1|]. split; [exact E2|].
  destruct (@conversations_of_put (call_id c) v
              (turn_conversation json_loads speech w1 v) (db w1) Hv
              eq_refl eq_refl) as (I & U).
  change (fresh_id (db w)) with (call_id c). rewrite D2. unfold turn_db.
  split; [intros N; rewrite N in I; exact I|]. split.
  - intros x Hx. rewrite (U x Hx). cbn [turn_conversation messages v app].
    unfold next_completion. rewrite K1, O1. reflexivity.
  - rewrite Q2, Q1. unfold turn_requests, turn_prompt, completion_request.
    cbn. reflexivity.
Qed.

(** ** Voice look-up *)

Lemma map_voice_id (l : list Voice) :
  map (fun voice =>
         mkVoice (voice_id voice) (voice_name voice)
                 (voice_category voice) (voice_description voice)) l
  = l.
Proof.
  rewrite <- (map_id l) at 2. apply map_ext. now intros [].
Qed.

Lemma get_voice_run voices_reply id w :
  exists w',
    ElevenLabsVoices.get_voice voices_reply id w
    = (match voices_reply with
       | Ok voice_list =>
           match find (fun v => voice_id v == id) voice_list with
           | Some voice => Ok voice
           | None =>
               Raise (ElevenLabsError
                        ("Failed to get voice: Voice not found: " +++ id))
           end
       | Raise e =>
           Raise (ElevenLabsError
                    ("Failed to get voice: Failed to list voices: "
                     +++ exn_str e))
       end, w')
    /\ same_store w w'
    /\ requests w' = requests w.
Proof.
  unfold ElevenLabsVoices.get_voice, ElevenLabsVoices.list_voices,
    ElevenLabsVoices.elevenlabs_voices.
  rewrite try_run, bind_run, try_run, bind_logger, bind_run.
  destruct voices_reply as [l|e].
  - rewrite map_voice_id, bind_logger. unfold ret at 1. cbv beta iota.
    destruct (find (fun v => voice_id v == id) l) as [v|] eqn:F.
    + unfold ret. eexists. split; [reflexivity | repeat split].
    + unfold raise at 1, logger, raise. cbn.
      eexists. split; [reflexivity | repeat split].
  - unfold logger at 1, raise at 1. cbn.
    eexists. split; [reflexivity | repeat split].
Qed.

(** X27.  [get_voice] returns the first listed voice whose id is the one
    asked for, and otherwise raises the typed [ElevenLabsError] and
    nothing else; the message is wrapped once more by each layer, so an
    unknown id reads [Failed to get voice: Voice not found: ...] and a
    failed listing [Failed to get voice: Failed to list voices: ...].
    No row is touched. *)
Theorem get_voice_outcomes :
  forall voices_reply id w,
  exists w',
    ElevenLabsVoices.get_voice voices_reply id w
    = (match voices_reply with
       | Ok voice_list =>
           match find (fun v => voice_id v == id) voice_list with
           | Some voice => Ok voice
           | None =>
               Raise (ElevenLabsError
                        ("Failed to get voice: Voice not found: " +++ id))
           end
       | Raise e =>
           Raise (ElevenLabsError
                    ("Failed to get voice: Failed to list voices: "
                     +++ exn_str e))
       end, w')
    /\ same_store w w'
    /\ requests w' = requests w
    /\ match fst (ElevenLabsVoices.get_voice voices_reply id w) with
       | Ok voice => voice_id voice = id
       | Raise e =>
           exists reason,
             e = ElevenLabsError ("Failed to get voice: " +++ reason)
       end.
Proof.
  intros reply id w.
  destruct (get_voice_run reply id w) as (w' & E & S & Q).
  exists w'. split; [exact E|]. split; [exact S|]. split; [exact Q|].
  rewrite E. cbn [fst].
  destruct reply as [l|e].
  - destruct (find (fun v => voice_id v == id) l) as [v|] eqn:F.
    + apply find_some in F. destruct F as (_ & F).
      now apply String.eqb_eq in F.
    + exists ("Voice not found: " +++ id). reflexivity.
  - exists ("Failed to list voices: " +++ exn_str e). reflexivity.
Qed.

(* ================================================================== *)
(** * Instances of the further properties *)

Lemma handle_incoming_call_known_session_witness :
  let w := world_of finished_db [] in
  calls_with_sid "CA123" (db w) <> []
  /\ exists w',
      CallHandler.handle_incoming_call demo_settings "CA123" "+1555" "+1800"
        (open_session w)
      = (Ok incoming_apology, w')
      /\ db w' = db w /\ session w' = db w /\ commits w' = commits w.
Proof.
  cbv zeta. split; [vm_compute; discriminate|].
  apply handle_incoming_call_known_session. vm_compute. discriminate.
Defined.

Lemma handle_incoming_call_second_commit_fails_witness :
  let w := faulty_world empty_db [false; true] in
  calls_with_sid "CA123" (db w) = []
  /\ db_faults w = [false; true]
  /\ exists w',
      CallHandler.handle_incoming_call demo_settings "CA123" "+1555" "+1800"
        (open_session w)
      = (Ok incoming_apology, w')
      /\ db w' = with_incoming_call "CA123" "+1555" "+1800" (db w)
      /\ commits w' = commits w ++ [db w']
      /\ calls_with_sid "CA123" (db w')
         = [incoming_call "CA123" "+1555" "+1800" (db w)]
      /\ conversations_of
           (call_id (incoming_call "CA123" "+1555" "+1800" (db w))) (db w')
         = [].
Proof.
  cbv zeta. split; [reflexivity|]. split; [reflexivity|].
  apply (@handle_incoming_call_second_commit_fails demo_settings "CA123"
           "+1555" "+1800" (faulty_world empty_db [false; true]) []);
    reflexivity.
Defined.

Lemma handle_user_speech_synthesis_failure_witness :
  let w := world_of talking_db reply_then_failures in
  db_reliable w
  /\ calls_with_sid "CA123" (db w) = [talking_call]
  /\ conversations_of (call_id talking_call) (db w) = [talking_conversation]
  /\ opt_truthy (turn_voice demo_settings (db w)) = false
  /\ exists w',
      CallHandler.handle_user_speech demo_settings demo_json_loads "CA123"
        "Gracias" (open_session w)
      = (Ok [Say "Disculpa, tuve un problema. ¿Puedes repetir?" "es-ES";
             Gather "speech" (TwilioService.gather_action demo_settings)
                    "POST" "auto" "es-ES" []], w')
      /\ db w' = turn_db demo_json_loads "Gracias" w talking_conversation.
Proof.
  cbv zeta.
  split; [constructor|]. split; [reflexivity|]. split; [reflexivity|].
  split; [reflexivity|].
  destruct (@handle_user_speech_synthesis_failure demo_settings
              demo_json_loads "CA123" "Gracias"
              (world_of talking_db reply_then_failures)
              talking_call talking_conversation)
    as (w' & E & D & _).
  - constructor.
  - reflexivity.
  - reflexivity.
  - left. reflexivity.
  - exists w'. split; [exact E | exact D].
Defined.

Lemma handle_user_speech_plays_audio_witness :
  db_reliable speaking_world
  /\ calls_with_sid "CA123" (db speaking_world) = [talking_call]
  /\ conversations_of (call_id talking_call) (db speaking_world)
     = [talking_conversation]
  /\ opt_truthy (turn_voice voiced_settings (db speaking_world)) = true
  /\ next_synthesis speaking_world = Ok "ID3"
  /\ exists w',
      CallHandler.handle_user_speech voiced_settings demo_json_loads "CA123"
        "Gracias" (open_session speaking_world)
      = (Ok [Play "https://storage.example.com/audio/CA123.mp3";
             Gather "speech" (TwilioService.gather_action voiced_settings)
                    "POST" "auto" "es-ES" []], w').
Proof.
  split; [constructor|]. split; [reflexivity|]. split; [reflexivity|].
  split; [reflexivity|]. split; [reflexivity|].
  destruct (@handle_user_speech_plays_audio voiced_settings demo_json_loads
              "CA123" "Gracias" speaking_world talking_call
              talking_conversation "ID3")
    as (w' & E & _).
  - constructor.
  - reflexivity.
  - reflexivity.
  - reflexivity.
  - reflexivity.
  - exists w'. exact E.
Defined.

Lemma handle_user_speech_provider_traffic_witness :
  db_reliable speaking_world
  /\ calls_with_sid "CA123" (db speaking_world) = [talking_call]
  /\ conversations_of (call_id talking_call) (db speaking_world)
     = [talking_conversation]
  /\ exists twiml w',
      CallHandler.handle_user_speech voiced_settings demo_json_loads "CA123"
        "Gracias" (open_session speaking_world)
      = (Ok twiml, w')
      /\ length (requests w') = 4
      /\ openai_replies w' = [].
Proof.
  split; [constructor|]. split; [reflexivity|]. split; [reflexivity|].
  destruct (@handle_user_speech_provider_traffic voiced_settings
              demo_json_loads "CA123" "Gracias" speaking_world talking_call
              talking_conversation)
    as (twiml & w' & E & Q & O).
  - constructor.
  - reflexivity.
  - reflexivity.
  - exists twiml, w'. split; [exact E|]. split.
    + rewrite Q. reflexivity.
    + rewrite O. reflexivity.
Defined.

Lemma text_to_speech_resolved_voice_witness :
  py_or (Some "") (elevenlabs_default_voice_id voiced_settings)
  = Some "voice-1"
  /\ str_truthy "voice-1" = true
  /\ exists w',
      ElevenLabsService.text_to_speech voiced_settings "Hola" (Some "") None
        (1 # 2)%Q (3 # 4)%Q speaking_world
      = (Ok "ID3", w')
      /\ requests w'
         = [SynthesisRequest "Hola" "voice-1" "eleven_multilingual_v2"
              (1 # 2)%Q (3 # 4)%Q].
Proof.
  split; [reflexivity|]. split; [reflexivity|].
  destruct (@text_to_speech_resolved_voice voiced_settings "Hola" (Some "")
              None (1 # 2)%Q (3 # 4)%Q speaking_world "voice-1")
    as (w' & E & Q & _).
  - reflexivity.
  - reflexivity.
  - exists w'. split; [exact E | exact Q].
Defined.

Lemma mask_sensitive_data_short_witness :
  (Z.of_nat (String.length "sk-12345") <= 2 * 4)%Z
  /\ mask_sensitive_data "sk-12345" 4 = "********".
Proof.
  split; [vm_compute; discriminate|].
  destruct (@mask_sensitive_data_short "sk-12345" 4%Z) as (E & _).
  - vm_compute. discriminate.
  - exact E.
Defined.

Lemma mask_sensitive_data_long_witness :
  0 < 4
  /\ 2 * 4 < String.length "sk-1234567890abcdef"
  /\ mask_sensitive_data "sk-1234567890abcdef" (Z.of_nat 4) = "sk-1...cdef".
Proof.
  split; [lia|]. split; [cbn; lia|].
  destruct (@mask_sensitive_data_long "sk-1234567890abcdef" 4) as (E & _).
  - lia.
  - cbn. lia.
  - exact E.
Defined.

Lemma mask_sensitive_data_zero_witness :
  "hunter2" <> ""
  /\ mask_sensitive_data "hunter2" 0 = "...hunter2".
Proof.
  split; [discriminate|].
  apply (@mask_sensitive_data_zero "hunter2"). discriminate.
Defined.

Lemma censor_dict_redacts_witness :
  Logging.visited (Logging.censor_dict (fun key => key) login_event)
    [("name", PyStr "ana"); ("password", PyStr "***REDACTED***")]
  /\ In ("password", PyStr "***REDACTED***")
        [("name", PyStr "ana"); ("password", PyStr "***REDACTED***")]
  /\ Logging.is_sensitive (fun key => key) "password" = true
  /\ PyStr "***REDACTED***" = PyStr "***REDACTED***".
Proof.
  assert (V : Logging.visited
                (Logging.censor_dict (fun key => key) login_event)
                [("name", PyStr "ana");
                 ("password", PyStr "***REDACTED***")]).
  { eapply Logging.visited_value; [|apply Logging.visited_here].
    right. left. reflexivity. }
  assert (I : In ("password", PyStr "***REDACTED***")
                 [("name", PyStr "ana");
                  ("password", PyStr "***REDACTED***")])
    by (right; left; reflexivity).
  split; [exact V|]. split; [exact I|]. split; [reflexivity|].
  exact (@censor_dict_redacts (fun key => key) login_event _ _ _ V I
           eq_refl).
Defined.

Lemma censor_dict_substring_match_witness :
  In "token" Logging.sensitive_keys
  /\ "max_tokens" = "max_" +++ "token" +++ "s"
  /\ In ("max_tokens", PyNum "500") [("max_tokens", PyNum "500")]
  /\ In ("max_tokens", PyStr "***REDACTED***")
        (Logging.censor_dict (fun key => key) [("max_tokens", PyNum "500")]).
Proof.
  assert (W : In "token" Logging.sensitive_keys)
    by (right; left; reflexivity).
  assert (I : In ("max_tokens", PyNum "500") [("max_tokens", PyNum "500")])
    by (left; reflexivity).
  split; [exact W|]. split; [reflexivity|]. split; [exact I|].
  exact (@censor_dict_substring_match (fun key => key) _ "max_tokens"
           (PyNum "500") "token" "max_" "s" W eq_refl I).
Defined.

Lemma censor_dict_passes_nested_lists_witness :
  Logging.is_sensitive (fun key => key) "attempts" = false
  /\ forallb not_dict [PyList [PyDict [("password", PyStr "hunter2")]]] = true
  /\ Logging.censor_dict (fun key => key)
       ([] ++ ("attempts",
               PyList [PyList [PyDict [("password", PyStr "hunter2")]]])
           :: [])
     = Logging.censor_dict (fun key => key) []
       ++ ("attempts",
           PyList [PyList [PyDict [("password", PyStr "hunter2")]]])
          :: Logging.censor_dict (fun key => key) [].
Proof.
  split; [reflexivity|]. split; [reflexivity|].
  apply censor_dict_passes_nested_lists; reflexivity.
Defined.

Lemma handle_call_status_other_status_witness :
  let w := world_of talking_db [] in
  "busy" <> "completed"
  /\ exists w',
      TwilioWebhooks.handle_call_status demo_settings demo_int "CA123" "busy"
        None None (open_session w)
      = (Ok (PyDict [("status", PyStr "received")]), w')
      /\ db w' = db w.
Proof.
  cbv zeta. split; [discriminate|].
  destruct (@handle_call_status_other_status demo_settings demo_int "CA123"
              "busy" None None (world_of talking_db []))
    as (w' & E & D & _).
  - discriminate.
  - exists w'. split; [exact E | exact D].
Defined.

Lemma handle_call_status_bad_duration_witness :
  let w := world_of talking_db [] in
  str_truthy "soon" = true
  /\ demo_int "soon"
     = Raise (ProviderError
                "invalid literal for int() with base 10: 'soon'")
  /\ exists w',
      TwilioWebhooks.handle_call_status demo_settings demo_int "CA123"
        "completed" (Some "soon") None (open_session w)
      = (Ok (PyDict [("status", PyStr "error");
                     ("message",
                      PyStr "invalid literal for int() with base 10: 'soon'")]),
         w')
      /\ db w' = db w.
Proof.
  cbv zeta. split; [reflexivity|]. split; [reflexivity|].
  destruct (@handle_call_status_bad_duration demo_settings demo_int "CA123"
              "soon" None (world_of talking_db [])
              (ProviderError
                 "invalid literal for int() with base 10: 'soon'"))
    as (w' & E & D & _).
  - reflexivity.
  - reflexivity.
  - exists w'. split; [exact E | exact D].
Defined.

Lemma recording_then_completed_erases_recording_witness :
  let w := world_of talking_db [] in
  db_reliable w
  /\ calls_with_sid "CA123" (db w) = [talking_call]
  /\ length (conversations_of (call_id talking_call) (db w)) <= 1
  /\ TwilioWebhooks.parse_duration demo_int (Some "42") = Ok (Some 42)
  /\ exists w1 w2,
      TwilioWebhooks.handle_recording_callback "CA123" "RE1"
        "https://api.twilio.com/recordings/RE1" "completed" (open_session w)
      = (Ok (PyDict [("status", PyStr "received")]), w1)
      /\ TwilioWebhooks.handle_call_status demo_settings demo_int "CA123"
           "completed" (Some "42") None (open_session w1)
         = (Ok (PyDict [("status", PyStr "received")]), w2)
      /\ forall x,
           In x (calls_with_sid "CA123" (db w2)) ->
           recording_url x = None /\ status x = COMPLETED
           /\ duration x = Some 42.
Proof.
  cbv zeta.
  split; [constructor|]. split; [reflexivity|]. split; [cbn; lia|].
  split; [reflexivity|].
  destruct (@recording_then_completed_erases_recording demo_settings
              demo_int "CA123" "RE1" "https://api.twilio.com/recordings/RE1"
              "completed" (Some "42") (Some 42) (world_of talking_db [])
              talking_call)
    as (w1 & w2 & E1 & _ & E2 & U).
  - constructor.
  - reflexivity.
  - cbn. lia.
  - reflexivity.
  - exists w1, w2. split; [exact E1|]. split; [exact E2 | exact U].
Defined.

Lemma first_turn_of_new_call_witness :
  let w := world_of empty_db reply_then_failures in
  db_reliable w
  /\ calls_with_sid "CA123" (db w) = []
  /\ exists w1 twiml w2,
      CallHandler.handle_incoming_call demo_settings "CA123" "+1555" "+1800"
        (open_session w)
      = (Ok (TwilioService.generate_greeting_twiml demo_settings
               (Some CallHandler.greeting)), w1)
      /\ CallHandler.handle_user_speech demo_settings demo_json_loads "CA123"
           "Hola" (open_session w1)
         = (Ok twiml, w2)
      /\ conversations_of (fresh_id (db w)) (db w2) <> [].
Proof.
  cbv zeta. split; [constructor|]. split; [reflexivity|].
  destruct (@first_turn_of_new_call demo_settings demo_json_loads "CA123"
              "+1555" "+1800" "Hola" (world_of empty_db reply_then_failures))
    as (w1 & twiml & w2 & later & E1 & E2 & N & _).
  - constructor.
  - reflexivity.
  - exists w1, twiml, w2. split; [exact E1|]. split; [exact E2 | exact N].
Defined.
